(** * WebScrapper.py: a shallow embedding of the scheduled web scraper

    The development follows [src/WebScrapper.py] class by class:
    [ScrapeConfig], [BaseScraper.retry_scrape], [StaticScraper.scrape],
    [DynamicScraper.scrape], [DataExporter] and [WebScraperScheduler].

    Python values are modelled as the code has them: [str] as [string],
    [int] as [Z], an insertion-ordered [dict] as an association list with
    unique keys ([dict_set] updates in place or appends), [None] by a
    constructor of its own.  Effects (the clock, the logger, the file
    system, the [schedule] registry, the scheduler object) are threaded
    through a state-and-exception monad [M] over a [World]. *)

From Stdlib Require Import ZArith List String Ascii Bool Lia.
From Stdlib Require Import DecimalString DecimalPos DecimalZ.
From stdpp Require Import base option strings list gmap.
Import ListNotations.

Local Open Scope Z_scope.
Local Open Scope string_scope.

(** ** Python strings *)

Module PyStr.

  (** [str(n)] for an [int]. *)
Definition of_Z (z : Z) : string := NilZero.string_of_int (Z.to_int z).

Fixpoint rev_chars (s : string) (acc : string) : string :=
    match s with
    | EmptyString => acc
    | String c s' => rev_chars s' (String c acc)
    end.

Definition reverse (s : string) : string := rev_chars s EmptyString.

  (** [s.endswith(suffix)] *)
Definition endswith (s suffix : string) : bool :=
    String.prefix (reverse suffix) (reverse s).

  (** [s[:-n]] for a positive literal [n]: everything but the last [n]
      characters, the empty string when [s] is shorter. *)
Definition drop_last (n : nat) (s : string) : string :=
    String.substring 0 (String.length s - n) s.

  (** The ASCII characters for which [str.isspace] holds. *)
Definition is_space (c : ascii) : bool :=
    let n := nat_of_ascii c in
    ((9 <=? n) && (n <=? 13) || (28 <=? n) && (n <=? 32))%nat.

Fixpoint lstrip (s : string) : string :=
    match s with
    | EmptyString => EmptyString
    | String c s' => if is_space c then lstrip s' else s
    end.

  (** [s.strip()] *)
Definition strip (s : string) : string :=
    reverse (lstrip (reverse (lstrip s))).

Definition digit_of (c : ascii) : option Z :=
    let n := nat_of_ascii c in
    if ((48 <=? n) && (n <=? 57))%nat then Some (Z.of_nat n - 48) else None.

  (** Digits of an integer literal: a non-empty run of decimal digits in
      which single underscores may separate digits.  [prev_digit] says
      whether the previous character was a digit. *)
Fixpoint digits (s : string) (prev_digit : bool) (acc : Z) : option Z :=
    match s with
    | EmptyString => if prev_digit then Some acc else None
    | String c s' =>
        match digit_of c with
        | Some d => digits s' true (10 * acc + d)
        | None =>
            if (Ascii.eqb c "_" && prev_digit)%bool
            then match s' with
                 | EmptyString => None
                 | _ => digits s' false acc
                 end
            else None
        end
    end.

  (** [int(s)] on an ASCII string: [None] stands for [ValueError]. *)
Definition int (s : string) : option Z :=
    match strip s with
    | String "-" r => Z.opp <$> digits r false 0
    | String "+" r => digits r false 0
    | r => digits r false 0
    end.

  (** Truthiness of a [str]: the empty string is falsy. *)
Definition truthy (s : string) : bool :=
    match s with EmptyString => false | _ => true end.

End PyStr.

(** ** Python dictionaries (insertion ordered, unique keys) *)

Section PyDict.
Context {V : Type}.

Fixpoint dict_get (d : list (string * V)) (k : string) : option V :=
    match d with
    | [] => None
    | (k', v) :: d' => if String.eqb k' k then Some v else dict_get d' k
    end.

  (** [d[k] = v]: an existing key keeps its position, a new one is
      appended. *)
Fixpoint dict_set (d : list (string * V)) (k : string) (v : V)
    : list (string * V) :=
    match d with
    | [] => [(k, v)]
    | (k', v') :: d' =>
        if String.eqb k' k then (k', v) :: d' else (k', v') :: dict_set d' k v
    end.

Definition dict_keys (d : list (string * V)) : list string := map fst d.

  (** [k in d] *)
Definition dict_mem (d : list (string * V)) (k : string) : bool :=
    match dict_get d k with Some _ => true | None => false end.

End PyDict.

(** ** Values, records and exceptions *)

(** A field of a scraped item is a [str] or [None]. *)
Inductive Value :=
| VNone
| VStr (s : string).

Definition Item := list (string * Value).

(** The subclasses of [Exception] that the code and its libraries raise. *)
Inductive Exn :=
| IndexError (msg : string)
| KeyError (key : string)
| ValueError (msg : string)
| HTTPError (status : Z)
| RequestException (msg : string)
| TimeoutException (msg : string)
| WebDriverException (msg : string)
| NoSuchElementException (msg : string)
| OSError (msg : string).

(** [str(e)] *)
Definition exn_str (e : Exn) : string :=
  match e with
  | IndexError m | ValueError m | RequestException m | TimeoutException m
  | WebDriverException m | NoSuchElementException m | OSError m => m
  | KeyError k => "'" ++ k ++ "'"
  | HTTPError st => PyStr.of_Z st ++ " Error"
  end.

(** ** Configuration *)

Record ScrapeConfig := {
  name : string;
  url : string;
  scrape_type : string;
  selectors : list (string * string);
  schedule_interval : string;
  output_format : string;
  max_retries : Z;
  timeout : Z;
  headers : option (list (string * string));
  wait_for_element : option string
}.

(** ** The world *)

Inductive Level := INFO | WARNING | ERROR.

Record LogRecord := {
  lr_time : Z;
  lr_level : Level;
  lr_msg : string
}.

(** Calls that leave the program, in the order they are made. *)
Inductive Event :=
| EvScrape
| EvSleep (secs : Z)
| EvDriverStart
| EvDriverQuit.

Inductive TimeUnit := Minutes | Hours | Days.

(** A job of the [schedule] library: [every(interval).unit.do(_run_job, job)]. *)
Record Trigger := {
  tr_interval : Z;
  tr_unit : TimeUnit;
  tr_job : string;
  tr_next_run : Z
}.

Record World := {
  clock : Z;
  log : list LogRecord;
  trace : list (Z * Event);
  fetches : nat;
  driver : bool;
  files : gmap string string;
  tables : gmap (string * string) (list Item);
  triggers : list Trigger;
  jobs : list (string * ScrapeConfig);
  running : bool
}.

Definition set_clock (t : Z) (w : World) : World :=
  {| clock := t; log := log w; trace := trace w; fetches := fetches w;
     driver := driver w; files := files w; tables := tables w;
     triggers := triggers w; jobs := jobs w; running := running w |}.

Definition set_log (l : list LogRecord) (w : World) : World :=
  {| clock := clock w; log := l; trace := trace w; fetches := fetches w;
     driver := driver w; files := files w; tables := tables w;
     triggers := triggers w; jobs := jobs w; running := running w |}.

Definition set_trace (t : list (Z * Event)) (w : World) : World :=
  {| clock := clock w; log := log w; trace := t; fetches := fetches w;
     driver := driver w; files := files w; tables := tables w;
     triggers := triggers w; jobs := jobs w; running := running w |}.

Definition set_fetches (n : nat) (w : World) : World :=
  {| clock := clock w; log := log w; trace := trace w; fetches := n;
     driver := driver w; files := files w; tables := tables w;
     triggers := triggers w; jobs := jobs w; running := running w |}.

Definition set_driver (b : bool) (w : World) : World :=
  {| clock := clock w; log := log w; trace := trace w; fetches := fetches w;
     driver := b; files := files w; tables := tables w;
     triggers := triggers w; jobs := jobs w; running := running w |}.

Definition set_files (f : gmap string string) (w : World) : World :=
  {| clock := clock w; log := log w; trace := trace w; fetches := fetches w;
     driver := driver w; files := f; tables := tables w;
     triggers := triggers w; jobs := jobs w; running := running w |}.

Definition set_tables (t : gmap (string * string) (list Item)) (w : World)
  : World :=
  {| clock := clock w; log := log w; trace := trace w; fetches := fetches w;
     driver := driver w; files := files w; tables := t;
     triggers := triggers w; jobs := jobs w; running := running w |}.

Definition set_triggers (t : list Trigger) (w : World) : World :=
  {| clock := clock w; log := log w; trace := trace w; fetches := fetches w;
     driver := driver w; files := files w; tables := tables w;
     triggers := t; jobs := jobs w; running := running w |}.

Definition set_jobs (j : list (string * ScrapeConfig)) (w : World) : World :=
  {| clock := clock w; log := log w; trace := trace w; fetches := fetches w;
     driver := driver w; files := files w; tables := tables w;
     triggers := triggers w; jobs := j; running := running w |}.

Definition set_running (b : bool) (w : World) : World :=
  {| clock := clock w; log := log w; trace := trace w; fetches := fetches w;
     driver := driver w; files := files w; tables := tables w;
     triggers := triggers w; jobs := jobs w; running := b |}.

(** A fresh process at time [t]: nothing logged, no file, and
    [WebScraperScheduler.__init__] has set [jobs = {}], [running = False]. *)
Definition init_world (t : Z) : World :=
  {| clock := t; log := []; trace := []; fetches := 0; driver := false;
     files := ∅; tables := ∅; triggers := []; jobs := []; running := false |}.

(** ** The state-and-exception monad *)

Inductive Outcome (A : Type) :=
| Ret (a : A)
| Raise (e : Exn).
Arguments Ret {A} a.
Arguments Raise {A} e.

Definition M (A : Type) : Type := World -> Outcome A * World.

Definition ret {A} (a : A) : M A := fun w => (Ret a, w).

Definition raise {A} (e : Exn) : M A := fun w => (Raise e, w).

Definition bind {A B} (m : M A) (k : A -> M B) : M B :=
  fun w =>
    match m w with
    | (Ret a, w') => k a w'
    | (Raise e, w') => (Raise e, w')
    end.

Declare Scope py_scope.
Delimit Scope py_scope with py.
Notation "x <- c ;; k" := (bind c (fun x => k))
  (at level 100, c at next level, right associativity) : py_scope.
Notation "c ;;; k" := (bind c (fun _ => k))
  (at level 100, right associativity) : py_scope.
Local Open Scope py_scope.

(** [try: body except Exception as e: handler e] *)
Definition try_except {A} (body : M A) (handler : Exn -> M A) : M A :=
  fun w =>
    match body w with
    | (Ret a, w') => (Ret a, w')
    | (Raise e, w') => handler e w'
    end.

(** [try: body finally: fin]: an exception of [fin] replaces the outcome
    of [body]. *)
Definition try_finally {A} (body : M A) (fin : M unit) : M A :=
  fun w =>
    match body w with
    | (r, w') =>
        match fin w' with
        | (Ret _, w'') => (r, w'')
        | (Raise e, w'') => (Raise e, w'')
        end
    end.

Definition get_world : M World := fun w => (Ret w, w).

Definition modify (f : World -> World) : M unit := fun w => (Ret tt, f w).

Definition emit (ev : Event) : M unit :=
  modify (fun w => set_trace (trace w ++ [(clock w, ev)]) w).

(** [logger.info], [logger.warning], [logger.error]: one record, stamped
    with the time of the call. *)
Definition logger (lvl : Level) (msg : string) : M unit :=
  modify (fun w =>
    set_log (log w ++ [{| lr_time := clock w; lr_level := lvl;
                           lr_msg := msg |}]) w).

(** [time.sleep(secs)] *)
Definition sleep (secs : Z) : M unit :=
  emit (EvSleep secs) ;;; modify (fun w => set_clock (clock w + secs) w).

(** ** BaseScraper *)

Section BaseScraper.
  (** The abstract method [scrape] of the subclass. *)
Variable scrape : M (list Item).

  (** [self.scrape()], recorded as a call. *)
Definition call_scrape : M (list Item) := emit EvScrape ;;; scrape.

  (** The body of [for attempt in range(max_retries)], over the attempts
      that remain.  A loop that runs out falls off the end of the function,
      which returns [None]. *)
Fixpoint retry_loop (max : Z) (attempts : list nat)
    : M (option (list Item)) :=
    match attempts with
    | [] => ret None
    | attempt :: rest =>
        try_except (data <- call_scrape ;; ret (Some data))
          (fun e =>
             logger WARNING ("Scraping attempt "
                             ++ PyStr.of_Z (Z.of_nat attempt + 1)
                             ++ " failed: " ++ exn_str e) ;;;
             if (Z.of_nat attempt <? max - 1)%Z
             then sleep (2 ^ Z.of_nat attempt)%Z ;;; retry_loop max rest
             else raise e)
    end.

Definition retry_scrape (config : ScrapeConfig)
    : M (option (list Item)) :=
    retry_loop (max_retries config)
               (seq 0 (Z.to_nat (max_retries config))).

End BaseScraper.

(** ** External capabilities

    What the program asks of its libraries and of the host: the DOM
    queries of BeautifulSoup, the network, the Selenium browser session,
    time formatting, pandas' CSV rendering and faults of the sinks.
    Selectors are opaque strings, resolved by these capabilities.  The
    network and the browser are indexed by the number of fetches made so
    far, so that successive attempts may meet different outcomes. *)

Class Env := {
  (* BeautifulSoup *)
  Soup : Type;
  Tag : Type;
  select : Soup -> string -> list Tag;
  select_one : Tag -> string -> option Tag;
  tag_get : Tag -> string -> option string;
  get_text_strip : Tag -> string;
  (* requests: status code and parsed body, or the exception raised *)
  http_get : string -> list (string * string) -> Z -> nat -> Exn + (Z * Soup);
  (* Selenium *)
  Page : Type;
  WebElement : Type;
  chrome_start : nat -> option Exn;
  driver_get : string -> nat -> Exn + Page;
  wait_present : Page -> string -> Z -> bool;
  find_elements : Page -> string -> Exn + list WebElement;
  find_element : WebElement -> string -> Exn + WebElement;
  get_attribute : WebElement -> string -> Exn + option string;
  element_text : WebElement -> Exn + string;
  (* datetime *)
  isoformat : Z -> string;
  strftime : Z -> string;
  (* sinks *)
  df_to_csv : list Item -> string;
  io_fault : string -> option Exn
}.

(** Truthiness of the result of [element.get(attr)]: [None] and the empty
    string are falsy. *)
Definition attr_truthy (o : option string) : bool :=
  match o with
  | Some s => PyStr.truthy s
  | None => false
  end.

Definition attr_value (o : option string) : Value :=
  match o with
  | Some s => VStr s
  | None => VNone
  end.

(** [list(d.keys())[0]] *)
Definition first_key {V} (d : list (string * V)) : M string :=
  match d with
  | [] => raise (IndexError "list index out of range")
  | (k, _) :: _ => ret k
  end.

(** The two provenance entries every item starts with. *)
Definition stamp_item `{Env} (now : Z) (config : ScrapeConfig) : Item :=
  dict_set (dict_set [] "scraped_at" (VStr (isoformat now)))
           "url" (VStr (url config)).

(** ** StaticScraper *)

Module StaticScraper.
Section WithEnv.
Context `{Env}.

  (** The value taken from a resolved element. *)
Definition element_value (element : Tag) : Value :=
    if attr_truthy (tag_get element "href")
    then attr_value (tag_get element "href")
    else if attr_truthy (tag_get element "src")
    then attr_value (tag_get element "src")
    else VStr (get_text_strip element).

  (** [for field, selector in self.config.selectors.items()] *)
Fixpoint fill_fields (container : Tag) (container_selector : string)
      (entries : list (string * string)) (item : Item) : Item :=
    match entries with
    | [] => item
    | (field, selector) :: rest =>
        if String.eqb field container_selector
        then fill_fields container container_selector rest item
        else
          let item' :=
            match select_one container selector with
            | Some element => dict_set item field (element_value element)
            | None => dict_set item field VNone
            end in
          fill_fields container container_selector rest item'
    end.

  (** [for container in containers] *)
Fixpoint each_container (config : ScrapeConfig) (container_selector : string)
      (containers : list Tag) (data : list Item) : M (list Item) :=
    match containers with
    | [] => ret data
    | container :: rest =>
        w <- get_world ;;
        let item := stamp_item (clock w) config in
        let item := fill_fields container container_selector
                                (selectors config) item in
        each_container config container_selector rest (data ++ [item])
    end.

  (** [BaseScraper.__init__]: the headers of the session. *)
Definition session_headers (config : ScrapeConfig)
    : list (string * string) :=
    match headers config with
    | Some h => h
    | None => []
    end.

  (** [self.session.get(url, timeout=...)] *)
Definition session_get (config : ScrapeConfig) : M (Z * Soup) :=
    w <- get_world ;;
    modify (set_fetches (S (fetches w))) ;;;
    match http_get (url config) (session_headers config) (timeout config)
                   (fetches w) with
    | inl e => raise e
    | inr r => ret r
    end.

  (** [response.raise_for_status()] *)
Definition raise_for_status (status : Z) : M unit :=
    if ((400 <=? status) && (status <? 600))%Z
    then raise (HTTPError status)
    else ret tt.

Definition scrape (config : ScrapeConfig) : M (list Item) :=
    logger INFO ("Starting static scrape of " ++ url config) ;;;
    response <- session_get config ;;
    raise_for_status (fst response) ;;;
    let soup := snd response in
    container_selector <- first_key (selectors config) ;;
    let containers := select soup container_selector in
    data <- each_container config container_selector containers [] ;;
    logger INFO ("Static scrape completed. Found "
                 ++ PyStr.of_Z (Z.of_nat (length data)) ++ " items") ;;;
    ret data.

End WithEnv.
End StaticScraper.

(** ** DynamicScraper *)

Module DynamicScraper.
Section WithEnv.
Context `{Env}.

  (** The body of the per-field [try]: any exception of the lookup or of
      the reads that follow it leaves the block. *)
Definition element_value (element : WebElement) : Exn + Value :=
    match get_attribute element "href" with
    | inl e => inl e
    | inr href =>
        if attr_truthy href
        then match get_attribute element "href" with
             | inl e => inl e
             | inr v => inr (attr_value v)
             end
        else
          match get_attribute element "src" with
          | inl e => inl e
          | inr src =>
              if attr_truthy src
              then match get_attribute element "src" with
                   | inl e => inl e
                   | inr v => inr (attr_value v)
                   end
              else match element_text element with
                   | inl e => inl e
                   | inr t => inr (VStr (PyStr.strip t))
                   end
          end
    end.

Definition field_value (container : WebElement) (selector : string)
    : Exn + Value :=
    match find_element container selector with
    | inl e => inl e
    | inr element => element_value element
    end.

Fixpoint fill_fields (container : WebElement) (container_selector : string)
      (entries : list (string * string)) (item : Item) : Item :=
    match entries with
    | [] => item
    | (field, selector) :: rest =>
        if String.eqb field container_selector
        then fill_fields container container_selector rest item
        else
          let item' :=
            match field_value container selector with
            | inr v => dict_set item field v
            | inl _ => dict_set item field VNone
            end in
          fill_fields container container_selector rest item'
    end.

Fixpoint each_container (config : ScrapeConfig) (container_selector : string)
      (containers : list WebElement) (data : list Item) : M (list Item) :=
    match containers with
    | [] => ret data
    | container :: rest =>
        w <- get_world ;;
        let item := stamp_item (clock w) config in
        let item := fill_fields container container_selector
                                (selectors config) item in
        each_container config container_selector rest (data ++ [item])
    end.

  (** [_setup_driver]: [self.driver] is assigned only when Chrome starts. *)
Definition _setup_driver : M unit :=
    w <- get_world ;;
    match chrome_start (fetches w) with
    | Some e => raise e
    | None => emit EvDriverStart ;;; modify (set_driver true)
    end.

  (** [self.driver.get(url)] *)
Definition navigate (config : ScrapeConfig) : M Page :=
    w <- get_world ;;
    modify (set_fetches (S (fetches w))) ;;;
    match driver_get (url config) (fetches w) with
    | inl e => raise e
    | inr p => ret p
    end.

  (** [WebDriverWait(driver, timeout).until(presence_of_element_located)] *)
Definition wait_for (config : ScrapeConfig) (page : Page) : M unit :=
    match wait_for_element config with
    | Some sel =>
        if PyStr.truthy sel
        then if wait_present page sel (timeout config)
             then ret tt
             else raise (TimeoutException "")
        else ret tt
    | None => ret tt
    end.

Definition quit_driver : M unit :=
    w <- get_world ;;
    if driver w then emit EvDriverQuit else ret tt.

Definition scrape (config : ScrapeConfig) : M (list Item) :=
    logger INFO ("Starting dynamic scrape of " ++ url config) ;;;
    try_finally
      (_setup_driver ;;;
       page <- navigate config ;;
       wait_for config page ;;;
       sleep 2 ;;;
       container_selector <- first_key (selectors config) ;;
       match find_elements page container_selector with
       | inl e => raise e
       | inr containers =>
           data <- each_container config container_selector containers [] ;;
           logger INFO ("Dynamic scrape completed. Found "
                        ++ PyStr.of_Z (Z.of_nat (length data)) ++ " items") ;;;
           ret data
       end)
      quit_driver.

End WithEnv.
End DynamicScraper.

(** ** json.dump(data, f, indent=2, ensure_ascii=False) *)

Module Json.

Definition quote : string := String "034"%char EmptyString.
Definition backslash : string := String "092"%char EmptyString.
Definition newline : string := String "010"%char EmptyString.

Definition hex_digit (n : nat) : ascii :=
    nth n ["0"; "1"; "2"; "3"; "4"; "5"; "6"; "7"; "8"; "9";
           "a"; "b"; "c"; "d"; "e"; "f"]%char "0"%char.

Definition escape_char (c : ascii) : string :=
    let n := nat_of_ascii c in
    if (n =? 34)%nat then backslash ++ quote
    else if (n =? 92)%nat then backslash ++ backslash
    else if (n =? 10)%nat then backslash ++ "n"
    else if (n =? 13)%nat then backslash ++ "r"
    else if (n =? 9)%nat then backslash ++ "t"
    else if (n =? 8)%nat then backslash ++ "b"
    else if (n =? 12)%nat then backslash ++ "f"
    else if (n <? 32)%nat
    then backslash ++ "u00"
         ++ String (hex_digit (n / 16)) (String (hex_digit (n mod 16)) "")
    else String c "".

Fixpoint escape (s : string) : string :=
    match s with
    | EmptyString => EmptyString
    | String c s' => escape_char c ++ escape s'
    end.

Definition of_str (s : string) : string := quote ++ escape s ++ quote.

Definition of_value (v : Value) : string :=
    match v with
    | VNone => "null"
    | VStr s => of_str s
    end.

  (** The members of an object or array, one per line at [indent]. *)
Fixpoint lines (indent : string) (members : list string) : string :=
    match members with
    | [] => ""
    | [m] => newline ++ indent ++ m
    | m :: ms => newline ++ indent ++ m ++ "," ++ lines indent ms
    end.

Definition of_item (item : Item) : string :=
    match item with
    | [] => "{}"
    | _ => "{"
           ++ lines "    " (map (fun kv => of_str (fst kv) ++ ": "
                                              ++ of_value (snd kv)) item)
           ++ newline ++ "  }"
    end.

Definition of_list (data : list Item) : string :=
    match data with
    | [] => "[]"
    | _ => "[" ++ lines "  " (map of_item data) ++ newline ++ "]"
    end.

  (** [data] is a list, or [None] when the retry loop never ran. *)
Definition dumps (data : option (list Item)) : string :=
    match data with
    | None => "null"
    | Some l => of_list l
    end.

End Json.

(** ** DataExporter *)

Module DataExporter.
Section WithEnv.
Context `{Env}.

  (** [not data]: [None] and the empty list are falsy. *)
Definition falsy (data : option (list Item)) : bool :=
    match data with
    | None | Some [] => true
    | Some (_ :: _) => false
    end.

Definition rows (data : option (list Item)) : list Item :=
    match data with
    | None => []
    | Some l => l
    end.

  (** Opening the named sink for writing. *)
Definition open_sink (sink : string) : M unit :=
    match io_fault sink with
    | Some e => raise e
    | None => ret tt
    end.

Definition write_file (filename content : string) : M unit :=
    open_sink filename ;;;
    modify (fun w => set_files (<[filename := content]> (files w)) w).

Definition to_csv (data : option (list Item)) (filename : string) : M unit :=
    if falsy data
    then logger WARNING "No data to export to CSV"
    else
      write_file filename (df_to_csv (rows data)) ;;;
      logger INFO ("Data exported to CSV: " ++ filename).

Definition to_json (data : option (list Item)) (filename : string) : M unit :=
    write_file filename (Json.dumps data) ;;;
    logger INFO ("Data exported to JSON: " ++ filename).

  (** [df.to_sql(table_name, conn, if_exists='append', index=False)] *)
Definition to_sql (db_name table_name : string) (new_rows : list Item)
    : M unit :=
    modify (fun w =>
      let old : list Item := default [] (tables w !! (db_name, table_name)) in
      set_tables (<[(db_name, table_name) := (old ++ new_rows)%list]>
                    (tables w)) w).

Definition to_database (data : option (list Item))
      (db_name table_name : string) : M unit :=
    if falsy data
    then logger WARNING "No data to export to database"
    else
      open_sink db_name ;;;
      to_sql db_name table_name (rows data) ;;;
      logger INFO ("Data exported to database: " ++ db_name
                   ++ ", table: " ++ table_name).

End WithEnv.
End DataExporter.

(** ** The [schedule] library *)

Module Schedule.

Definition unit_seconds (u : TimeUnit) : Z :=
    match u with
    | Minutes => 60
    | Hours => 3600
    | Days => 86400
    end.

Definition period (t : Trigger) : Z := tr_interval t * unit_seconds (tr_unit t).

  (** [schedule.every(interval).<unit>.do(job_func, job_name)] *)
Definition every_do (interval : Z) (u : TimeUnit) (job_name : string)
    : M unit :=
    modify (fun w =>
      set_triggers
        (triggers w ++ [{| tr_interval := interval; tr_unit := u;
                           tr_job := job_name;
                           tr_next_run := clock w + interval * unit_seconds u |}])
        w).

Definition should_run (now : Z) (t : Trigger) : bool :=
    (tr_next_run t <=? now)%Z.

  (** Positions of the due triggers, earliest [next_run] first. *)
Fixpoint insert_due (ts : list Trigger) (i : nat) (sorted : list nat)
    : list nat :=
    match sorted with
    | [] => [i]
    | j :: rest =>
        let key k := match ts !! k with
                     | Some t => tr_next_run t
                     | None => 0
                     end in
        if (key i <? key j)%Z then i :: sorted
        else j :: insert_due ts i rest
    end.

Definition due (now : Z) (ts : list Trigger) : list nat :=
    fold_left (fun acc i => insert_due ts i acc)
      (List.filter (fun i => match ts !! i with
                             | Some t => should_run now t
                             | None => false
                             end)
                   (seq 0 (length ts)))
      [].

  (** After a job has run, its next run is one period from now. *)
Definition reschedule (i : nat) : M unit :=
    modify (fun w =>
      set_triggers
        (match triggers w !! i with
         | Some t =>
             <[i := {| tr_interval := tr_interval t; tr_unit := tr_unit t;
                       tr_job := tr_job t;
                       tr_next_run := clock w + period t |}]> (triggers w)
         | None => triggers w
         end) w).

Section RunPending.
    (** The function every job was scheduled with. *)
Variable job_func : string -> M unit.

Fixpoint run_all (positions : list nat) : M unit :=
      match positions with
      | [] => ret tt
      | i :: rest =>
          w <- get_world ;;
          match triggers w !! i with
          | Some t => job_func (tr_job t) ;;; reschedule i ;;; run_all rest
          | None => run_all rest
          end
      end.

    (** [schedule.run_pending()] *)
Definition run_pending : M unit :=
      w <- get_world ;;
      run_all (due (clock w) (triggers w)).
End RunPending.

End Schedule.

(** ** WebScraperScheduler *)

Module WebScraperScheduler.
Section WithEnv.
Context `{Env}.

  (** [int(text)], raising [ValueError] as Python does. *)
Definition parse_int (text : string) : M Z :=
    match PyStr.int text with
    | Some n => ret n
    | None => raise (ValueError ("invalid literal for int() with base 10: '"
                                 ++ text ++ "'"))
    end.

Definition add_job (config : ScrapeConfig) : M unit :=
    modify (fun w => set_jobs (dict_set (jobs w) (name config) config) w) ;;;
    (if PyStr.endswith (schedule_interval config) "min"
     then
       minutes <- parse_int (PyStr.drop_last 3 (schedule_interval config)) ;;
       Schedule.every_do minutes Minutes (name config)
     else if PyStr.endswith (schedule_interval config) "hour"
     then
       hours <- parse_int (PyStr.drop_last 4 (schedule_interval config)) ;;
       Schedule.every_do hours Hours (name config)
     else if PyStr.endswith (schedule_interval config) "day"
     then
       days <- parse_int (PyStr.drop_last 3 (schedule_interval config)) ;;
       Schedule.every_do days Days (name config)
     else
       logger ERROR ("Invalid schedule interval: "
                     ++ schedule_interval config)) ;;;
    logger INFO ("Job '" ++ name config ++ "' added with interval: "
                 ++ schedule_interval config).

  (** The scraper chosen by [scrape_type]; constructing a
      [DynamicScraper] sets its [driver] to [None]. *)
Definition make_scraper (config : ScrapeConfig) : M (M (list Item)) :=
    if String.eqb (scrape_type config) "static"
    then ret (StaticScraper.scrape config)
    else modify (set_driver false) ;;; ret (DynamicScraper.scrape config).

Definition export (config : ScrapeConfig) (job_name : string)
      (data : option (list Item)) : M unit :=
    w <- get_world ;;
    let timestamp := strftime (clock w) in
    if String.eqb (output_format config) "csv"
    then DataExporter.to_csv data (job_name ++ "_" ++ timestamp ++ ".csv")
    else if String.eqb (output_format config) "json"
    then DataExporter.to_json data (job_name ++ "_" ++ timestamp ++ ".json")
    else if String.eqb (output_format config) "database"
    then DataExporter.to_database data (job_name ++ ".db") job_name
    else ret tt.

  (** The body of the [try] of [_run_job]. *)
Definition run_body (config : ScrapeConfig) (job_name : string) : M unit :=
    scraper <- make_scraper config ;;
    data <- retry_scrape scraper config ;;
    export config job_name data ;;;
    logger INFO ("Job '" ++ job_name ++ "' completed successfully").

Definition _run_job (job_name : string) : M unit :=
    w <- get_world ;;
    match dict_get (jobs w) job_name with
    | None => raise (KeyError job_name)
    | Some config =>
        logger INFO ("Running job: " ++ job_name) ;;;
        try_except (run_body config job_name)
          (fun e => logger ERROR ("Job '" ++ job_name ++ "' failed: "
                                  ++ exn_str e))
    end.

Definition run_job_now (job_name : string) : M unit :=
    w <- get_world ;;
    if dict_mem (jobs w) job_name
    then _run_job job_name
    else logger ERROR ("Job '" ++ job_name ++ "' not found").

  (** [while self.running: schedule.run_pending(); time.sleep(1)], for at
      most [ticks] rounds. *)
Fixpoint scheduler_loop (ticks : nat) : M unit :=
    match ticks with
    | O => ret tt
    | S n =>
        w <- get_world ;;
        if running w
        then Schedule.run_pending _run_job ;;; sleep 1 ;;; scheduler_loop n
        else ret tt
    end.

Definition start_scheduler (ticks : nat) : M unit :=
    modify (set_running true) ;;;
    logger INFO "Scheduler started" ;;;
    scheduler_loop ticks.

Definition stop_scheduler : M unit :=
    modify (set_running false) ;;;
    logger INFO "Scheduler stopped".

End WithEnv.
End WebScraperScheduler.

(** ** Observations on a world *)

Definition attempt_times (w : World) : list Z :=
  omap (fun te => match snd te with
                  | EvScrape => Some (fst te)
                  | _ => None
                  end) (trace w).

Definition sleeps (w : World) : list Z :=
  omap (fun te => match snd te with
                  | EvSleep s => Some s
                  | _ => None
                  end) (trace w).

(** The number of calls of [scrape] between two worlds. *)
Definition attempts_made (before after : World) : nat :=
  (length (attempt_times after) - length (attempt_times before))%nat.

(** Every trigger of the [schedule] registry names a stored job. *)
Definition triggers_registered (w : World) : Prop :=
  Forall (fun t => dict_mem (jobs w) (tr_job t) = true) (triggers w).

(** ** A scripted scraper

    A subclass of [BaseScraper] for exercising [retry_scrape]: its
    [scrape] takes the duration and the outcome of each call from a
    script, indexed by the number of fetches made so far. *)

Definition Script := nat -> nat * (Exn + list Item).

Definition scripted (script : Script) : M (list Item) :=
  fun w =>
    let step := script (fetches w) in
    let w' := set_fetches (S (fetches w))
                (set_clock (clock w + Z.of_nat (fst step)) w) in
    match snd step with
    | inl e => (Raise e, w')
    | inr data => (Ret data, w')
    end.

(** The calls a run of the retry loop makes when its first [k] attempts
    fail: attempt number [a] (counted from 0) starts at [t], fetch number
    [f] is the next one. *)
Fixpoint retry_events (script : Script) (t : Z) (a f k : nat)
  : list (Z * Event) :=
  match k with
  | O => [(t, EvScrape)]
  | S k' =>
      let d := Z.of_nat (fst (script f)) in
      (t, EvScrape) :: (t + d, EvSleep (2 ^ Z.of_nat a))
        :: retry_events script (t + d + 2 ^ Z.of_nat a) (S a) (S f) k'
  end.

(** The world after attempt number [a] of the retry loop over a scripted
    scraper has failed with [e] and the warning is written. *)
Definition after_failure (script : Script) (a : nat) (e : Exn) (w : World)
  : World :=
  let t := clock w + Z.of_nat (fst (script (fetches w))) in
  set_log (log w ++ [{| lr_time := t; lr_level := WARNING;
                        lr_msg := "Scraping attempt "
                                  ++ PyStr.of_Z (Z.of_nat a + 1)
                                  ++ " failed: " ++ exn_str e |}])
    (set_fetches (S (fetches w))
       (set_clock t (set_trace (trace w ++ [(clock w, EvScrape)]) w))).

(** The world after [time.sleep(secs)]. *)
Definition after_sleep (secs : Z) (w : World) : World :=
  set_clock (clock w + secs)
    (set_trace (trace w ++ [(clock w, EvSleep secs)]) w).

(** ** A small concrete environment

    Pages are trees of named nodes; a selector is a tag name.  The site
    maps a URL and a fetch number to an outcome. *)

Module Toy.

#[local] Unset Elimination Schemes.
Inductive Node :=
  | node (tag : string) (attrs : list (string * string)) (text : string)
         (children : list Node).
#[local] Set Elimination Schemes.

Definition tag_of (n : Node) : string :=
    match n with node t _ _ _ => t end.
Definition attrs_of (n : Node) : list (string * string) :=
    match n with node _ a _ _ => a end.
Definition text_of (n : Node) : string :=
    match n with node _ _ t _ => t end.

  (** The descendants of a node, in document order. *)
Fixpoint descendants (n : Node) : list Node :=
    match n with
    | node _ _ _ cs =>
        (fix go (l : list Node) : list Node :=
           match l with
           | [] => []
           | c :: l' => ((c :: descendants c) ++ go l')%list
           end) cs
    end.

Definition matching (sel : string) (ns : list Node) : list Node :=
    List.filter (fun n => String.eqb (tag_of n) sel) ns.

Definition select_all (roots : list Node) (sel : string) : list Node :=
    matching sel (flat_map (fun r => r :: descendants r) roots).

Definition select_first (n : Node) (sel : string) : option Node :=
    head (matching sel (descendants n)).

Definition Site := string -> nat -> Exn + (Z * list Node).

Definition env (site : Site) (fault : string -> option Exn) : Env := {|
    Soup := list Node;
    Tag := Node;
    select := select_all;
    select_one := select_first;
    tag_get := fun n a => dict_get (attrs_of n) a;
    get_text_strip := fun n => PyStr.strip (text_of n);
    http_get := fun u _ _ i => site u i;
    Page := list Node;
    WebElement := Node;
    chrome_start := fun _ => None;
    driver_get := fun u i => match site u i with
                             | inl e => inl e
                             | inr r => inr (snd r)
                             end;
    wait_present := fun p sel _ =>
                      match select_all p sel with [] => false | _ => true end;
    find_elements := fun p sel => inr (select_all p sel);
    find_element := fun n sel =>
                      match select_first n sel with
                      | Some e => inr e
                      | None => inl (NoSuchElementException sel)
                      end;
    get_attribute := fun n a => inr (dict_get (attrs_of n) a);
    element_text := fun n => inr (text_of n);
    isoformat := PyStr.of_Z;
    strftime := PyStr.of_Z;
    df_to_csv := fun _ => "";
    io_fault := fault
  |}.

  (** A shop page with two product boxes, the second without a link. *)
Definition shop_page : list Node :=
    [node "body" [] ""
       [node "div" [] ""
          [node "h2" [] " Tea " [];
           node "a" [("href", "/tea")] "buy" [];
           node "img" [("src", "/tea.png")] "" []];
        node "div" [] ""
          [node "h2" [] "Milk" []]]].

  (** A sitemap: its entries are [url] elements. *)
Definition sitemap_page : list Node :=
    [node "urlset" [] ""
       [node "url" [] "" [node "loc" [] "http://shop/tea" []]]].

Definition shop : Site :=
    fun u _ => if String.eqb u "http://shop/sitemap"
               then inr (200, sitemap_page)
               else inr (200, shop_page).

  (** A link whose [href] attribute is present and empty. *)
Definition home_link : Node := node "a" [("href", "")] "Home" [].

Definition no_fault : string -> option Exn := fun _ => None.

Definition offline : Site := fun _ _ => inl (RequestException "offline").

Definition config (job url_ kind interval format : string)
      (sels : list (string * string)) : ScrapeConfig :=
    {| name := job; url := url_; scrape_type := kind; selectors := sels;
       schedule_interval := interval; output_format := format;
       max_retries := 3; timeout := 30; headers := None;
       wait_for_element := None |}.

  (** Two failures, then an empty result; every call is instantaneous. *)
Definition flaky : Script :=
    fun i => match i with
             | 0%nat => (0%nat, inl (RequestException "first"))
             | 1%nat => (0%nat, inl (RequestException "second"))
             | _ => (0%nat, inr [])
             end.

Definition broken : Script :=
    fun i => (0%nat, inl (RequestException ("failure " ++ PyStr.of_Z (Z.of_nat i)))).

End Toy.

(** ** What the field loops compute

    Both scrapers run the same loop over the selector entries and differ
    in how a selector is resolved inside a container.  [assign_fields] is
    that loop over an arbitrary resolution; [extracted_from] describes a
    batch of records built from a list of containers. *)

Fixpoint assign_fields (resolve : string -> Value)
    (container_selector : string) (entries : list (string * string))
    (item : Item) : Item :=
  match entries with
  | [] => item
  | (field, selector) :: rest =>
      if String.eqb field container_selector
      then assign_fields resolve container_selector rest item
      else assign_fields resolve container_selector rest
             (dict_set item field (resolve selector))
  end.

(** A field selector resolved inside a container of a static page. *)
Definition static_resolve `{Env} (container : Tag) (selector : string)
  : Value :=
  match select_one container selector with
  | Some element => StaticScraper.element_value element
  | None => VNone
  end.

(** A field selector resolved inside a container of a rendered page. *)
Definition dynamic_resolve `{Env} (container : WebElement)
    (selector : string) : Value :=
  match DynamicScraper.field_value container selector with
  | inr v => v
  | inl _ => VNone
  end.

Definition with_selectors (sels : list (string * string))
    (c : ScrapeConfig) : ScrapeConfig :=
  {| name := name c; url := url c; scrape_type := scrape_type c;
     selectors := sels; schedule_interval := schedule_interval c;
     output_format := output_format c; max_retries := max_retries c;
     timeout := timeout c; headers := headers c;
     wait_for_element := wait_for_element c |}.


(** ** The registry under dispatch *)

(** A computation that leaves the stored jobs and the triggers alone. *)
Definition keeps_registry {A} (m : M A) : Prop :=
  forall w, jobs (snd (m w)) = jobs w /\ triggers (snd (m w)) = triggers w.

(** The worlds a process can be in: it starts fresh and then calls the
    public methods of the scheduler, whatever their outcome. *)
Inductive reachable `{Env} : World -> Prop :=
| reach_init t : reachable (init_world t)
| reach_add_job config w :
    reachable w -> reachable (snd (WebScraperScheduler.add_job config w))
| reach_run_job_now job_name w :
    reachable w ->
    reachable (snd (WebScraperScheduler.run_job_now job_name w))
| reach_start_scheduler ticks w :
    reachable w ->
    reachable (snd (WebScraperScheduler.start_scheduler ticks w))
| reach_stop_scheduler w :
    reachable w -> reachable (snd (WebScraperScheduler.stop_scheduler w)).

(** ** The rest of the scraper file *)

(** [WebScraperScheduler.list_jobs]: the lines it prints, one block of six
    per stored job, in the order of the dictionary. *)
Definition list_jobs_block (entry : string * ScrapeConfig) : list string :=
  let config := snd entry in
  ["Job: " ++ fst entry;
   "  URL: " ++ url config;
   "  Type: " ++ scrape_type config;
   "  Schedule: " ++ schedule_interval config;
   "  Output: " ++ output_format config;
   ""].

Definition list_jobs (w : World) : list string :=
  flat_map list_jobs_block (jobs w).

(** [create_example_configs] *)
Definition news_config : ScrapeConfig :=
  {| name := "news_scraper";
     url := "https://example-news.com";
     scrape_type := "static";
     selectors := [("article", "article.news-item");
                   ("title", "h2.title");
                   ("summary", "p.summary");
                   ("link", "a.read-more");
                   ("date", "span.date")];
     schedule_interval := "1hour";
     output_format := "csv";
     max_retries := 3;
     timeout := 30;
     headers := Some [("User-Agent",
                       "Mozilla/5.0 (compatible; WebScraper/1.0)")];
     wait_for_element := None |}.

Definition product_config : ScrapeConfig :=
  {| name := "product_scraper";
     url := "https://example-store.com/products";
     scrape_type := "dynamic";
     selectors := [("product", "div.product-card");
                   ("name", "h3.product-name");
                   ("price", "span.price");
                   ("image", "img.product-image");
                   ("rating", "div.rating")];
     schedule_interval := "30min";
     output_format := "database";
     max_retries := 3;
     timeout := 30;
     headers := None;
     wait_for_element := Some "div.product-card" |}.

Definition create_example_configs : list ScrapeConfig :=
  [news_config; product_config].

(** [for config in configs: scheduler.add_job(config)] *)
Fixpoint add_jobs (configs : list ScrapeConfig) : M unit :=
  match configs with
  | [] => ret tt
  | config :: rest => WebScraperScheduler.add_job config ;;; add_jobs rest
  end.

(** [main], returning what it prints. *)
Definition main `{Env} : M (list string) :=
  add_jobs create_example_configs ;;;
  w <- get_world ;;
  let listing := ("Configured Jobs:" :: list_jobs w)%list in
  WebScraperScheduler.run_job_now "news_scraper" ;;;
  ret (listing ++ ["Running news_scraper job now..."])%list.

(** ** Frames and observations *)

(** A computation that leaves one component of the world as it was. *)
Definition preserves {A X} (proj : World -> X) (m : M A) : Prop :=
  forall w, proj (snd (m w)) = proj w.

(** A computation that never turns the clock back. *)
Definition advances {A} (m : M A) : Prop :=
  forall w, clock w <= clock (snd (m w)).

(** The starts and stops of browser sessions, in order. *)
Definition driver_events (evs : list (Z * Event)) : list Event :=
  omap (fun te => match snd te with
                  | EvDriverStart => Some EvDriverStart
                  | EvDriverQuit => Some EvDriverQuit
                  | _ => None
                  end) evs.

(** The configured wait of the rendered scraper runs out: a non-empty
    [wait_for_element] that the page does not show in time. *)
Definition wait_times_out `{Env} (config : ScrapeConfig) (page : Page)
  : bool :=
  match wait_for_element config with
  | Some sel =>
      PyStr.truthy sel && negb (wait_present page sel (timeout config))
  | None => false
  end.




(** Whether a sequence of session events, read from a scraper that has a
    session open or not, ever starts a session while one is open; the
    result says whether one is open at the end.  A quit with no session
    open is the harmless second quit of a session already closed. *)
Fixpoint session_state (open : bool) (evs : list Event) : option bool :=
  match evs with
  | [] => Some open
  | EvDriverStart :: rest =>
      if open then None else session_state true rest
  | EvDriverQuit :: rest => session_state false rest
  | _ :: rest => session_state open rest
  end.

(** A computation that only extends the trace, starts no session while
    one is open, and leaves none open. *)
Definition closes_sessions {A} (m : M A) : Prop :=
  forall w, exists evs,
    trace (snd (m w)) = (trace w ++ evs)%list
    /\ session_state false (map snd evs) = Some false.

(** [json.loads] on the escapes that [json.dump] writes: the inverse of
    [Json.escape], partial on strings that are not escapes. *)
Definition hex_value (c : ascii) : option nat :=
  let n := nat_of_ascii c in
  if ((48 <=? n) && (n <=? 57))%nat then Some (n - 48)%nat
  else if ((97 <=? n) && (n <=? 102))%nat then Some (n - 87)%nat
  else None.

Fixpoint unescape (s : string) : option string :=
  match s with
  | EmptyString => Some EmptyString
  | String c rest =>
      if (nat_of_ascii c =? 92)%nat
      then match rest with
           | String k rest1 =>
               let n := nat_of_ascii k in
               if (n =? 34)%nat then String "034"%char <$> unescape rest1
               else if (n =? 92)%nat
               then String "092"%char <$> unescape rest1
               else if (n =? 110)%nat
               then String "010"%char <$> unescape rest1
               else if (n =? 114)%nat
               then String "013"%char <$> unescape rest1
               else if (n =? 116)%nat
               then String "009"%char <$> unescape rest1
               else if (n =? 98)%nat
               then String "008"%char <$> unescape rest1
               else if (n =? 102)%nat
               then String "012"%char <$> unescape rest1
               else if (n =? 117)%nat
               then match rest1 with
                    | String "0" (String "0" (String h (String l rest2))) =>
                        match hex_value h, hex_value l with
                        | Some x, Some y =>
                            String (ascii_of_nat (16 * x + y))
                              <$> unescape rest2
                        | _, _ => None
                        end
                    | _ => None
                    end
               else None
           | EmptyString => None
           end
      else if ((nat_of_ascii c <? 32) || (nat_of_ascii c =? 34))%nat
      then None
      else String c <$> unescape rest
  end.

(** The messages logged at a level. *)
Definition messages (lvl : Level) (l : list LogRecord) : list string :=
  omap (fun r => match lr_level r, lvl with
                 | INFO, INFO | WARNING, WARNING | ERROR, ERROR =>
                     Some (lr_msg r)
                 | _, _ => None
                 end) l.

Definition sum_Z (l : list Z) : Z := fold_right Z.add 0 l.

(** The warning the retry loop writes for attempt number [a] (from 0). *)
Definition attempt_warning (a : nat) (e : Exn) : string :=
  "Scraping attempt " ++ PyStr.of_Z (Z.of_nat a + 1) ++ " failed: "
  ++ exn_str e.



(** ** StockMarketDash.py: the data it loads and the moving averages

    A data frame is known by its columns and its number of rows; the
    numbers in it are floating point and stay out of the model.  A column
    is a downloaded series or the rolling mean of [Close] over a window. *)

Module StockMarketDash.

Inductive Series :=
| Downloaded
| RollingMean (window : Z).

Record DataFrame := {
  columns : list (string * Series);
  n_rows : nat
}.

(** What [yfinance] answers: [download] gives a frame or raises; [.info]
    gives a dictionary, [None], or raises. *)
Class Yahoo := {
  download : string -> string -> string -> Exn + DataFrame;
  ticker_info : string -> Exn + option (list (string * string))
}.

(** [data.empty]: some axis has length 0. *)
Definition empty (data : DataFrame) : bool :=
  ((n_rows data =? 0) || (length (columns data) =? 0))%nat.

Definition required_columns : list string := ["Open"; "High"; "Low"; "Close"].

(** [col in data.columns] *)
Definition has_column (data : DataFrame) (col : string) : bool :=
  dict_mem (columns data) col.

(** The inner [try] of [load_data]. *)
Definition company_info_of `{Yahoo} (ticker : string)
  : list (string * string) :=
  match ticker_info ticker with
  | inl _ => []
  | inr None => []
  | inr (Some []) => []
  | inr (Some info) => info
  end.

Definition load_data `{Yahoo} (ticker period interval : string)
  : option DataFrame * option (list (string * string)) :=
  match download ticker period interval with
  | inl _ => (None, None)
  | inr data =>
      if empty data then (None, None)
      else if negb (forallb (has_column data) required_columns)
      then (None, None)
      else (Some data, Some (company_info_of ticker))
  end.

(** [if data_length < ma_days: st.warning(...); ma_days = data_length] *)
Definition clamp_window (data_length ma_days : Z) : Z * list string :=
  if (data_length <? ma_days)%Z
  then (data_length,
        ["Not enough data for " ++ PyStr.of_Z ma_days ++ "-day MA. Using "
         ++ PyStr.of_Z data_length ++ " days."])
  else (ma_days, []).

Definition ma_column (window : Z) : string := "MA" ++ PyStr.of_Z window.

(** [if ma_days > 0: data[f'MA{ma_days}'] = data['Close'].rolling(...)] *)
Definition add_ma (window : Z) (data : DataFrame) : DataFrame :=
  if (0 <? window)%Z
  then {| columns := dict_set (columns data) (ma_column window)
                              (RollingMean window);
          n_rows := n_rows data |}
  else data.

Record Chart := {
  chart_data : DataFrame;
  chart_warnings : list string;
  (* name of each trace and the column it draws, after the candlestick *)
  chart_ma_traces : list (string * string)
}.

(** [if f'MA{ma_days}' in data.columns: fig.add_trace(...)] *)
Definition ma_trace (data : DataFrame) (window : Z)
  : list (string * string) :=
  if has_column data (ma_column window)
  then [(PyStr.of_Z window ++ "-Day MA", ma_column window)]
  else [].

(** The part of the main script between the metrics and the chart, with
    [show_ma] ticked. *)
Definition moving_averages (data : DataFrame) (ma_days_1 ma_days_2 : Z)
  : Chart :=
  let data_length := Z.of_nat (n_rows data) in
  let c1 := clamp_window data_length ma_days_1 in
  let c2 := clamp_window data_length ma_days_2 in
  let data := add_ma (fst c2) (add_ma (fst c1) data) in
  {| chart_data := data;
     chart_warnings := (snd c1 ++ snd c2)%list;
     chart_ma_traces := (ma_trace data (fst c1) ++ ma_trace data (fst c2))%list |}.

End StockMarketDash.

(** What Yahoo might answer: three rows of quotes for one ticker, nothing
    for the others, and no company information for anybody. *)
Definition toy_yahoo : StockMarketDash.Yahoo := {|
  StockMarketDash.download := fun ticker _ _ =>
    if String.eqb ticker "AAPL"
    then inr {| StockMarketDash.columns :=
                  [("Close", StockMarketDash.Downloaded);
                   ("High", StockMarketDash.Downloaded);
                   ("Low", StockMarketDash.Downloaded);
                   ("Open", StockMarketDash.Downloaded);
                   ("Volume", StockMarketDash.Downloaded)];
                StockMarketDash.n_rows := 3 |}
    else inl (RequestException "no data");
  StockMarketDash.ticker_info := fun _ => inl (RequestException "rate limited")
|}.

(** * Properties *)

Local Open Scope list_scope.

(** ** The monad *)

Lemma bind_ret {A B} (m : M A) (k : A -> M B) w a w' :
  m w = (Ret a, w') -> bind m k w = k a w'.
Proof. intros Hm. unfold bind. now rewrite Hm. Qed.

Lemma bind_raise {A B} (m : M A) (k : A -> M B) w e w' :
  m w = (Raise e, w') -> bind m k w = (Raise e, w').
Proof. intros Hm. unfold bind. now rewrite Hm. Qed.

(** ** Python dictionaries *)

Section PyDictFacts.
Context {V : Type}.
Implicit Types (d : list (string * V)) (k : string) (v : V).

Lemma dict_get_set_eq d k v : dict_get (dict_set d k v) k = Some v.
  Proof.
    induction d as [|[k' v'] d IH]; simpl.
    - now rewrite String.eqb_refl.
    - destruct (String.eqb k' k) eqn:E; simpl; now rewrite E.
  Qed.

Lemma dict_get_set_ne d k k' v :
    k <> k' -> dict_get (dict_set d k v) k' = dict_get d k'.
  Proof.
    intros Hne. induction d as [|[k0 v0] d IH]; simpl.
    - destruct (String.eqb k k') eqn:E; [|reflexivity].
      apply String.eqb_eq in E. contradiction.
    - destruct (String.eqb k0 k) eqn:E; simpl.
      + apply String.eqb_eq in E. subst k0.
        destruct (String.eqb k k') eqn:E'; [|reflexivity].
        apply String.eqb_eq in E'. contradiction.
      + now rewrite IH.
  Qed.

Lemma dict_get_None_not_key d k :
    dict_get d k = None <-> ~ In k (dict_keys d).
  Proof.
    induction d as [|[k' v'] d IH]; simpl.
    - tauto.
    - destruct (String.eqb k' k) eqn:E.
      + apply String.eqb_eq in E. split; [discriminate | tauto].
      + apply String.eqb_neq in E. rewrite IH. tauto.
  Qed.

Lemma dict_mem_true d k : dict_mem d k = true <-> In k (dict_keys d).
  Proof.
    unfold dict_mem. pose proof (dict_get_None_not_key d k) as Hn.
    destruct (dict_get d k).
    - split; [|reflexivity]. intros _.
      destruct (in_dec String.string_dec k (dict_keys d)) as [Hi|Hi];
        [assumption|].
      apply Hn in Hi. discriminate.
    - split; [discriminate|]. intros Hi. exfalso. now apply Hn.
  Qed.

Lemma dict_keys_set d k v :
    forall k', In k' (dict_keys (dict_set d k v)) <->
               k' = k \/ In k' (dict_keys d).
  Proof.
    intros k'. induction d as [|[k0 v0] d IH]; simpl.
    - intuition.
    - destruct (String.eqb k0 k) eqn:E; simpl.
      + apply String.eqb_eq in E. subst. intuition.
      + rewrite IH. intuition.
  Qed.

Lemma dict_mem_set d k v k' :
    dict_mem d k' = true -> dict_mem (dict_set d k v) k' = true.
  Proof.
    rewrite !dict_mem_true, dict_keys_set. auto.
  Qed.

End PyDictFacts.

(** ** The retry loop *)

Section RetryFacts.
Variable script : Script.
Variable max : Z.

Lemma retry_loop_success a rest w data :
    snd (script (fetches w)) = inr data ->
    retry_loop (scripted script) max (a :: rest) w =
      (Ret (Some data),
       set_fetches (S (fetches w))
         (set_clock (clock w + Z.of_nat (fst (script (fetches w))))
            (set_trace (trace w ++ [(clock w, EvScrape)]) w))).
  Proof.
    intros Hs. cbn. unfold try_except, bind, call_scrape, bind, emit, modify.
    unfold scripted. cbn. rewrite Hs. reflexivity.
  Qed.

Lemma retry_loop_failure a rest w e :
    snd (script (fetches w)) = inl e ->
    retry_loop (scripted script) max (a :: rest) w =
      if (Z.of_nat a <? max - 1)%Z
      then retry_loop (scripted script) max rest
             (after_sleep (2 ^ Z.of_nat a) (after_failure script a e w))
      else (Raise e, after_failure script a e w).
  Proof.
    intros Hs. cbn. unfold try_except, bind, call_scrape, bind, emit, modify.
    unfold scripted. cbn. rewrite Hs. cbn.
    destruct (Z.of_nat a <? max - 1)%Z; reflexivity.
  Qed.

  (** The first [k] attempts fail and the next one succeeds, within the
      limit: the loop returns that result after the calls of
      [retry_events]. *)
Lemma retry_loop_first_success k : forall a n w data,
    (k < n)%nat ->
    Z.of_nat (a + n) = max ->
    (forall j, (j < k)%nat -> exists e, snd (script (fetches w + j)%nat) = inl e) ->
    snd (script (fetches w + k)%nat) = inr data ->
    exists w',
      retry_loop (scripted script) max (seq a n) w = (Ret (Some data), w')
      /\ trace w' = trace w ++ retry_events script (clock w) a (fetches w) k
      /\ fetches w' = (fetches w + S k)%nat.
  Proof.
    induction k as [|k IH]; intros a n w data Hk Hmax Hfail Hok.
    - destruct n as [|n]; [lia|]. cbn [seq].
      rewrite Nat.add_0_r in Hok.
      rewrite (retry_loop_success _ _ _ _ Hok).
      eexists. split; [reflexivity|]. cbn. split; [reflexivity | lia].
    - destruct n as [|n]; [lia|]. cbn [seq].
      destruct (Hfail 0%nat ltac:(lia)) as [e He].
      rewrite Nat.add_0_r in He.
      rewrite (retry_loop_failure _ _ _ _ He).
      replace (Z.of_nat a <? max - 1)%Z with true
        by (symmetry; apply Z.ltb_lt; lia).
      destruct (IH (S a) n
                  (after_sleep (2 ^ Z.of_nat a) (after_failure script a e w))
                  data) as (w' & Hrun & Htr & Hf).
      + lia.
      + lia.
      + intros j Hj. cbn. destruct (Hfail (S j) ltac:(lia)) as [e' He'].
        exists e'. rewrite <- He'. f_equal. f_equal. lia.
      + cbn. rewrite <- Hok. f_equal. f_equal. lia.
      + exists w'. split; [exact Hrun|]. split.
        * rewrite Htr. cbn. rewrite <- !app_assoc. reflexivity.
        * rewrite Hf. cbn. lia.
  Qed.

  (** Every attempt fails: the loop raises the error of the last one,
      after the same calls, without a sleep at the end. *)
Lemma retry_loop_exhausted n : forall a w,
    Z.of_nat (a + S n) = max ->
    (forall j, (j <= n)%nat -> exists e, snd (script (fetches w + j)%nat) = inl e) ->
    exists w' e,
      retry_loop (scripted script) max (seq a (S n)) w = (Raise e, w')
      /\ snd (script (fetches w + n)%nat) = inl e
      /\ trace w' = trace w ++ retry_events script (clock w) a (fetches w) n
      /\ fetches w' = (fetches w + S n)%nat.
  Proof.
    induction n as [|n IH]; intros a w Hmax Hfail.
    - destruct (Hfail 0%nat ltac:(lia)) as [e He].
      rewrite Nat.add_0_r in He. cbn [seq].
      rewrite (retry_loop_failure _ _ _ _ He).
      replace (Z.of_nat a <? max - 1)%Z with false
        by (symmetry; apply Z.ltb_ge; lia).
      exists (after_failure script a e w), e. rewrite Nat.add_0_r.
      repeat split; [exact He | cbn; lia].
    - destruct (Hfail 0%nat ltac:(lia)) as [e He].
      rewrite Nat.add_0_r in He. cbn [seq].
      rewrite (retry_loop_failure _ _ _ _ He).
      replace (Z.of_nat a <? max - 1)%Z with true
        by (symmetry; apply Z.ltb_lt; lia).
      destruct (IH (S a)
                  (after_sleep (2 ^ Z.of_nat a) (after_failure script a e w)))
        as (w' & e' & Hrun & Hlast & Htr & Hf).
      + lia.
      + intros j Hj. cbn. destruct (Hfail (S j) ltac:(lia)) as [e' He'].
        exists e'. rewrite <- He'. f_equal. f_equal. lia.
      + exists w', e'. split; [exact Hrun|]. split; [|split].
        * rewrite <- Hlast. cbn. f_equal. f_equal. lia.
        * rewrite Htr. cbn. rewrite <- !app_assoc. reflexivity.
        * rewrite Hf. cbn. lia.
  Qed.

End RetryFacts.

Section RetryObservations.
Variable script : Script.

Lemma attempt_times_app (w : World) (evs : list (Z * Event)) :
    attempt_times (set_trace (trace w ++ evs) w) =
    attempt_times w ++ attempt_times (set_trace evs w).
  Proof. unfold attempt_times. cbn. apply omap_app. Qed.

Lemma attempt_times_after_failure a e w :
    attempt_times (after_failure script a e w) = attempt_times w ++ [clock w].
  Proof. unfold attempt_times. cbn. now rewrite omap_app. Qed.

Lemma attempt_times_after_sleep secs w :
    attempt_times (after_sleep secs w) = attempt_times w.
  Proof.
    unfold attempt_times. cbn. rewrite omap_app. cbn. apply app_nil_r.
  Qed.

  (** The loop calls [scrape] at most once per remaining attempt, and
      never loses a recorded call. *)
Lemma retry_loop_attempts_bound max l : forall w,
    let w' := snd (retry_loop (scripted script) max l w) in
    (length (attempt_times w) <= length (attempt_times w')
     <= length (attempt_times w) + length l)%nat.
  Proof.
    induction l as [|a l IH]; intros w; cbn zeta.
    - cbn. lia.
    - destruct (snd (script (fetches w))) as [e|data] eqn:Hs.
      + rewrite (retry_loop_failure _ _ _ _ _ _ Hs).
        destruct (Z.of_nat a <? max - 1)%Z.
        * specialize (IH (after_sleep (2 ^ Z.of_nat a)
                                      (after_failure script a e w))).
          cbn zeta in IH.
          rewrite attempt_times_after_sleep, attempt_times_after_failure,
            length_app in IH.
          cbn [length] in *. lia.
        * cbn [snd]. rewrite attempt_times_after_failure, length_app.
          cbn [length]. lia.
      + rewrite (retry_loop_success _ _ _ _ _ _ Hs). cbn [snd].
        unfold attempt_times. cbn. rewrite omap_app, length_app. cbn. lia.
  Qed.

Lemma attempt_times_retry_events t a f k :
    length (omap (fun te : Z * Event =>
                    match snd te with
                    | EvScrape => Some (fst te)
                    | _ => None
                    end) (retry_events script t a f k)) = S k.
  Proof.
    revert t a f. induction k as [|k IH]; intros t a f; cbn; [reflexivity|].
    now rewrite IH.
  Qed.

Lemma sleeps_retry_events t a f k :
    omap (fun te : Z * Event =>
            match snd te with
            | EvSleep s => Some s
            | _ => None
            end) (retry_events script t a f k)
    = map (fun i => 2 ^ Z.of_nat i) (seq a k).
  Proof.
    revert t a f. induction k as [|k IH]; intros t a f; cbn; [reflexivity|].
    now rewrite IH.
  Qed.

End RetryObservations.




(** C2.  For a job with [max_retries >= 1] (the invariant of a job
    spec), [retry_scrape] calls [scrape] at most [max_retries] times; it
    returns the result of the first attempt that does not raise, having
    made no further attempt; with [max_retries = 3] and a scraper that
    always fails it makes exactly 3 attempts and raises the error of the
    third; with two failures followed by a success it returns that
    success after exactly 3 attempts. *)
Theorem retry_scrape_attempts
    (script : Script) (config : ScrapeConfig) (w : World) :
  1 <= max_retries config ->
  let run := retry_scrape (scripted script) config w in
  Z.of_nat (attempts_made w (snd run)) <= max_retries config
  /\ (forall k data,
        Z.of_nat k < max_retries config ->
        (forall j, (j < k)%nat ->
                   exists e, snd (script (fetches w + j)%nat) = inl e) ->
        snd (script (fetches w + k)%nat) = inr data ->
        fst run = Ret (Some data) /\ attempts_made w (snd run) = S k)
  /\ (max_retries config = 3 ->
      (forall j, exists e, snd (script j) = inl e) ->
      exists e, fst run = Raise e
                /\ snd (script (fetches w + 2)%nat) = inl e
                /\ attempts_made w (snd run) = 3%nat)
  /\ (max_retries config = 3 ->
      forall e1 e2 data,
        snd (script (fetches w)) = inl e1 ->
        snd (script (fetches w + 1)%nat) = inl e2 ->
        snd (script (fetches w + 2)%nat) = inr data ->
        fst run = Ret (Some data) /\ attempts_made w (snd run) = 3%nat).
Proof.
  intros Hmax run.
  assert (Hfirst : forall k data,
             Z.of_nat k < max_retries config ->
             (forall j, (j < k)%nat ->
                        exists e, snd (script (fetches w + j)%nat) = inl e) ->
             snd (script (fetches w + k)%nat) = inr data ->
             fst run = Ret (Some data) /\ attempts_made w (snd run) = S k).
  { intros k data Hk Hfail Hok.
    destruct (retry_loop_first_success script (max_retries config) k 0
                (Z.to_nat (max_retries config)) w data)
      as (w' & Hrun & Htr & _); [lia | lia | exact Hfail | exact Hok |].
    subst run. unfold retry_scrape. rewrite Hrun. cbn [fst snd].
    split; [reflexivity|].
    unfold attempts_made, attempt_times. rewrite Htr, omap_app, length_app.
    rewrite attempt_times_retry_events. lia. }
  split; [|split; [exact Hfirst|split]].
  - pose proof (retry_loop_attempts_bound script (max_retries config)
                  (seq 0 (Z.to_nat (max_retries config))) w) as Hb.
    cbn zeta in Hb. rewrite length_seq in Hb.
    subst run. unfold retry_scrape, attempts_made. lia.
  - intros H3 Hall.
    destruct (retry_loop_exhausted script (max_retries config) 2 0 w)
      as (w' & e & Hrun & Hlast & Htr & _).
    + lia.
    + intros j _. apply Hall.
    + exists e. subst run. unfold retry_scrape. rewrite H3.
      change (Z.to_nat 3) with 3%nat. rewrite H3 in Hrun. rewrite Hrun.
      cbn [fst snd]. split; [reflexivity|]. split; [exact Hlast|].
      unfold attempts_made, attempt_times. rewrite Htr, omap_app, length_app.
      rewrite attempt_times_retry_events. lia.
  - intros H3 e1 e2 data H1 H2 Hok.
    apply Hfirst; [lia| |exact Hok].
    intros j Hj. destruct j as [|[|j]]; [| |lia].
    + exists e1. now rewrite Nat.add_0_r.
    + exists e2. exact H2.
Qed.

Lemma retry_scrape_attempts_witness :
  let config := Toy.config "job" "http://site" "static" "1hour" "csv" [] in
  let run := retry_scrape (scripted Toy.broken) config (init_world 0) in
  1 <= max_retries config
  /\ Z.of_nat (attempts_made (init_world 0) (snd run)) <= 3
  /\ fst run = Raise (RequestException "failure 2").
Proof.
  intros config run.
  pose proof (retry_scrape_attempts Toy.broken config (init_world 0)
                ltac:(cbn; lia)) as (Hbound & _ & Hall & _).
  split; [cbn; lia|]. split; [exact Hbound|].
  destruct (Hall eq_refl (fun j => ex_intro _ _ eq_refl))
    as (e & Hrun & Hlast & _).
  fold run in Hrun. rewrite Hrun. f_equal.
  cbn in Hlast. now inversion Hlast.
Defined.

(** ** The registry *)

Import WebScraperScheduler.

Lemma add_job_stores (config : ScrapeConfig) (w : World) :
  jobs (snd (add_job config w)) = dict_set (jobs w) (name config) config.
Proof.
  unfold add_job, bind, modify, parse_int, Schedule.every_do, modify, logger,
    modify, raise, ret.
  cbn.
  repeat match goal with
         | |- context [if ?b then _ else _] => destruct b
         | |- context [match PyStr.int ?s with _ => _ end] =>
             destruct (PyStr.int s)
         end; reflexivity.
Qed.

(** Whether [add_job] returns or raises depends on the interval alone. *)
Lemma add_job_outcome_any_registry (config : ScrapeConfig) (w1 w2 : World) :
  fst (add_job config w1) = fst (add_job config w2).
Proof.
  unfold add_job, bind, modify, parse_int, Schedule.every_do, modify, logger,
    modify, raise, ret.
  cbn.
  repeat match goal with
         | |- context [if ?b then _ else _] => destruct b
         | |- context [match PyStr.int ?s with _ => _ end] =>
             destruct (PyStr.int s)
         end; reflexivity.
Qed.

(** C3 (as amended).  Registration never rejects a name that is already
    registered: whatever the registry holds, [add_job] stores the new
    configuration under its name, replacing an earlier one, and whether it
    returns or raises is the same as on an empty registry.  [run_job_now]
    on a name that was never registered raises nothing: it logs an error
    and returns, leaving the rest of the world as it was; only the
    internal [_run_job] raises, and what it raises is [KeyError]. *)
Theorem registry_duplicate_and_unknown `{Env}
    (config : ScrapeConfig) (w : World) :
  dict_get (jobs (snd (add_job config w))) (name config) = Some config
  /\ fst (add_job config w) = fst (add_job config (set_jobs [] w))
  /\ (forall job_name,
        dict_get (jobs w) job_name = None ->
        run_job_now job_name w =
          (Ret tt,
           set_log (log w ++ [{| lr_time := clock w; lr_level := ERROR;
                                 lr_msg := ("Job '" ++ job_name
                                            ++ "' not found")%string |}]) w)
        /\ _run_job job_name w = (Raise (KeyError job_name), w)).
Proof.
  split; [|split].
  - rewrite add_job_stores. apply dict_get_set_eq.
  - apply add_job_outcome_any_registry.
  - intros job_name Hnone.
    unfold run_job_now, _run_job, bind, get_world, dict_mem.
    rewrite Hnone. split; reflexivity.
Qed.

Lemma registry_duplicate_and_unknown_witness :
  let E := Toy.env Toy.offline Toy.no_fault in
  let first := Toy.config "news" "http://a" "static" "1hour" "csv" [] in
  let second := Toy.config "news" "http://b" "static" "1hour" "csv" [] in
  let w := snd (add_job first (init_world 0)) in
  dict_get (jobs w) "ghost" = None
  /\ dict_get (jobs (snd (add_job second w))) "news" = Some second
  /\ fst (run_job_now "ghost" w) = Ret tt.
Proof.
  intros E first second w.
  pose proof (registry_duplicate_and_unknown second w) as (Hs & _ & Hu).
  split; [reflexivity|]. split; [exact Hs|].
  destruct (Hu "ghost" eq_refl) as [Hrun _]. now rewrite Hrun.
Defined.

(** C3 as stated fails: a second registration under the name ["news"]
    returns normally and replaces the first, and running the unregistered
    ["ghost"] returns normally too. *)
Lemma duplicate_registration_accepted :
  let E := Toy.env Toy.offline Toy.no_fault in
  let first := Toy.config "news" "http://a" "static" "1hour" "csv" [] in
  let second := Toy.config "news" "http://b" "static" "1hour" "csv" [] in
  exists w1 w2 w3,
    add_job first (init_world 0) = (Ret tt, w1)
    /\ add_job second w1 = (Ret tt, w2)
    /\ dict_get (jobs w2) "news" = Some second
    /\ second <> first
    /\ run_job_now "ghost" w2 = (Ret tt, w3).
Proof.
  intros E first second. eexists _, _, _.
  split; [vm_compute; reflexivity|].
  split; [vm_compute; reflexivity|].
  split; [reflexivity|].
  split; [discriminate|].
  vm_compute. reflexivity.
Qed.

(** C5 (as amended).  When the interval ends in none of [min], [hour],
    [day], registration does not fail: [add_job] returns normally, the
    job is stored, no trigger is installed, and the log receives the
    error about the interval followed by the usual notice that the job
    was added. *)
Theorem add_job_unrecognised_interval (config : ScrapeConfig) (w : World) :
  PyStr.endswith (schedule_interval config) "min" = false ->
  PyStr.endswith (schedule_interval config) "hour" = false ->
  PyStr.endswith (schedule_interval config) "day" = false ->
  exists w',
    add_job config w = (Ret tt, w')
    /\ dict_get (jobs w') (name config) = Some config
    /\ triggers w' = triggers w
    /\ log w' = log w
         ++ [{| lr_time := clock w; lr_level := ERROR;
                lr_msg := ("Invalid schedule interval: "
                           ++ schedule_interval config)%string |};
             {| lr_time := clock w; lr_level := INFO;
                lr_msg := ("Job '" ++ name config
                           ++ "' added with interval: "
                           ++ schedule_interval config)%string |}].
Proof.
  intros Hmin Hhour Hday. eexists. split.
  - unfold add_job. rewrite Hmin, Hhour, Hday. reflexivity.
  - cbn. split; [apply dict_get_set_eq|]. split; [reflexivity|].
    now rewrite <- app_assoc.
Qed.

Lemma add_job_unrecognised_interval_witness :
  let config := Toy.config "news" "http://a" "static" "5sec" "csv" [] in
  exists w',
    add_job config (init_world 7) = (Ret tt, w')
    /\ dict_get (jobs w') "news" = Some config
    /\ triggers w' = []
    /\ log w' = log (init_world 7)
         ++ [{| lr_time := 7; lr_level := ERROR;
                lr_msg := "Invalid schedule interval: 5sec" |};
             {| lr_time := 7; lr_level := INFO;
                lr_msg := "Job 'news' added with interval: 5sec" |}].
Proof.
  intros config.
  exact (add_job_unrecognised_interval config (init_world 7)
           eq_refl eq_refl eq_refl).
Defined.

(** C5 as stated fails: registering a job whose interval is ["5sec"]
    returns normally, and the job is stored without any trigger. *)
Lemma bad_interval_accepted :
  let config := Toy.config "news" "http://a" "static" "5sec" "csv" [] in
  exists w',
    add_job config (init_world 0) = (Ret tt, w')
    /\ dict_get (jobs w') "news" = Some config
    /\ triggers w' = [].
Proof.
  intros config. eexists. split; [vm_compute; reflexivity|].
  split; reflexivity.
Qed.

(** ** The exporters *)

(** C4, evaluated on the code.  On an empty batch [to_csv] and
    [to_database] only log a warning and return, so no file and no table
    is written; [to_json] has no such guard: when the file can be opened
    it writes the document [[]] to it, logs the export and returns. *)
Theorem export_empty_batch `{Env}
    (filename db_name table_name : string) (w : World) :
  DataExporter.to_csv (Some []) filename w =
    (Ret tt,
     set_log (log w ++ [{| lr_time := clock w; lr_level := WARNING;
                           lr_msg := "No data to export to CSV" |}]) w)
  /\ DataExporter.to_database (Some []) db_name table_name w =
    (Ret tt,
     set_log (log w ++ [{| lr_time := clock w; lr_level := WARNING;
                           lr_msg := "No data to export to database" |}]) w)
  /\ (io_fault filename = None ->
      exists w',
        DataExporter.to_json (Some []) filename w = (Ret tt, w')
        /\ files w' = <[filename := "[]"%string]> (files w)
        /\ files w' !! filename = Some "[]"%string).
Proof.
  split; [reflexivity|]. split; [reflexivity|].
  intros Hio. eexists. split.
  - unfold DataExporter.to_json, DataExporter.write_file,
      DataExporter.open_sink, bind. rewrite Hio. reflexivity.
  - cbn. split; [reflexivity|]. apply lookup_insert_eq.
Qed.

Lemma export_empty_batch_witness :
  let E := Toy.env Toy.offline Toy.no_fault in
  io_fault "out.json" = None
  /\ files (init_world 0) !! "out.json" = None
  /\ exists w',
       DataExporter.to_json (Some []) "out.json" (init_world 0) = (Ret tt, w')
       /\ files w' !! "out.json" = Some "[]"%string.
Proof.
  intros E. split; [reflexivity|]. split; [reflexivity|].
  destruct (export_empty_batch "out.json" "jobs.db" "jobs" (init_world 0))
    as (_ & _ & Hjson).
  destruct (Hjson eq_refl) as (w' & Hrun & _ & Hfile).
  exists w'. split; [exact Hrun | exact Hfile].
Defined.

(** ** The field loops *)

Section AssignFields.
Variable resolve : string -> Value.
Variable cs : string.

  (** The loop never assigns the container selector's own key. *)
Lemma assign_fields_container_key entries : forall item,
    dict_get (assign_fields resolve cs entries item) cs = dict_get item cs.
  Proof.
    induction entries as [|[f sel] entries IH]; intros item; cbn;
      [reflexivity|].
    destruct (String.eqb f cs) eqn:E; [apply IH|].
    rewrite IH. apply dict_get_set_ne. now apply String.eqb_neq.
  Qed.

Lemma assign_fields_not_key entries k : forall item,
    ~ In k (dict_keys entries) ->
    dict_get (assign_fields resolve cs entries item) k = dict_get item k.
  Proof.
    induction entries as [|[f sel] entries IH]; intros item Hk; cbn;
      [reflexivity|].
    cbn in Hk.
    destruct (String.eqb f cs); [apply IH; tauto|].
    rewrite IH by tauto. apply dict_get_set_ne. tauto.
  Qed.

Lemma assign_fields_key entries field selector : forall item,
    List.NoDup (dict_keys entries) ->
    In (field, selector) entries ->
    field <> cs ->
    dict_get (assign_fields resolve cs entries item) field
    = Some (resolve selector).
  Proof.
    induction entries as [|[f sel] entries IH]; intros item Hnd Hin Hne;
      [destruct Hin|].
    cbn in Hnd. apply NoDup_cons_iff in Hnd as [Hnotin Hnd].
    destruct Hin as [Heq|Hin].
    - inversion Heq; subst f sel. cbn.
      replace (String.eqb field cs) with false
        by (symmetry; now apply String.eqb_neq).
      rewrite assign_fields_not_key by exact Hnotin.
      apply dict_get_set_eq.
    - cbn. destruct (String.eqb f cs); [now apply IH|]. now apply IH.
  Qed.

Lemma assign_fields_keys entries : forall item k,
    In k (dict_keys (assign_fields resolve cs entries item)) ->
    In k (dict_keys item) \/ (In k (dict_keys entries) /\ k <> cs).
  Proof.
    induction entries as [|[f sel] entries IH]; intros item k Hk; cbn in *;
      [now left|].
    destruct (String.eqb f cs) eqn:E.
    - destruct (IH _ _ Hk) as [H|[H1 H2]]; [now left | right; tauto].
    - apply String.eqb_neq in E.
      destruct (IH _ _ Hk) as [H|[H1 H2]]; [|right; tauto].
      apply dict_keys_set in H as [->|H]; [right; tauto | now left].
  Qed.

End AssignFields.

Lemma static_fill_fields_assign `{Env} (c : Tag) cs entries : forall item,
  StaticScraper.fill_fields c cs entries item
  = assign_fields (static_resolve c) cs entries item.
Proof.
  induction entries as [|[f sel] entries IH]; intros item; cbn;
    [reflexivity|].
  destruct (String.eqb f cs); [apply IH|].
  rewrite IH. unfold static_resolve. now destruct (select_one c sel).
Qed.

Lemma dynamic_fill_fields_assign `{Env} (c : WebElement) cs entries :
  forall item,
    DynamicScraper.fill_fields c cs entries item
    = assign_fields (dynamic_resolve c) cs entries item.
Proof.
  induction entries as [|[f sel] entries IH]; intros item; cbn;
    [reflexivity|].
  destruct (String.eqb f cs); [apply IH|].
  rewrite IH. unfold dynamic_resolve.
  now destruct (DynamicScraper.field_value c sel).
Qed.

(** The container loops change nothing in the world and append one record
    per container. *)
Lemma static_each_container `{Env} config cs containers : forall data w,
  StaticScraper.each_container config cs containers data w =
    (Ret (data ++ map (fun c => StaticScraper.fill_fields c cs
                                  (selectors config)
                                  (stamp_item (clock w) config)) containers),
     w).
Proof.
  induction containers as [|c containers IH]; intros data w; cbn.
  - now rewrite app_nil_r.
  - unfold bind, get_world. rewrite IH. now rewrite <- app_assoc.
Qed.

Lemma dynamic_each_container `{Env} config cs containers : forall data w,
  DynamicScraper.each_container config cs containers data w =
    (Ret (data ++ map (fun c => DynamicScraper.fill_fields c cs
                                  (selectors config)
                                  (stamp_item (clock w) config)) containers),
     w).
Proof.
  induction containers as [|c containers IH]; intros data w; cbn.
  - now rewrite app_nil_r.
  - unfold bind, get_world. rewrite IH. now rewrite <- app_assoc.
Qed.



Lemma stamp_item_other `{Env} now config k :
  k <> "scraped_at"%string -> k <> "url"%string ->
  dict_get (stamp_item now config) k = None.
Proof.
  intros H1 H2. unfold stamp_item.
  rewrite !dict_get_set_ne by congruence. reflexivity.
Qed.


(** ** The two [scrape] methods on a page that loads *)

(** Reduce the projections of updated worlds, and nothing else. *)
Ltac world_simpl :=
  cbn [clock log trace fetches driver files tables triggers jobs running
       set_clock set_log set_trace set_fetches set_driver set_files
       set_tables set_triggers set_jobs set_running fst snd].

Lemma static_scrape_ok `{Env} config w status soup k v rest :
  http_get (url config) (StaticScraper.session_headers config)
           (timeout config) (fetches w) = inr (status, soup) ->
  ((400 <=? status) && (status <? 600))%Z = false ->
  selectors config = (k, v) :: rest ->
  exists w',
    StaticScraper.scrape config w =
      (Ret (map (fun c => StaticScraper.fill_fields c k (selectors config)
                            (stamp_item (clock w) config))
                (select soup k)), w')
    /\ jobs w' = jobs w /\ triggers w' = triggers w.
Proof.
  intros Hget Hstatus Hsel. eexists.
  unfold StaticScraper.scrape, StaticScraper.session_get,
    StaticScraper.raise_for_status.
  unfold bind at 1. cbn [logger modify].
  unfold bind at 1. unfold bind at 1. cbn [get_world].
  unfold bind at 1. cbn [modify set_log set_fetches fetches].
  rewrite Hget. cbn [ret fst snd].
  unfold bind at 1. rewrite Hstatus. cbn [ret].
  rewrite Hsel. unfold bind at 1. cbn [first_key ret].
  unfold bind at 1. rewrite static_each_container. cbn [app].
  unfold bind, logger, modify, ret. world_simpl. rewrite ?Hsel.
  split; [reflexivity|]. split; reflexivity.
Qed.

Lemma dynamic_scrape_ok `{Env} config w page containers k v rest :
  chrome_start (fetches w) = None ->
  driver_get (url config) (fetches w) = inr page ->
  match wait_for_element config with
  | Some sel =>
      PyStr.truthy sel = true -> wait_present page sel (timeout config) = true
  | None => True
  end ->
  selectors config = (k, v) :: rest ->
  find_elements page k = inr containers ->
  exists w',
    DynamicScraper.scrape config w =
      (Ret (map (fun c => DynamicScraper.fill_fields c k (selectors config)
                            (stamp_item (clock w + 2) config))
                containers), w')
    /\ jobs w' = jobs w /\ triggers w' = triggers w.
Proof.
  intros Hchrome Hget Hwait Hsel Hfind. eexists.
  unfold DynamicScraper.scrape, DynamicScraper._setup_driver,
    DynamicScraper.navigate, DynamicScraper.wait_for,
    DynamicScraper.quit_driver, try_finally, sleep, emit.
  unfold bind, logger, modify, get_world, ret. world_simpl.
  rewrite Hchrome. world_simpl. rewrite Hget. world_simpl.
  assert (Hw : forall w0 : World,
             (match wait_for_element config with
              | Some sel =>
                  if PyStr.truthy sel
                  then if wait_present page sel (timeout config)
                       then ret tt
                       else raise (TimeoutException "")
                  else ret tt
              | None => ret tt
              end) w0 = (Ret tt, w0)).
  { intros w0. destruct (wait_for_element config) as [sel|]; [|reflexivity].
    destruct (PyStr.truthy sel); [|reflexivity]. now rewrite Hwait. }
  rewrite Hw. world_simpl. rewrite Hsel. cbn [first_key].
  unfold ret. rewrite Hfind.
  rewrite dynamic_each_container. world_simpl. rewrite ?Hsel.
  split; [reflexivity|]. split; reflexivity.
Qed.

(** ** Extraction *)




(** C6 (as amended).  The field of a record whose selector resolves to an
    element holds the value of that element, and that value is chosen by
    fixed priority: the [href] attribute if it is present and not empty,
    else the [src] attribute if it is present and not empty, else the
    text of the element, trimmed.  An attribute that is present but empty
    counts as absent.  The rendered scraper stores the value of the
    element it finds in the same way, and chooses by the same priority
    whenever its reads of the element succeed. *)
Theorem value_priority `{Env} :
  (forall (container : Tag) cs entries item field selector element,
      List.NoDup (dict_keys entries) ->
      In (field, selector) entries ->
      field <> cs ->
      select_one container selector = Some element ->
      dict_get (StaticScraper.fill_fields container cs entries item) field
      = Some (StaticScraper.element_value element))
  /\ (forall (container : WebElement) cs entries item field selector element,
        List.NoDup (dict_keys entries) ->
        In (field, selector) entries ->
        field <> cs ->
        find_element container selector = inr element ->
        dict_get (DynamicScraper.fill_fields container cs entries item) field
        = Some (match DynamicScraper.element_value element with
                | inr v => v
                | inl _ => VNone
                end))
  /\ (forall (element : Tag),
        let href := tag_get element "href" in
        let src := tag_get element "src" in
        (forall h, href = Some h -> h <> ""%string ->
                   StaticScraper.element_value element = VStr h)
        /\ (forall s, href = None \/ href = Some ""%string ->
                      src = Some s -> s <> ""%string ->
                      StaticScraper.element_value element = VStr s)
        /\ (href = None \/ href = Some ""%string ->
            src = None \/ src = Some ""%string ->
            StaticScraper.element_value element
            = VStr (get_text_strip element)))
  /\ (forall (element : WebElement) href src,
        get_attribute element "href" = inr href ->
        get_attribute element "src" = inr src ->
        (forall h, href = Some h -> h <> ""%string ->
                   DynamicScraper.element_value element = inr (VStr h))
        /\ (forall s, href = None \/ href = Some ""%string ->
                      src = Some s -> s <> ""%string ->
                      DynamicScraper.element_value element = inr (VStr s))
        /\ (forall t, href = None \/ href = Some ""%string ->
                      src = None \/ src = Some ""%string ->
                      element_text element = inr t ->
                      DynamicScraper.element_value element
                      = inr (VStr (PyStr.strip t)))).
Proof.
  split; [|split; [|split]].
  - intros container cs entries item field selector element Hnd Hin Hne Hsel.
    rewrite static_fill_fields_assign.
    rewrite (assign_fields_key _ cs entries field selector item Hnd Hin Hne).
    unfold static_resolve. now rewrite Hsel.
  - intros container cs entries item field selector element Hnd Hin Hne Hsel.
    rewrite dynamic_fill_fields_assign.
    rewrite (assign_fields_key _ cs entries field selector item Hnd Hin Hne).
    unfold dynamic_resolve, DynamicScraper.field_value. now rewrite Hsel.
  - intros element href src. unfold StaticScraper.element_value.
    fold href src. split; [|split].
    + intros h -> Hh. destruct h; [congruence|reflexivity].
    + intros s [->| ->] -> Hs; (destruct s; [congruence|reflexivity]).
    + intros [->| ->] [->| ->]; reflexivity.
  - intros element href src Hhref Hsrc.
    unfold DynamicScraper.element_value. rewrite Hhref, Hsrc.
    split; [|split].
    + intros h -> Hh. destruct h; [congruence|reflexivity].
    + intros s [->| ->] -> Hs; (destruct s; [congruence|reflexivity]).
    + intros t [->| ->] [->| ->] Ht; cbn; now rewrite Ht.
Qed.

Lemma value_priority_witness :
  let E := Toy.env Toy.shop Toy.no_fault in
  let box := Toy.node "div" [] ""
               [Toy.node "a" [("href", "/tea")] "buy" []] in
  dict_get (StaticScraper.fill_fields (H := E) box "div"
              [("div", "ignored"); ("link", "a")] []) "link"
  = Some (VStr "/tea").
Proof.
  intros E box.
  destruct (value_priority (H := E)) as (Hrecord & _ & Hvalue & _).
  rewrite (Hrecord box "div" [("div", "ignored"); ("link", "a")] [] "link" "a"
             (Toy.node "a" [("href", "/tea")] "buy" [])).
  - destruct (Hvalue (Toy.node "a" [("href", "/tea")] "buy" []))
      as (Hhref & _).
    rewrite (Hhref "/tea"%string); [reflexivity | reflexivity | discriminate].
  - repeat constructor; cbn; intuition discriminate.
  - cbn. tauto.
  - discriminate.
  - reflexivity.
Defined.

(** C6 as stated fails: a link whose [href] is present but empty does not
    yield its [href]; the value taken is its text. *)
Lemma empty_href_is_skipped :
  let E := Toy.env Toy.shop Toy.no_fault in
  tag_get (Env := E) Toy.home_link "href" = Some ""%string
  /\ StaticScraper.element_value (H := E) Toy.home_link = VStr "Home"
  /\ StaticScraper.element_value (H := E) Toy.home_link <> VStr "".
Proof.
  intros E. split; [reflexivity|]. split; [reflexivity|]. discriminate.
Qed.



(** ** The container selector *)

Lemma bind_ext {A B} (m : M A) (k1 k2 : A -> M B) w :
  (forall a w', k1 a w' = k2 a w') -> bind m k1 w = bind m k2 w.
Proof.
  intros Hk. unfold bind. destruct (m w) as [[a|e] w']; [apply Hk|reflexivity].
Qed.

Lemma bind_ret_l {A B} (a : A) (k : A -> M B) w : bind (ret a) k w = k a w.
Proof. reflexivity. Qed.

Lemma try_finally_ext {A} (b1 b2 : M A) (fin : M unit) w :
  b1 w = b2 w -> try_finally b1 fin w = try_finally b2 fin w.
Proof. intros Hb. unfold try_finally. now rewrite Hb. Qed.

Lemma stamp_item_with_selectors `{Env} now sels config :
  stamp_item now (with_selectors sels config) = stamp_item now config.
Proof. reflexivity. Qed.

(** The value of the first entry does not reach the result. *)
Lemma static_scrape_first_value `{Env} config k v v' rest w :
  selectors config = (k, v) :: rest ->
  StaticScraper.scrape (with_selectors ((k, v') :: rest) config) w
  = StaticScraper.scrape config w.
Proof.
  intros Hsel.
  unfold StaticScraper.scrape, StaticScraper.session_get,
    StaticScraper.session_headers.
  cbn [with_selectors url timeout headers selectors]. rewrite Hsel.
  apply bind_ext; intros _ w1.
  apply bind_ext; intros response w2.
  apply bind_ext; intros _ w3.
  cbn [first_key]. rewrite !bind_ret_l.
  rewrite (bind_ret _ _ _ _ _ (static_each_container _ _ _ _ _)).
  rewrite (bind_ret _ _ _ _ _ (static_each_container config _ _ _ _)).
  cbn [with_selectors selectors]. rewrite Hsel. cbn [StaticScraper.fill_fields].
  rewrite String.eqb_refl. rewrite stamp_item_with_selectors. reflexivity.
Qed.

Lemma dynamic_scrape_first_value `{Env} config k v v' rest w :
  selectors config = (k, v) :: rest ->
  DynamicScraper.scrape (with_selectors ((k, v') :: rest) config) w
  = DynamicScraper.scrape config w.
Proof.
  intros Hsel.
  unfold DynamicScraper.scrape, DynamicScraper.navigate,
    DynamicScraper.wait_for.
  cbn [with_selectors url timeout wait_for_element selectors]. rewrite Hsel.
  apply bind_ext; intros _ w1.
  apply try_finally_ext.
  apply bind_ext; intros _ w2.
  apply bind_ext; intros page w3.
  apply bind_ext; intros _ w4.
  apply bind_ext; intros _ w5.
  cbn [first_key]. rewrite !bind_ret_l.
  destruct (find_elements page k) as [e|containers]; [reflexivity|].
  rewrite (bind_ret _ _ _ _ _ (dynamic_each_container _ _ _ _ _)).
  rewrite (bind_ret _ _ _ _ _ (dynamic_each_container config _ _ _ _)).
  cbn [with_selectors selectors]. rewrite Hsel.
  cbn [DynamicScraper.fill_fields].
  rewrite String.eqb_refl. rewrite stamp_item_with_selectors. reflexivity.
Qed.

(** A record built by the field loop holds under the container
    selector's key what the provenance stamp put there, if anything. *)
Lemma record_container_key `{Env} (resolve : string -> Value)
    config now k v rest :
  selectors config = (k, v) :: rest ->
  dict_get (assign_fields resolve k (selectors config)
              (stamp_item now config)) k
  = dict_get (stamp_item now config) k.
Proof. intros _. apply assign_fields_container_key. Qed.

(** C10 (as amended).  In both scrapers the containers are enumerated
    with the first key of the selector mapping used as a CSS selector;
    the value stored under that key never reaches the result (changing it
    changes nothing); and the field loop never assigns that key, so no
    record has an entry for it, unless the key is ["scraped_at"] or
    ["url"], under which every record carries its provenance stamp. *)
Theorem container_selector_is_first_key `{Env}
    (config : ScrapeConfig) (w : World) k v rest :
  selectors config = (k, v) :: rest ->
  (forall v',
      StaticScraper.scrape (with_selectors ((k, v') :: rest) config) w
      = StaticScraper.scrape config w
      /\ DynamicScraper.scrape (with_selectors ((k, v') :: rest) config) w
         = DynamicScraper.scrape config w)
  /\ (forall status soup,
        http_get (url config) (StaticScraper.session_headers config)
                 (timeout config) (fetches w) = inr (status, soup) ->
        ((400 <=? status) && (status <? 600))%Z = false ->
        exists data w',
          StaticScraper.scrape config w = (Ret data, w')
          /\ length data = length (select soup k)
          /\ forall item, In item data ->
               dict_get item k = dict_get (stamp_item (clock w) config) k
               /\ (k <> "scraped_at"%string -> k <> "url"%string ->
                   dict_get item k = None))
  /\ (forall page containers,
        chrome_start (fetches w) = None ->
        driver_get (url config) (fetches w) = inr page ->
        match wait_for_element config with
        | Some sel => PyStr.truthy sel = true ->
                      wait_present page sel (timeout config) = true
        | None => True
        end ->
        find_elements page k = inr containers ->
        exists data w',
          DynamicScraper.scrape config w = (Ret data, w')
          /\ length data = length containers
          /\ forall item, In item data ->
               dict_get item k = dict_get (stamp_item (clock w + 2) config) k
               /\ (k <> "scraped_at"%string -> k <> "url"%string ->
                   dict_get item k = None)).
Proof.
  intros Hsel. split; [|split].
  - intros v'. split.
    + now apply static_scrape_first_value with (v := v).
    + now apply dynamic_scrape_first_value with (v := v).
  - intros status soup Hget Hstatus.
    destruct (static_scrape_ok config w status soup k v rest Hget Hstatus Hsel)
      as (w' & Hrun & _).
    eexists _, w'. split; [exact Hrun|]. split; [apply length_map|].
    intros item Hin. apply in_map_iff in Hin as (c & <- & _).
    rewrite static_fill_fields_assign.
    rewrite (record_container_key _ config (clock w) k v rest Hsel).
    split; [reflexivity|]. apply stamp_item_other.
  - intros page containers Hchrome Hget Hwait Hfind.
    destruct (dynamic_scrape_ok config w page containers k v rest
                Hchrome Hget Hwait Hsel Hfind) as (w' & Hrun & _).
    eexists _, w'. split; [exact Hrun|]. split; [apply length_map|].
    intros item Hin. apply in_map_iff in Hin as (c & <- & _).
    rewrite dynamic_fill_fields_assign.
    rewrite (record_container_key _ config (clock w + 2) k v rest Hsel).
    split; [reflexivity|]. apply stamp_item_other.
Qed.

Lemma container_selector_is_first_key_witness :
  let E := Toy.env Toy.shop Toy.no_fault in
  let config := Toy.config "shop" "http://shop" "static" "1hour" "json"
                  [("div", "div.product-card"); ("title", "h2")] in
  exists data w',
    StaticScraper.scrape config (init_world 5) = (Ret data, w')
    /\ length data = 2%nat
    /\ forall item, In item data -> dict_get item "div" = None.
Proof.
  intros E config.
  destruct (container_selector_is_first_key config (init_world 5)
              "div" "div.product-card" [("title", "h2")] eq_refl)
    as (_ & Hstatic & _).
  destruct (Hstatic 200 Toy.shop_page eq_refl eq_refl)
    as (data & w' & Hrun & Hlen & Hitems).
  exists data, w'. split; [exact Hrun|]. split; [exact Hlen|].
  intros item Hin. apply (Hitems item Hin); discriminate.
Defined.

(** C10 as stated fails: on a sitemap, whose entries are [url] elements,
    the first key ["url"] enumerates the containers and every record has
    an entry under ["url"], the provenance stamp. *)
Lemma first_key_url_is_in_record :
  let E := Toy.env Toy.shop Toy.no_fault in
  let config := Toy.config "shop" "http://shop/sitemap" "static" "1hour"
                  "json" [("url", "ignored"); ("loc", "loc")] in
  exists item w',
    StaticScraper.scrape config (init_world 5) = (Ret [item], w')
    /\ In "url"%string (dict_keys item)
    /\ dict_get item "url" <> None.
Proof.
  intros E config. eexists _, _.
  split; [vm_compute; reflexivity|].
  split; [cbn; tauto | discriminate].
Qed.

(** ** Dispatch *)

Section KeepsRegistry.

Lemma keeps_ret {A} (a : A) : keeps_registry (ret a).
  Proof. intros w. split; reflexivity. Qed.

Lemma keeps_raise {A} (e : Exn) : keeps_registry (raise (A := A) e).
  Proof. intros w. split; reflexivity. Qed.

Lemma keeps_get_world : keeps_registry get_world.
  Proof. intros w. split; reflexivity. Qed.

Lemma keeps_bind {A B} (m : M A) (k : A -> M B) :
    keeps_registry m -> (forall a, keeps_registry (k a)) ->
    keeps_registry (bind m k).
  Proof.
    intros Hm Hk w. unfold bind. specialize (Hm w).
    destruct (m w) as [[a|e] w1]; cbn [snd] in *; [|exact Hm].
    destruct (Hk a w1) as [Hj Ht]. destruct Hm as [Hj' Ht'].
    split; congruence.
  Qed.

Lemma keeps_try_except {A} (body : M A) (handler : Exn -> M A) :
    keeps_registry body -> (forall e, keeps_registry (handler e)) ->
    keeps_registry (try_except body handler).
  Proof.
    intros Hb Hh w. unfold try_except. specialize (Hb w).
    destruct (body w) as [[a|e] w1]; cbn [snd] in *; [exact Hb|].
    destruct (Hh e w1) as [Hj Ht]. destruct Hb as [Hj' Ht'].
    split; congruence.
  Qed.

Lemma keeps_try_finally {A} (body : M A) (fin : M unit) :
    keeps_registry body -> keeps_registry fin ->
    keeps_registry (try_finally body fin).
  Proof.
    intros Hb Hf w. unfold try_finally. specialize (Hb w).
    destruct (body w) as [r w1]. cbn [snd] in Hb.
    specialize (Hf w1). destruct (fin w1) as [[u|e] w2]; cbn [snd] in *;
      destruct Hb, Hf; split; congruence.
  Qed.

Lemma keeps_bind_ret {A B} (a : A) (k : A -> M B) :
    keeps_registry (k a) -> keeps_registry (bind (ret a) k).
  Proof. intros Hk w. apply Hk. Qed.

Lemma keeps_bind_assoc {A B C} (m : M A) (k1 : A -> M B) (k2 : B -> M C) :
    keeps_registry (bind m (fun x => bind (k1 x) k2)) ->
    keeps_registry (bind (bind m k1) k2).
  Proof.
    intros Hk w. specialize (Hk w). unfold bind in *.
    destruct (m w) as [[a|e] w1]; exact Hk.
  Qed.

Lemma keeps_modify (f : World -> World) :
    (forall w, jobs (f w) = jobs w /\ triggers (f w) = triggers w) ->
    keeps_registry (modify f).
  Proof. intros Hf w. apply Hf. Qed.

Lemma keeps_logger lvl msg : keeps_registry (logger lvl msg).
  Proof. intros w. split; reflexivity. Qed.

Lemma keeps_emit ev : keeps_registry (emit ev).
  Proof. intros w. split; reflexivity. Qed.

Lemma keeps_sleep secs : keeps_registry (sleep secs).
  Proof. intros w. split; reflexivity. Qed.

End KeepsRegistry.

(** Decompose a computation along its binds, handlers and branches. *)
Ltac keeps_step :=
  match goal with
  | |- keeps_registry (bind _ _) => apply keeps_bind; [|intros ?]
  | |- keeps_registry (try_except _ _) => apply keeps_try_except; [|intros ?]
  | |- keeps_registry (try_finally _ _) => apply keeps_try_finally
  | |- keeps_registry (ret _) => apply keeps_ret
  | |- keeps_registry (raise _) => apply keeps_raise
  | |- keeps_registry get_world => apply keeps_get_world
  | |- keeps_registry (logger _ _) => apply keeps_logger
  | |- keeps_registry (emit _) => apply keeps_emit
  | |- keeps_registry (sleep _) => apply keeps_sleep
  | |- keeps_registry (modify _) =>
      apply keeps_modify; intros ?; split; reflexivity
  | |- keeps_registry (if ?b then _ else _) => destruct b
  | |- keeps_registry (match ?x with _ => _ end) => destruct x
  end.

Ltac keeps := repeat keeps_step.

Section DispatchFacts.
Context `{Env}.

Lemma keeps_static_scrape config :
    keeps_registry (StaticScraper.scrape config).
  Proof.
    unfold StaticScraper.scrape, StaticScraper.session_get,
      StaticScraper.raise_for_status, first_key.
    keeps. intros w. rewrite static_each_container. split; reflexivity.
  Qed.

Lemma keeps_dynamic_scrape config :
    keeps_registry (DynamicScraper.scrape config).
  Proof.
    unfold DynamicScraper.scrape, DynamicScraper._setup_driver,
      DynamicScraper.navigate, DynamicScraper.wait_for,
      DynamicScraper.quit_driver, first_key.
    keeps. intros w. rewrite dynamic_each_container. split; reflexivity.
  Qed.

Lemma keeps_retry_loop (scrape : M (list Item)) max attempts :
    keeps_registry scrape ->
    keeps_registry (retry_loop scrape max attempts).
  Proof.
    intros Hs. induction attempts as [|a attempts IH]; cbn [retry_loop].
    - keeps.
    - unfold call_scrape. keeps; assumption.
  Qed.

Lemma keeps_export config job_name data :
    keeps_registry (WebScraperScheduler.export config job_name data).
  Proof.
    unfold WebScraperScheduler.export, DataExporter.to_csv,
      DataExporter.to_json, DataExporter.to_database,
      DataExporter.write_file, DataExporter.open_sink, DataExporter.to_sql.
    keeps.
  Qed.

Lemma keeps_retry_scrape (scrape : M (list Item)) config :
    keeps_registry scrape -> keeps_registry (retry_scrape scrape config).
  Proof. apply keeps_retry_loop. Qed.

Lemma keeps_run_body config job_name :
    keeps_registry (WebScraperScheduler.run_body config job_name).
  Proof.
    unfold WebScraperScheduler.run_body, WebScraperScheduler.make_scraper.
    destruct (String.eqb (scrape_type config) "static").
    - apply keeps_bind_ret.
      apply keeps_bind;
        [apply keeps_retry_scrape, keeps_static_scrape|intros data].
      apply keeps_bind; [apply keeps_export|intros; keeps].
    - apply keeps_bind_assoc. apply keeps_bind; [keeps|intros _].
      apply keeps_bind_ret.
      apply keeps_bind;
        [apply keeps_retry_scrape, keeps_dynamic_scrape|intros data].
      apply keeps_bind; [apply keeps_export|intros; keeps].
  Qed.

Lemma keeps_run_job job_name :
    keeps_registry (WebScraperScheduler._run_job job_name).
  Proof.
    unfold WebScraperScheduler._run_job.
    apply keeps_bind; [keeps|]. intros w0.
    destruct (dict_get (jobs w0) job_name); [|keeps].
    apply keeps_bind; [keeps|intros _].
    apply keeps_try_except; [apply keeps_run_body|intros; keeps].
  Qed.

  (** [_run_job] on a stored job returns normally, whatever its body
      does. *)
Lemma run_job_returns job_name config w :
    dict_get (jobs w) job_name = Some config ->
    fst (WebScraperScheduler._run_job job_name w) = Ret tt.
  Proof.
    intros Hjob.
    unfold WebScraperScheduler._run_job, bind, get_world.
    rewrite Hjob. unfold logger, modify, try_except.
    match goal with
    | |- context [WebScraperScheduler.run_body config job_name ?w0] =>
        destruct (WebScraperScheduler.run_body config job_name w0)
          as [[[]|e] w1]
    end; reflexivity.
  Qed.

  (** What the body raised is reported in the last record of the log. *)
Lemma run_job_logs_failure job_name config w e w1 :
    dict_get (jobs w) job_name = Some config ->
    WebScraperScheduler.run_body config job_name
      (set_log (log w ++ [{| lr_time := clock w; lr_level := INFO;
                             lr_msg := ("Running job: " ++ job_name)%string |}])
               w) = (Raise e, w1) ->
    WebScraperScheduler._run_job job_name w =
      (Ret tt,
       set_log (log w1 ++ [{| lr_time := clock w1; lr_level := ERROR;
                              lr_msg := ("Job '" ++ job_name ++ "' failed: "
                                         ++ exn_str e)%string |}]) w1).
  Proof.
    intros Hjob Hbody.
    unfold WebScraperScheduler._run_job, bind, get_world.
    rewrite Hjob. unfold logger at 1, modify at 1. unfold try_except.
    rewrite Hbody. reflexivity.
  Qed.

Lemma triggers_registered_frame w w' :
    jobs w' = jobs w ->
    map tr_job (triggers w') = map tr_job (triggers w) ->
    triggers_registered w -> triggers_registered w'.
  Proof.
    unfold triggers_registered. intros Hj Ht Hreg.
    rewrite Hj.
    apply List.Forall_forall. intros t Hin.
    assert (Hname : In (tr_job t) (map tr_job (triggers w)))
      by (rewrite <- Ht; now apply in_map).
    apply in_map_iff in Hname as (t0 & Heq & Hin0).
    rewrite <- Heq. rewrite List.Forall_forall in Hreg. now apply Hreg.
  Qed.

Lemma reschedule_names i w :
    jobs (snd (Schedule.reschedule i w)) = jobs w
    /\ map tr_job (triggers (snd (Schedule.reschedule i w)))
       = map tr_job (triggers w).
  Proof.
    unfold Schedule.reschedule, modify. cbn [snd jobs triggers set_triggers].
    split; [reflexivity|].
    destruct (triggers w !! i) as [t|] eqn:Hi; [|reflexivity].
    match goal with
    | |- map tr_job (<[i:=?t']> _) = _ =>
        change (tr_job <$> <[i:=t']> (triggers w) = tr_job <$> triggers w)
    end.
    rewrite list_fmap_insert. cbn [tr_job].
    apply list_insert_id. now rewrite list_lookup_fmap, Hi.
  Qed.

Lemma registered_job w t :
    triggers_registered w -> In t (triggers w) ->
    exists config, dict_get (jobs w) (tr_job t) = Some config.
  Proof.
    intros Hreg Hin. unfold triggers_registered in Hreg.
    rewrite List.Forall_forall in Hreg. specialize (Hreg t Hin).
    unfold dict_mem in Hreg.
    destruct (dict_get (jobs w) (tr_job t)) as [config|]; [|discriminate].
    now exists config.
  Qed.

  (** Running the due jobs never raises and keeps the triggers
      registered. *)
Lemma run_all_returns positions : forall w,
    triggers_registered w ->
    exists w',
      Schedule.run_all WebScraperScheduler._run_job positions w = (Ret tt, w')
      /\ triggers_registered w'.
  Proof.
    induction positions as [|i positions IH]; intros w Hreg;
      cbn [Schedule.run_all].
    - now exists w.
    - unfold bind at 1, get_world.
      destruct (triggers w !! i) as [t|] eqn:Hi; [|now apply IH].
      apply list_elem_of_lookup_2, list_elem_of_In in Hi.
      destruct (registered_job w t Hreg Hi) as [config Hjob].
      pose proof (run_job_returns _ _ _ Hjob) as Hret.
      pose proof (keeps_run_job (tr_job t) w) as [Hj Ht].
      destruct (WebScraperScheduler._run_job (tr_job t) w) as [r w1] eqn:Hrun.
      cbn [fst snd] in *. subst r.
      rewrite (bind_ret _ _ _ _ _ Hrun).
      unfold bind at 1.
      destruct (reschedule_names i w1) as [Hj2 Ht2].
      destruct (Schedule.reschedule i w1) as [[[]|e] w2] eqn:Hres;
        [|discriminate Hres].
      cbn [snd] in *.
      apply IH. apply (triggers_registered_frame w); [congruence| |exact Hreg].
      rewrite Ht2. now rewrite Ht.
  Qed.

Lemma scheduler_loop_returns ticks : forall w,
    triggers_registered w ->
    exists w',
      WebScraperScheduler.scheduler_loop ticks w = (Ret tt, w')
      /\ triggers_registered w'.
  Proof.
    induction ticks as [|n IH]; intros w Hreg;
      cbn [WebScraperScheduler.scheduler_loop].
    - now exists w.
    - unfold bind at 1, get_world.
      destruct (running w); [|now exists w].
      unfold Schedule.run_pending. unfold bind at 1. unfold bind at 1.
      cbn [get_world].
      destruct (run_all_returns (Schedule.due (clock w) (triggers w)) w Hreg)
        as (w1 & Hrun & Hreg1).
      rewrite Hrun. unfold sleep, bind, emit, modify.
      apply IH. exact Hreg1.
  Qed.

Lemma add_job_triggers config w :
    triggers (snd (WebScraperScheduler.add_job config w)) = triggers w
    \/ exists t,
         triggers (snd (WebScraperScheduler.add_job config w))
         = triggers w ++ [t]
         /\ tr_job t = name config.
  Proof.
    unfold WebScraperScheduler.add_job, bind, modify,
      WebScraperScheduler.parse_int, Schedule.every_do, modify, logger,
      modify, raise, ret.
    cbn.
    repeat match goal with
           | |- context [if ?b then _ else _] => destruct b
           | |- context [match PyStr.int ?s with _ => _ end] =>
               destruct (PyStr.int s)
           end; cbn; eauto.
  Qed.

Lemma add_job_registered config w :
    triggers_registered w ->
    triggers_registered (snd (WebScraperScheduler.add_job config w)).
  Proof.
    intros Hreg. unfold triggers_registered in *.
    rewrite add_job_stores.
    assert (Hold : Forall (fun t => dict_mem (dict_set (jobs w) (name config)
                                                config) (tr_job t) = true)
                          (triggers w)).
    { eapply List.Forall_impl; [|exact Hreg].
      intros t Ht. now apply dict_mem_set. }
    destruct (add_job_triggers config w) as [->|(t & -> & Hname)];
      [exact Hold|].
    apply Forall_app. split; [exact Hold|].
    constructor; [|constructor]. rewrite Hname.
    unfold dict_mem. now rewrite dict_get_set_eq.
  Qed.

Lemma start_scheduler_returns ticks w :
    triggers_registered w ->
    exists w',
      WebScraperScheduler.start_scheduler ticks w = (Ret tt, w')
      /\ triggers_registered w'.
  Proof.
    intros Hreg. unfold WebScraperScheduler.start_scheduler.
    unfold bind at 1, modify at 1. unfold bind at 1, logger at 1, modify at 1.
    apply scheduler_loop_returns. exact Hreg.
  Qed.

Lemma run_job_now_returns job_name w :
    exists w',
      WebScraperScheduler.run_job_now job_name w = (Ret tt, w')
      /\ jobs w' = jobs w /\ triggers w' = triggers w.
  Proof.
    unfold WebScraperScheduler.run_job_now, bind at 1, get_world, dict_mem.
    destruct (dict_get (jobs w) job_name) as [config|] eqn:Hjob.
    - pose proof (run_job_returns _ _ _ Hjob) as Hret.
      pose proof (keeps_run_job job_name w) as Hk.
      destruct (WebScraperScheduler._run_job job_name w) as [r w1].
      cbn [fst snd] in *. subst r. now exists w1.
    - eexists. split; [reflexivity|]. split; reflexivity.
  Qed.

Lemma reachable_registered w : reachable w -> triggers_registered w.
  Proof.
    induction 1 as [t|config w _ IH|job_name w _ IH|ticks w _ IH|w _ IH].
    - constructor.
    - now apply add_job_registered.
    - destruct (run_job_now_returns job_name w) as (w' & Hrun & Hj & Ht).
      rewrite Hrun. cbn [snd].
      apply (triggers_registered_frame w); [exact Hj|now rewrite Ht|exact IH].
    - destruct (start_scheduler_returns ticks w IH) as (w' & Hrun & Hreg).
      now rewrite Hrun.
    - exact IH.
  Qed.

End DispatchFacts.

(** C9.  In every world the process can reach, a dispatch never raises:
    [run_job_now] returns normally for any name; [_run_job] returns
    normally for the job of every installed trigger; and the scheduler
    loop, for any number of ticks, returns normally into a reachable
    world, so no failing run ends the loop.  When the body of a run raises
    (the scrape after its last retry, or the export), [_run_job] catches
    the exception and its last act is to log the failure with the job
    name and the error. *)
Theorem dispatch_never_raises `{Env} (w : World) :
  reachable w ->
  (forall job_name,
      exists w', WebScraperScheduler.run_job_now job_name w = (Ret tt, w'))
  /\ (forall t, In t (triggers w) ->
        exists w', WebScraperScheduler._run_job (tr_job t) w = (Ret tt, w'))
  /\ (forall ticks,
        exists w',
          WebScraperScheduler.start_scheduler ticks w = (Ret tt, w')
          /\ reachable w')
  /\ (forall job_name config e w1,
        dict_get (jobs w) job_name = Some config ->
        WebScraperScheduler.run_body config job_name
          (set_log (log w ++ [{| lr_time := clock w; lr_level := INFO;
                                 lr_msg := ("Running job: "
                                            ++ job_name)%string |}]) w)
        = (Raise e, w1) ->
        exists w',
          WebScraperScheduler.run_job_now job_name w = (Ret tt, w')
          /\ last (log w')
             = Some {| lr_time := clock w1; lr_level := ERROR;
                       lr_msg := ("Job '" ++ job_name ++ "' failed: "
                                  ++ exn_str e)%string |}).
Proof.
  intros Hreach. pose proof (reachable_registered w Hreach) as Hreg.
  split; [|split; [|split]].
  - intros job_name.
    destruct (run_job_now_returns job_name w) as (w' & Hrun & _).
    now exists w'.
  - intros t Hin. destruct (registered_job w t Hreg Hin) as [config Hjob].
    pose proof (run_job_returns _ _ _ Hjob) as Hret.
    destruct (WebScraperScheduler._run_job (tr_job t) w) as [r w'].
    cbn [fst] in Hret. subst r. now exists w'.
  - intros ticks.
    destruct (start_scheduler_returns ticks w Hreg) as (w' & Hrun & _).
    exists w'. split; [exact Hrun|].
    replace w' with (snd (WebScraperScheduler.start_scheduler ticks w))
      by now rewrite Hrun.
    now constructor.
  - intros job_name config e w1 Hjob Hbody.
    eexists. split.
    + unfold WebScraperScheduler.run_job_now, bind at 1, get_world, dict_mem.
      rewrite Hjob. apply (run_job_logs_failure _ _ _ _ _ Hjob Hbody).
    + cbn [log set_log]. apply last_snoc.
Qed.

Lemma dispatch_never_raises_witness :
  let E := Toy.env Toy.offline Toy.no_fault in
  let config := Toy.config "news" "http://news" "static" "1min" "csv"
                  [("article", "article.news-item"); ("title", "h2")] in
  let w := snd (WebScraperScheduler.add_job config (init_world 0)) in
  reachable w
  /\ (exists w', WebScraperScheduler.run_job_now "news" w = (Ret tt, w'))
  /\ (exists w', WebScraperScheduler.start_scheduler 61 w = (Ret tt, w')).
Proof.
  intros E config w.
  assert (Hreach : reachable w) by (apply reach_add_job, reach_init).
  destruct (dispatch_never_raises w Hreach) as (Hnow & _ & Hloop & _).
  split; [exact Hreach|]. split; [apply Hnow|].
  destruct (Hloop 61%nat) as (w' & Hrun & _). now exists w'.
Defined.

(** With the site offline, the job scheduled every minute fires at the
    sixtieth tick, fails after three attempts, and the loop goes on: the
    failure is the last thing logged. *)
Example offline_job_fails_in_loop :
  let E := Toy.env Toy.offline Toy.no_fault in
  let config := Toy.config "news" "http://news" "static" "1min" "csv"
                  [("article", "article.news-item"); ("title", "h2")] in
  let w := snd (WebScraperScheduler.add_job config (init_world 0)) in
  let run := WebScraperScheduler.start_scheduler 61 w in
  fst run = Ret tt
  /\ sleeps (snd run) = repeat 1 60 ++ [1; 2; 1]
  /\ last (log (snd run))
     = Some {| lr_time := 63; lr_level := ERROR;
               lr_msg := "Job 'news' failed: offline" |}.
Proof.
  intros E config w run. vm_compute. repeat split.
Qed.

(** ** The model on the configurations of [create_example_configs] *)

Example endswith_examples :
  PyStr.endswith "30min" "min" = true
  /\ PyStr.endswith "1hour" "min" = false
  /\ PyStr.endswith "1hour" "hour" = true
  /\ PyStr.endswith "in" "min" = false
  /\ PyStr.drop_last 3 "30min" = "30"%string
  /\ PyStr.drop_last 4 "1hour" = "1"%string.
Proof. repeat split. Qed.

Example int_examples :
  PyStr.int "30" = Some 30
  /\ PyStr.int " -7 " = Some (-7)
  /\ PyStr.int "1_000" = Some 1000
  /\ PyStr.int "" = None
  /\ PyStr.int "x" = None
  /\ PyStr.int "1__0" = None
  /\ PyStr.int "5_" = None.
Proof. repeat split. Qed.

Example strip_examples :
  PyStr.strip "  Tea  " = "Tea"%string
  /\ PyStr.strip "a b" = "a b"%string
  /\ PyStr.strip "   " = ""%string.
Proof. repeat split. Qed.

(** The two example jobs install an hourly and a half-hourly trigger. *)
Example example_configs_schedule :
  let news := Toy.config "news_scraper" "https://example-news.com" "static"
                "1hour" "csv"
                [("article", "article.news-item"); ("title", "h2.title")] in
  let product := Toy.config "product_scraper"
                   "https://example-store.com/products" "dynamic"
                   "30min" "database"
                   [("product", "div.product-card");
                    ("name", "h3.product-name")] in
  let w := snd (WebScraperScheduler.add_job product
                  (snd (WebScraperScheduler.add_job news (init_world 0)))) in
  dict_keys (jobs w) = ["news_scraper"; "product_scraper"]%string
  /\ map (fun t => (tr_job t, tr_next_run t)) (triggers w)
     = [("news_scraper"%string, 3600); ("product_scraper"%string, 1800)].
Proof. repeat split. Qed.

(** An interval with a recognised unit and no number makes [add_job]
    raise [ValueError], after the job has been stored. *)
Example add_job_missing_number :
  let config := Toy.config "news" "http://news" "static" "min" "csv" [] in
  let run := WebScraperScheduler.add_job config (init_world 0) in
  fst run = Raise (ValueError "invalid literal for int() with base 10: ''")
  /\ dict_keys (jobs (snd run)) = ["news"%string]
  /\ triggers (snd run) = [].
Proof. repeat split. Qed.

(** A non-empty batch written as JSON. *)
Example json_of_one_record :
  Json.dumps (Some [[("url", VStr "http://shop"); ("link", VNone)]])
  = ("[" ++ Json.newline
     ++ "  {" ++ Json.newline
     ++ "    " ++ Json.quote ++ "url" ++ Json.quote ++ ": "
     ++ Json.quote ++ "http://shop" ++ Json.quote ++ "," ++ Json.newline
     ++ "    " ++ Json.quote ++ "link" ++ Json.quote ++ ": null"
     ++ Json.newline
     ++ "  }" ++ Json.newline ++ "]")%string.
Proof. reflexivity. Qed.

(** A failure of the export is caught in the same place: with a sink that
    cannot be opened the run is reported as failed and nothing is
    written. *)
Example export_failure_is_logged :
  let E := Toy.env Toy.shop (fun _ => Some (OSError "disk full")) in
  let config := Toy.config "shop" "http://shop" "static" "1hour" "json"
                  [("div", "div.product-card"); ("title", "h2")] in
  let w := snd (WebScraperScheduler.add_job config (init_world 0)) in
  let run := WebScraperScheduler.run_job_now "shop" w in
  fst run = Ret tt
  /\ files (snd run) = ∅
  /\ last (log (snd run))
     = Some {| lr_time := 0; lr_level := ERROR;
               lr_msg := "Job 'shop' failed: disk full" |}.
Proof.
  intros E config w run. vm_compute. repeat split.
Qed.

(** * Further properties *)

(** ** Python strings *)

Section PyStrFacts.

Lemma string_app_cons (x : ascii) (a b : string) :
  String x a +:+ b = String x (a +:+ b).
Proof. reflexivity. Qed.

Lemma string_app_assoc (a b c : string) : (a +:+ b) +:+ c = a +:+ (b +:+ c).
Proof.
  induction a as [|x a IH]; [reflexivity|].
  rewrite !string_app_cons. f_equal. exact IH.
Qed.

Lemma string_app_nil_r (a : string) : a +:+ "" = a.
Proof.
  induction a as [|x a IH]; [reflexivity|].
  rewrite string_app_cons. f_equal. exact IH.
Qed.


Lemma rev_chars_spec (s acc : string) :
  PyStr.rev_chars s acc = PyStr.reverse s +:+ acc.
Proof.
  unfold PyStr.reverse. revert acc.
  induction s as [|c s IH]; intros acc; [reflexivity|].
  cbn [PyStr.rev_chars].
  rewrite (IH (String c acc)), (IH (String c "")).
  now rewrite string_app_assoc.
Qed.

Lemma reverse_app (a b : string) :
  PyStr.reverse (a +:+ b) = PyStr.reverse b +:+ PyStr.reverse a.
Proof.
  induction a as [|c a IH].
  - change ("" +:+ b) with b. change (PyStr.reverse "") with "".
    now rewrite string_app_nil_r.
  - change (PyStr.reverse (String c a +:+ b))
      with (PyStr.rev_chars (a +:+ b) (String c "")).
    change (PyStr.reverse (String c a))
      with (PyStr.rev_chars a (String c "")).
    rewrite !rev_chars_spec, IH. apply string_app_assoc.
Qed.

Lemma prefix_app (p s : string) : String.prefix p (p +:+ s) = true.
Proof.
  induction p as [|c p IH]; [now destruct s|].
  rewrite string_app_cons. cbn [String.prefix].
  destruct (ascii_dec c c); [exact IH|contradiction].
Qed.


(** A string built by appending a suffix ends with it, and dropping as
    many characters as the suffix has gives the rest back. *)
Lemma endswith_app (a suffix : string) :
  PyStr.endswith (a +:+ suffix) suffix = true.
Proof. unfold PyStr.endswith. rewrite reverse_app. apply prefix_app. Qed.


End PyStrFacts.


(** ** Registration *)







(** ** Frames *)

Section PreservesFacts.
Context {X : Type} (proj : World -> X).

Lemma preserves_bind {A B} (m : M A) (k : A -> M B) :
  preserves proj m -> (forall a, preserves proj (k a)) ->
  preserves proj (bind m k).
Proof.
  intros Hm Hk w. unfold bind. specialize (Hm w).
  destruct (m w) as [[a|e] w1]; cbn [snd] in *; [|exact Hm].
  rewrite (Hk a w1). exact Hm.
Qed.

Lemma preserves_bind_ret {A B} (a : A) (k : A -> M B) :
  preserves proj (k a) -> preserves proj (bind (ret a) k).
Proof. intros Hk w. apply Hk. Qed.

Lemma preserves_bind_assoc {A B C}
    (m : M A) (k1 : A -> M B) (k2 : B -> M C) :
  preserves proj (bind m (fun x => bind (k1 x) k2)) ->
  preserves proj (bind (bind m k1) k2).
Proof.
  intros Hk w. specialize (Hk w). unfold bind in *.
  destruct (m w) as [[a|e] w1]; exact Hk.
Qed.

Lemma preserves_try_except {A} (body : M A) (handler : Exn -> M A) :
  preserves proj body -> (forall e, preserves proj (handler e)) ->
  preserves proj (try_except body handler).
Proof.
  intros Hb Hh w. unfold try_except. specialize (Hb w).
  destruct (body w) as [[a|e] w1]; cbn [snd] in *; [exact Hb|].
  rewrite (Hh e w1). exact Hb.
Qed.

Lemma preserves_try_finally {A} (body : M A) (fin : M unit) :
  preserves proj body -> preserves proj fin ->
  preserves proj (try_finally body fin).
Proof.
  intros Hb Hf w. unfold try_finally. specialize (Hb w).
  destruct (body w) as [r w1]. cbn [snd] in Hb.
  specialize (Hf w1). destruct (fin w1) as [[u|e] w2]; cbn [snd] in *;
    congruence.
Qed.

End PreservesFacts.

(** Decompose a computation along its binds, handlers and branches; what
    is left are the primitive steps, which either leave the component
    alone by computation or remain as goals. *)
Ltac frame_step :=
  match goal with
  | |- preserves _ (bind _ _) => apply preserves_bind; [|intros ?]
  | |- preserves _ (try_except _ _) => apply preserves_try_except; [|intros ?]
  | |- preserves _ (try_finally _ _) => apply preserves_try_finally
  | |- preserves _ (if ?b then _ else _) => destruct b
  | |- preserves _ (match ?x with _ => _ end) => destruct x
  | |- preserves _ _ => solve [intros ?; reflexivity]
  end.

Ltac frame := repeat frame_step.

Section AdvancesFacts.

Lemma advances_bind {A B} (m : M A) (k : A -> M B) :
  advances m -> (forall a, advances (k a)) -> advances (bind m k).
Proof.
  intros Hm Hk w. unfold bind. specialize (Hm w).
  destruct (m w) as [[a|e] w1]; cbn [snd] in *; [|exact Hm].
  specialize (Hk a w1). lia.
Qed.

Lemma advances_bind_ret {A B} (a : A) (k : A -> M B) :
  advances (k a) -> advances (bind (ret a) k).
Proof. intros Hk w. apply Hk. Qed.

Lemma advances_bind_assoc {A B C}
    (m : M A) (k1 : A -> M B) (k2 : B -> M C) :
  advances (bind m (fun x => bind (k1 x) k2)) ->
  advances (bind (bind m k1) k2).
Proof.
  intros Hk w. specialize (Hk w). unfold bind in *.
  destruct (m w) as [[a|e] w1]; exact Hk.
Qed.

Lemma advances_try_except {A} (body : M A) (handler : Exn -> M A) :
  advances body -> (forall e, advances (handler e)) ->
  advances (try_except body handler).
Proof.
  intros Hb Hh w. unfold try_except. specialize (Hb w).
  destruct (body w) as [[a|e] w1]; cbn [snd] in *; [exact Hb|].
  specialize (Hh e w1). lia.
Qed.

Lemma advances_try_finally {A} (body : M A) (fin : M unit) :
  advances body -> advances fin -> advances (try_finally body fin).
Proof.
  intros Hb Hf w. unfold try_finally. specialize (Hb w).
  destruct (body w) as [r w1]. cbn [snd] in Hb.
  specialize (Hf w1). destruct (fin w1) as [[u|e] w2]; cbn [snd] in *; lia.
Qed.

Lemma advances_sleep secs : 0 <= secs -> advances (sleep secs).
Proof. intros Hs w. cbn. lia. Qed.

Lemma advances_preserves {A} (m : M A) : preserves clock m -> advances m.
Proof. intros Hm w. rewrite (Hm w). lia. Qed.

End AdvancesFacts.

Ltac advance_step :=
  match goal with
  | |- advances (bind _ _) => apply advances_bind; [|intros ?]
  | |- advances (try_except _ _) => apply advances_try_except; [|intros ?]
  | |- advances (try_finally _ _) => apply advances_try_finally
  | |- advances (sleep _) => apply advances_sleep; try lia
  | |- advances (if ?b then _ else _) => destruct b
  | |- advances (match ?x with _ => _ end) => destruct x
  | |- advances _ => solve [intros ?; cbn; lia]
  end.

Ltac advance := repeat advance_step.

Section ScraperFrames.
Context `{Env}.

Lemma static_each_container_preserves {X} (proj : World -> X)
    config cs containers data :
  preserves proj (StaticScraper.each_container config cs containers data).
Proof. intros w. now rewrite static_each_container. Qed.

Lemma dynamic_each_container_preserves {X} (proj : World -> X)
    config cs containers data :
  preserves proj (DynamicScraper.each_container config cs containers data).
Proof. intros w. now rewrite dynamic_each_container. Qed.

Ltac scrape_frame :=
  unfold StaticScraper.scrape, StaticScraper.session_get,
    StaticScraper.raise_for_status, DynamicScraper.scrape,
    DynamicScraper._setup_driver, DynamicScraper.navigate,
    DynamicScraper.wait_for, DynamicScraper.quit_driver, first_key;
  frame;
  first [apply static_each_container_preserves
        |apply dynamic_each_container_preserves].

Lemma static_scrape_frame config :
  preserves clock (StaticScraper.scrape config)
  /\ preserves trace (StaticScraper.scrape config)
  /\ preserves driver (StaticScraper.scrape config)
  /\ preserves files (StaticScraper.scrape config)
  /\ preserves tables (StaticScraper.scrape config)
  /\ preserves triggers (StaticScraper.scrape config)
  /\ preserves jobs (StaticScraper.scrape config)
  /\ preserves running (StaticScraper.scrape config).
Proof. repeat split; scrape_frame. Qed.

Lemma dynamic_scrape_frame config :
  preserves files (DynamicScraper.scrape config)
  /\ preserves tables (DynamicScraper.scrape config)
  /\ preserves triggers (DynamicScraper.scrape config)
  /\ preserves jobs (DynamicScraper.scrape config)
  /\ preserves running (DynamicScraper.scrape config).
Proof. repeat split; scrape_frame. Qed.

End ScraperFrames.

(** ** The static scraper, whatever the site answers *)


(** X4.  [StaticScraper.scrape] changes nothing in the world but the log,
    which it only extends, and the count of requests: it does not sleep,
    starts no browser, writes no file and no table, and leaves the
    registry, the triggers and the running flag alone. *)
Theorem static_scrape_footprint `{Env} (config : ScrapeConfig) (w : World) :
  let w' := snd (StaticScraper.scrape config w) in
  clock w' = clock w
  /\ trace w' = trace w
  /\ driver w' = driver w
  /\ files w' = files w
  /\ tables w' = tables w
  /\ triggers w' = triggers w
  /\ jobs w' = jobs w
  /\ running w' = running w
  /\ exists records, log w' = log w ++ records.
Proof.
  cbn zeta.
  destruct (static_scrape_frame config)
    as (Hc & Ht & Hd & Hf & Hta & Htr & Hj & Hr).
  repeat (split; [solve [apply Hc | apply Ht | apply Hd | apply Hf
                        | apply Hta | apply Htr | apply Hj | apply Hr]|]).
  unfold StaticScraper.scrape, StaticScraper.session_get,
    StaticScraper.raise_for_status, first_key, bind, logger, modify,
    get_world, ret, raise.
  world_simpl.
  destruct (http_get (url config) (StaticScraper.session_headers config)
                     (timeout config) (fetches w)) as [e|response];
    world_simpl; [eexists; reflexivity|].
  destruct ((400 <=? fst response) && (fst response <? 600))%Z;
    world_simpl; [eexists; reflexivity|].
  destruct (selectors config) as [|[k v] rest] eqn:Hsel;
    world_simpl; [eexists; reflexivity|].
  rewrite static_each_container. world_simpl.
  rewrite <- app_assoc. eexists; reflexivity.
Qed.

(** ** The rendered scraper, whatever the browser does *)

Lemma wait_for_spec `{Env} (config : ScrapeConfig) (page : Page) w :
  DynamicScraper.wait_for config page w
  = (if wait_times_out config page
     then Raise (TimeoutException "")
     else Ret tt, w).
Proof.
  unfold DynamicScraper.wait_for, wait_times_out.
  destruct (wait_for_element config) as [sel|]; [|reflexivity].
  destruct (PyStr.truthy sel); [|reflexivity].
  now destruct (wait_present page sel (timeout config)).
Qed.

Ltac dynamic_unfold :=
  unfold DynamicScraper.scrape, DynamicScraper._setup_driver,
    DynamicScraper.navigate, DynamicScraper.quit_driver, try_finally,
    first_key, sleep, emit, bind, logger, modify, get_world, ret, raise;
  world_simpl.

(** X5.  Every browser session that [DynamicScraper.scrape] starts is quit
    before the call ends, on every path: when Chrome starts, the call
    records one start and, after it, one quit, whether the page loads, the
    wait times out, the selectors are empty or the extraction succeeds.
    When Chrome does not start, no session is started; the [finally]
    block then quits the session of an earlier call of the same scraper,
    if there was one.  Afterwards the scraper holds a driver exactly when
    it held one before or Chrome started. *)
Theorem dynamic_scrape_quits_driver `{Env}
    (config : ScrapeConfig) (w : World) :
  let w' := snd (DynamicScraper.scrape config w) in
  exists evs,
    trace w' = trace w ++ evs
    /\ driver_events evs
       = match chrome_start (fetches w) with
         | None => [EvDriverStart; EvDriverQuit]
         | Some _ => if driver w then [EvDriverQuit] else []
         end
    /\ driver w'
       = match chrome_start (fetches w) with
         | None => true
         | Some _ => driver w
         end.
Proof.
  cbn zeta. dynamic_unfold.
  destruct (chrome_start (fetches w)) as [e|]; world_simpl.
  - destruct (driver w) eqn:Hd; world_simpl.
    + eexists. repeat split; first [reflexivity | exact Hd].
    + exists []. rewrite app_nil_r.
      repeat split; first [reflexivity | exact Hd].
  - destruct (driver_get (url config) (fetches w)) as [e|page]; world_simpl.
    { eexists. rewrite <- !app_assoc. repeat split; reflexivity. }
    rewrite wait_for_spec.
    destruct (wait_times_out config page); world_simpl.
    { eexists. rewrite <- !app_assoc. repeat split; reflexivity. }
    destruct (selectors config) as [|[k v] rest]; world_simpl.
    { eexists. rewrite <- !app_assoc. repeat split; reflexivity. }
    destruct (find_elements page k) as [e|containers]; world_simpl.
    { eexists. rewrite <- !app_assoc. repeat split; reflexivity. }
    rewrite dynamic_each_container. world_simpl.
    eexists. rewrite <- !app_assoc. repeat split; reflexivity.
Qed.

(** X6.  The outcome of [DynamicScraper.scrape] is decided in this order:
    if Chrome does not start, its exception is raised and no page is
    requested; otherwise one page is requested, and an exception of the
    navigation is raised as it is; a configured wait that runs out raises
    [TimeoutException] at once, without the settling pause; otherwise the
    call pauses 2 time units and then raises [IndexError] on an empty
    selector mapping, raises what the enumeration of the containers
    raises, or returns one record for each container found. *)
Theorem dynamic_scrape_outcome `{Env} (config : ScrapeConfig) (w : World) :
  let run := DynamicScraper.scrape config w in
  match chrome_start (fetches w) with
  | Some e =>
      fst run = Raise e
      /\ fetches (snd run) = fetches w
      /\ clock (snd run) = clock w
  | None =>
      fetches (snd run) = S (fetches w)
      /\ match driver_get (url config) (fetches w) with
         | inl e => fst run = Raise e /\ clock (snd run) = clock w
         | inr page =>
             if wait_times_out config page
             then fst run = Raise (TimeoutException "")
                  /\ clock (snd run) = clock w
             else
               clock (snd run) = clock w + 2
               /\ match selectors config with
                  | [] =>
                      fst run = Raise (IndexError "list index out of range")
                  | (k, _) :: _ =>
                      match find_elements page k with
                      | inl e => fst run = Raise e
                      | inr containers =>
                          exists data,
                            fst run = Ret data
                            /\ length data = length containers
                      end
                  end
         end
  end.
Proof.
  cbn zeta. dynamic_unfold.
  destruct (chrome_start (fetches w)) as [e|]; world_simpl.
  - destruct (driver w); world_simpl; repeat split; reflexivity.
  - destruct (driver_get (url config) (fetches w)) as [e|page]; world_simpl.
    { repeat split; reflexivity. }
    rewrite wait_for_spec.
    destruct (wait_times_out config page); world_simpl.
    { repeat split; reflexivity. }
    destruct (selectors config) as [|[k v] rest]; world_simpl.
    { repeat split; reflexivity. }
    destruct (find_elements page k) as [e|containers]; world_simpl.
    { repeat split; reflexivity. }
    rewrite dynamic_each_container. world_simpl.
    split; [reflexivity|]. split; [reflexivity|].
    eexists. split; [reflexivity|]. cbn [app]. apply length_map.
Qed.

(** ** More on the retry loop *)

Lemma sum_pow2_seq (a k : nat) :
  sum_Z (map (fun i => 2 ^ Z.of_nat i) (seq a k))
  = 2 ^ Z.of_nat (a + k) - 2 ^ Z.of_nat a.
Proof.
  revert a. induction k as [|k IH]; intros a; cbn [seq map sum_Z fold_right].
  - rewrite Nat.add_0_r. lia.
  - fold (sum_Z (map (fun i => 2 ^ Z.of_nat i) (seq (S a) k))).
    rewrite IH.
    replace (Z.of_nat (S a + k)) with (Z.of_nat (a + S k)) by lia.
    replace (Z.of_nat (S a)) with (Z.of_nat a + 1) by lia.
    rewrite Z.pow_add_r by lia. lia.
Qed.

Lemma messages_app lvl (l1 l2 : list LogRecord) :
  messages lvl (l1 ++ l2) = messages lvl l1 ++ messages lvl l2.
Proof. apply omap_app. Qed.

Section RetryWorld.
Variable script : Script.
Variable max : Z.

(** Time and warnings along a run whose first [k] attempts fail. *)
Lemma retry_loop_first_success_world k : forall a n w data,
  (k < n)%nat ->
  Z.of_nat (a + n) = max ->
  (forall j, (j < k)%nat -> exists e, snd (script (fetches w + j)%nat) = inl e) ->
  snd (script (fetches w + k)%nat) = inr data ->
  let w' := snd (retry_loop (scripted script) max (seq a n) w) in
  clock w'
  = clock w
    + sum_Z (map (fun j => Z.of_nat (fst (script j))) (seq (fetches w) (S k)))
    + sum_Z (map (fun i => 2 ^ Z.of_nat i) (seq a k))
  /\ length (messages WARNING (log w'))
     = (length (messages WARNING (log w)) + k)%nat.
Proof.
  induction k as [|k IH]; intros a n w data Hk Hmax Hfail Hok; cbn zeta.
  - destruct n as [|n]; [lia|]. cbn [seq].
    rewrite Nat.add_0_r in Hok.
    rewrite (retry_loop_success _ _ _ _ _ _ Hok).
    cbn [snd]. world_simpl. cbn [seq map sum_Z fold_right]. split; lia.
  - destruct n as [|n]; [lia|]. cbn [seq].
    destruct (Hfail 0%nat ltac:(lia)) as [e He].
    rewrite Nat.add_0_r in He.
    rewrite (retry_loop_failure _ _ _ _ _ _ He).
    replace (Z.of_nat a <? max - 1)%Z with true
      by (symmetry; apply Z.ltb_lt; lia).
    destruct (IH (S a) n
                (after_sleep (2 ^ Z.of_nat a) (after_failure script a e w))
                data) as [Hclock Hwarn].
    + lia.
    + lia.
    + intros j Hj. cbn. destruct (Hfail (S j) ltac:(lia)) as [e' He'].
      exists e'. rewrite <- He'. f_equal. f_equal. lia.
    + cbn. rewrite <- Hok. f_equal. f_equal. lia.
    + cbn zeta in Hclock, Hwarn. split.
      * rewrite Hclock. unfold after_sleep, after_failure. world_simpl.
        cbn [seq map sum_Z fold_right]. unfold sum_Z. lia.
      * rewrite Hwarn. unfold after_sleep, after_failure. world_simpl.
        rewrite messages_app, length_app. cbn. lia.
Qed.

(** Warnings along a run in which every attempt fails. *)
Lemma retry_loop_exhausted_world n : forall a w,
  Z.of_nat (a + S n) = max ->
  (forall j, (j <= n)%nat -> exists e, snd (script (fetches w + j)%nat) = inl e) ->
  let w' := snd (retry_loop (scripted script) max (seq a (S n)) w) in
  length (messages WARNING (log w'))
  = (length (messages WARNING (log w)) + S n)%nat.
Proof.
  induction n as [|n IH]; intros a w Hmax Hfail; cbn zeta.
  - destruct (Hfail 0%nat ltac:(lia)) as [e He].
    rewrite Nat.add_0_r in He. cbn [seq].
    rewrite (retry_loop_failure _ _ _ _ _ _ He).
    replace (Z.of_nat a <? max - 1)%Z with false
      by (symmetry; apply Z.ltb_ge; lia).
    cbn [snd]. unfold after_failure. world_simpl.
    rewrite messages_app, length_app. cbn. lia.
  - destruct (Hfail 0%nat ltac:(lia)) as [e He].
    rewrite Nat.add_0_r in He.
    change (seq a (S (S n))) with (a :: seq (S a) (S n)).
    rewrite (retry_loop_failure _ _ _ _ _ _ He).
    replace (Z.of_nat a <? max - 1)%Z with true
      by (symmetry; apply Z.ltb_lt; lia).
    rewrite (IH (S a)
               (after_sleep (2 ^ Z.of_nat a) (after_failure script a e w))).
    + unfold after_sleep, after_failure. world_simpl.
      rewrite messages_app, length_app. cbn. lia.
    + lia.
    + intros j Hj. cbn. destruct (Hfail (S j) ltac:(lia)) as [e' He'].
      exists e'. rewrite <- He'. f_equal. f_equal. lia.
Qed.

End RetryWorld.

(** X7.  When the first [k] attempts of a run fail and the next one
    succeeds within the limit, [retry_scrape] has slept [2^0, ..., 2^(k-1)]
    time units, in this order and nothing else, [2^k - 1] in all; the run
    ends at the starting time plus the durations of its [k + 1] attempts
    plus that delay; and it has logged exactly [k] warnings. *)
Theorem retry_backoff_total
    (script : Script) (config : ScrapeConfig) (w : World) k data :
  Z.of_nat k < max_retries config ->
  (forall j, (j < k)%nat ->
             exists e, snd (script (fetches w + j)%nat) = inl e) ->
  snd (script (fetches w + k)%nat) = inr data ->
  exists w',
    retry_scrape (scripted script) config w = (Ret (Some data), w')
    /\ sleeps w' = sleeps w ++ map (fun i => 2 ^ Z.of_nat i) (seq 0 k)
    /\ sum_Z (map (fun i => 2 ^ Z.of_nat i) (seq 0 k)) = 2 ^ Z.of_nat k - 1
    /\ clock w'
       = clock w
         + sum_Z (map (fun j => Z.of_nat (fst (script j)))
                      (seq (fetches w) (S k)))
         + (2 ^ Z.of_nat k - 1)
    /\ length (messages WARNING (log w'))
       = (length (messages WARNING (log w)) + k)%nat.
Proof.
  intros Hk Hfail Hok.
  destruct (retry_loop_first_success script (max_retries config) k 0
              (Z.to_nat (max_retries config)) w data)
    as (w' & Hrun & Htr & _); [lia | lia | exact Hfail | exact Hok |].
  pose proof (retry_loop_first_success_world script (max_retries config) k 0
                (Z.to_nat (max_retries config)) w data
                ltac:(lia) ltac:(lia) Hfail Hok) as [Hclock Hwarn].
  cbn zeta in Hclock, Hwarn. rewrite Hrun in Hclock, Hwarn.
  cbn [snd] in Hclock, Hwarn.
  pose proof (sum_pow2_seq 0 k) as Hsum. cbn [Nat.add] in Hsum.
  change (2 ^ Z.of_nat 0) with 1 in Hsum.
  exists w'. split; [exact Hrun|]. split; [|split; [exact Hsum|split]].
  - unfold sleeps. rewrite Htr, omap_app. f_equal.
    apply sleeps_retry_events.
  - rewrite Hclock, Hsum. reflexivity.
  - exact Hwarn.
Qed.

Lemma retry_backoff_total_witness :
  exists w',
    retry_scrape (scripted Toy.flaky) news_config (init_world 0)
    = (Ret (Some []), w')
    /\ sleeps w' = [1; 2]
    /\ clock w' = 3
    /\ length (messages WARNING (log w')) = 2%nat.
Proof.
  destruct (retry_backoff_total Toy.flaky news_config (init_world 0) 2 [])
    as (w' & Hrun & Hsleeps & _ & Hclock & Hwarn).
  - cbn. lia.
  - intros j Hj. destruct j as [|[|j]]; [eexists; reflexivity.. | lia].
  - reflexivity.
  - exists w'. repeat split; assumption.
Defined.

(** X8.  When every attempt fails, a job with [max_retries >= 1] makes
    exactly [max_retries] attempts and [retry_scrape] raises the error of
    the last one.  It sleeps between attempts only, [2^0, ...,
    2^(max_retries - 2)], so one sleep fewer than attempts and none after
    the last failure, and it logs one warning for each attempt. *)
Theorem retry_exhaustion
    (script : Script) (config : ScrapeConfig) (w : World) :
  1 <= max_retries config ->
  (forall j, exists e, snd (script j) = inl e) ->
  let n := Z.to_nat (max_retries config) in
  exists w' e,
    retry_scrape (scripted script) config w = (Raise e, w')
    /\ snd (script (fetches w + n - 1)%nat) = inl e
    /\ attempts_made w w' = n
    /\ sleeps w' = sleeps w ++ map (fun i => 2 ^ Z.of_nat i) (seq 0 (n - 1))
    /\ length (messages WARNING (log w'))
       = (length (messages WARNING (log w)) + n)%nat.
Proof.
  intros Hmax Hall. cbn zeta.
  destruct (Z.to_nat (max_retries config)) as [|n] eqn:Hn; [lia|].
  destruct (retry_loop_exhausted script (max_retries config) n 0 w)
    as (w' & e & Hrun & Hlast & Htr & _); [lia | intros j _; apply Hall |].
  pose proof (retry_loop_exhausted_world script (max_retries config) n 0 w
                ltac:(lia) ltac:(intros j _; apply Hall)) as Hwarn.
  cbn zeta in Hwarn. rewrite Hrun in Hwarn. cbn [snd] in Hwarn.
  exists w', e. unfold retry_scrape. rewrite Hn.
  split; [exact Hrun|]. split; [|split; [|split]].
  - rewrite <- Hlast. f_equal. f_equal. lia.
  - unfold attempts_made, attempt_times. rewrite Htr, omap_app, length_app.
    rewrite attempt_times_retry_events. lia.
  - unfold sleeps. rewrite Htr, omap_app. f_equal.
    rewrite sleeps_retry_events. f_equal. f_equal. lia.
  - exact Hwarn.
Qed.

Lemma retry_exhaustion_witness :
  exists w',
    retry_scrape (scripted Toy.broken) news_config (init_world 0)
    = (Raise (RequestException "failure 2"), w')
    /\ attempts_made (init_world 0) w' = 3%nat
    /\ sleeps w' = [1; 2]
    /\ length (messages WARNING (log w')) = 3%nat.
Proof.
  destruct (retry_exhaustion Toy.broken news_config (init_world 0))
    as (w' & e & Hrun & Hlast & Hatt & Hsl & Hwarn).
  - cbn. lia.
  - intros j. eexists. reflexivity.
  - exists w'. cbn in Hlast. inversion Hlast as [He]. subst e.
    repeat split; assumption.
Defined.

(** With [max_retries <= 0] the loop body never runs: whatever the
    scraper, [retry_scrape] returns [None] and leaves the world alone. *)
Lemma retry_without_attempts
    (scrape : M (list Item)) (config : ScrapeConfig) (w : World) :
  max_retries config <= 0 ->
  retry_scrape scrape config w = (Ret None, w).
Proof.
  intros Hmax. unfold retry_scrape.
  replace (Z.to_nat (max_retries config)) with 0%nat by lia. reflexivity.
Qed.

Lemma bind_assoc {A B C} (m : M A) (k1 : A -> M B) (k2 : B -> M C) w :
  bind (bind m k1) k2 w = bind m (fun x => bind (k1 x) k2) w.
Proof. unfold bind. destruct (m w) as [[a|e] w1]; reflexivity. Qed.

(** X9.  A stored job with [max_retries <= 0] and JSON output runs without
    a single attempt: [_run_job] requests no page and makes no call that
    leaves the program, yet it writes the document [null] to the job's
    file and logs the run as completed successfully. *)
Theorem run_job_without_attempts `{Env}
    (job_name : string) (config : ScrapeConfig) (w : World) :
  dict_get (jobs w) job_name = Some config ->
  max_retries config <= 0 ->
  output_format config = "json"%string ->
  let filename := job_name +:+ "_" +:+ strftime (clock w) +:+ ".json" in
  io_fault filename = None ->
  exists w',
    WebScraperScheduler._run_job job_name w = (Ret tt, w')
    /\ fetches w' = fetches w
    /\ trace w' = trace w
    /\ files w' = <[filename := "null"%string]> (files w)
    /\ messages INFO (log w')
       = messages INFO (log w)
         ++ ["Running job: " +:+ job_name;
             "Data exported to JSON: " +:+ filename;
             "Job '" +:+ job_name +:+ "' completed successfully"]
    /\ messages WARNING (log w') = messages WARNING (log w)
    /\ messages ERROR (log w') = messages ERROR (log w).
Proof.
  intros Hjob Hmax Hfmt filename Hio.
  unfold WebScraperScheduler._run_job, bind at 1, get_world.
  rewrite Hjob. unfold bind at 1, logger at 1, modify at 1.
  unfold try_except, WebScraperScheduler.run_body,
    WebScraperScheduler.make_scraper.
  destruct (String.eqb (scrape_type config) "static").
  - rewrite bind_ret_l.
    rewrite (bind_ret _ _ _ _ _ (retry_without_attempts _ config _ Hmax)).
    unfold WebScraperScheduler.export. rewrite Hfmt.
    unfold DataExporter.to_json, DataExporter.write_file,
      DataExporter.open_sink.
    unfold bind, get_world, logger, modify, ret. world_simpl.
    change (String.eqb "json" "csv") with false.
    change (String.eqb "json" "json") with true. cbv iota.
    fold filename. rewrite Hio. world_simpl.
    eexists. split; [reflexivity|]. world_simpl.
    rewrite !messages_app. cbn [messages omap lr_level lr_msg app].
    rewrite !app_nil_r, <- !app_assoc. repeat split; reflexivity.
  - rewrite bind_assoc. unfold bind at 1, modify at 1. rewrite bind_ret_l.
    rewrite (bind_ret _ _ _ _ _ (retry_without_attempts _ config _ Hmax)).
    unfold WebScraperScheduler.export. rewrite Hfmt.
    unfold DataExporter.to_json, DataExporter.write_file,
      DataExporter.open_sink.
    unfold bind, get_world, logger, modify, ret. world_simpl.
    change (String.eqb "json" "csv") with false.
    change (String.eqb "json" "json") with true. cbv iota.
    fold filename. rewrite Hio. world_simpl.
    eexists. split; [reflexivity|]. world_simpl.
    rewrite !messages_app. cbn [messages omap lr_level lr_msg app].
    rewrite !app_nil_r, <- !app_assoc. repeat split; reflexivity.
Qed.

Lemma run_job_without_attempts_witness :
  let E := Toy.env Toy.shop Toy.no_fault in
  let config := {| name := "idle"; url := "http://shop";
                   scrape_type := "static";
                   selectors := [("div", "div.product-card")];
                   schedule_interval := "1hour"; output_format := "json";
                   max_retries := 0; timeout := 30; headers := None;
                   wait_for_element := None |} in
  let w := snd (WebScraperScheduler.add_job config (init_world 0)) in
  exists w',
    WebScraperScheduler._run_job "idle" w = (Ret tt, w')
    /\ fetches w' = 0%nat
    /\ files w' !! "idle_0.json" = Some "null"%string.
Proof.
  intros E config w.
  destruct (run_job_without_attempts (H := E) "idle" config w eq_refl
              ltac:(cbn; lia) eq_refl ltac:(reflexivity))
    as (w' & Hrun & Hfetch & _ & Hfiles & _).
  exists w'. split; [exact Hrun|]. split; [exact Hfetch|].
  rewrite Hfiles. apply lookup_insert_eq.
Defined.

(** ** What a run writes *)

Section WritesWithin.
Context (names : string -> Prop) (keys : string * string -> Prop).






End WritesWithin.

Section RetryFrames.
Context {X : Type} (proj : World -> X).
Hypothesis proj_clock : forall t w, proj (set_clock t w) = proj w.
Hypothesis proj_log : forall l w, proj (set_log l w) = proj w.
Hypothesis proj_trace : forall t w, proj (set_trace t w) = proj w.

Lemma preserves_logger lvl msg : preserves proj (logger lvl msg).
Proof. intros w. apply proj_log. Qed.

Lemma preserves_emit ev : preserves proj (emit ev).
Proof. intros w. apply proj_trace. Qed.

Lemma preserves_sleep secs : preserves proj (sleep secs).
Proof.
  intros w. unfold sleep, bind, emit, modify. cbn [snd].
  now rewrite proj_clock, proj_trace.
Qed.

Lemma preserves_retry_loop (scrape : M (list Item)) max attempts :
  preserves proj scrape -> preserves proj (retry_loop scrape max attempts).
Proof.
  intros Hs. induction attempts as [|a attempts IH]; cbn [retry_loop].
  - intros w. reflexivity.
  - apply preserves_try_except.
    + unfold call_scrape. apply preserves_bind.
      * apply preserves_bind; [apply preserves_emit|intros _; exact Hs].
      * intros data w. reflexivity.
    + intros e. apply preserves_bind; [apply preserves_logger|intros _].
      destruct (Z.of_nat a <? max - 1)%Z; [|intros w; reflexivity].
      apply preserves_bind; [apply preserves_sleep|intros _; exact IH].
Qed.

Lemma preserves_retry_scrape (scrape : M (list Item)) config :
  preserves proj scrape -> preserves proj (retry_scrape scrape config).
Proof. apply preserves_retry_loop. Qed.

End RetryFrames.

Section RunWrites.
Context `{Env}.




End RunWrites.





(** X12.  A stored job whose output format is none of [csv], [json] and
    [database] is scraped like any other, but its run writes no file and
    no table, whatever was scraped. *)
Theorem run_job_unknown_format_writes_nothing `{Env}
    (job_name : string) (config : ScrapeConfig) (w : World) :
  dict_get (jobs w) job_name = Some config ->
  output_format config <> "csv"%string ->
  output_format config <> "json"%string ->
  output_format config <> "database"%string ->
  let w' := snd (WebScraperScheduler._run_job job_name w) in
  files w' = files w /\ tables w' = tables w.
Proof.
  intros Hjob Hcsv Hjson Hdb. cbn zeta.
  apply String.eqb_neq in Hcsv, Hjson, Hdb.
  assert (Hexport : forall {X} (proj : World -> X) data,
             preserves proj (WebScraperScheduler.export config job_name data)).
  { intros X proj data w0. unfold WebScraperScheduler.export.
    rewrite Hcsv, Hjson, Hdb. reflexivity. }
  assert (Hscrape : forall static : bool,
             preserves files
               (retry_scrape (if static then StaticScraper.scrape config
                              else DynamicScraper.scrape config) config)
             /\ preserves tables
                  (retry_scrape (if static then StaticScraper.scrape config
                                 else DynamicScraper.scrape config) config)).
  { intros static.
    split; apply preserves_retry_scrape; try reflexivity; destruct static;
      first [apply (static_scrape_frame config)
            |apply (dynamic_scrape_frame config)]. }
  assert (Hbody : preserves files
                    (WebScraperScheduler.run_body config job_name)
                  /\ preserves tables
                       (WebScraperScheduler.run_body config job_name)).
  { unfold WebScraperScheduler.run_body, WebScraperScheduler.make_scraper.
    destruct (String.eqb (scrape_type config) "static"); split.
    - apply preserves_bind_ret. apply preserves_bind;
        [apply (Hscrape true)|intros data].
      apply preserves_bind; [apply Hexport|intros u w0; reflexivity].
    - apply preserves_bind_ret. apply preserves_bind;
        [apply (Hscrape true)|intros data].
      apply preserves_bind; [apply Hexport|intros u w0; reflexivity].
    - apply preserves_bind_assoc. apply preserves_bind;
        [intros w0; reflexivity|intros u].
      apply preserves_bind_ret. apply preserves_bind;
        [apply (Hscrape false)|intros data].
      apply preserves_bind; [apply Hexport|intros u' w0; reflexivity].
    - apply preserves_bind_assoc. apply preserves_bind;
        [intros w0; reflexivity|intros u].
      apply preserves_bind_ret. apply preserves_bind;
        [apply (Hscrape false)|intros data].
      apply preserves_bind; [apply Hexport|intros u' w0; reflexivity]. }
  destruct Hbody as [Hf Ht].
  split; unfold WebScraperScheduler._run_job; unfold bind at 1;
    unfold get_world at 1; rewrite Hjob.
  - refine (preserves_bind files _ _ _ _ w);
      [intros w0; reflexivity|intros u].
    apply preserves_try_except; [exact Hf|intros e w0; reflexivity].
  - refine (preserves_bind tables _ _ _ _ w);
      [intros w0; reflexivity|intros u].
    apply preserves_try_except; [exact Ht|intros e w0; reflexivity].
Qed.

Lemma run_job_unknown_format_writes_nothing_witness :
  let E := Toy.env Toy.shop Toy.no_fault in
  let config := Toy.config "shop" "http://shop" "static" "1hour" "xml"
                  [("div", "div.product-card"); ("title", "h2")] in
  let w := snd (WebScraperScheduler.add_job config (init_world 0)) in
  let run := WebScraperScheduler._run_job "shop" w in
  files (snd run) = files w
  /\ tables (snd run) = tables w
  /\ last (messages INFO (log (snd run)))
     = Some "Job 'shop' completed successfully"%string.
Proof.
  intros E config w run.
  destruct (run_job_unknown_format_writes_nothing (H := E) "shop" config w
              eq_refl) as [Hf Ht]; [discriminate..|].
  split; [exact Hf|]. split; [exact Ht|]. reflexivity.
Defined.

(** ** What a dispatch leaves alone *)

Section DispatchFrames.
Context `{Env}.

Lemma export_preserves_running config job_name data :
  preserves running (WebScraperScheduler.export config job_name data).
Proof.
  unfold WebScraperScheduler.export, DataExporter.to_csv,
    DataExporter.to_json, DataExporter.to_database,
    DataExporter.write_file, DataExporter.open_sink, DataExporter.to_sql.
  frame.
Qed.

Lemma export_preserves_clock config job_name data :
  preserves clock (WebScraperScheduler.export config job_name data).
Proof.
  unfold WebScraperScheduler.export, DataExporter.to_csv,
    DataExporter.to_json, DataExporter.to_database,
    DataExporter.write_file, DataExporter.open_sink, DataExporter.to_sql.
  frame.
Qed.

Lemma dynamic_scrape_advances config :
  advances (DynamicScraper.scrape config).
Proof.
  unfold DynamicScraper.scrape, DynamicScraper._setup_driver,
    DynamicScraper.navigate, DynamicScraper.wait_for,
    DynamicScraper.quit_driver, first_key.
  advance.
  apply advances_preserves, dynamic_each_container_preserves.
Qed.

Lemma retry_loop_advances (scrape : M (list Item)) max attempts :
  advances scrape -> advances (retry_loop scrape max attempts).
Proof.
  intros Hs. induction attempts as [|a attempts IH]; cbn [retry_loop].
  - intros w. cbn. lia.
  - apply advances_try_except.
    + unfold call_scrape. apply advances_bind.
      * apply advances_bind; [intros w; cbn; lia|intros _; exact Hs].
      * intros data w. cbn. lia.
    + intros e. apply advances_bind; [intros w; cbn; lia|intros _].
      destruct (Z.of_nat a <? max - 1)%Z; [|intros w; cbn; lia].
      apply advances_bind; [|intros _; exact IH].
      apply advances_sleep. apply Z.pow_nonneg. lia.
Qed.

Lemma run_body_steady config job_name :
  preserves running (WebScraperScheduler.run_body config job_name)
  /\ advances (WebScraperScheduler.run_body config job_name).
Proof.
  unfold WebScraperScheduler.run_body, WebScraperScheduler.make_scraper.
  destruct (String.eqb (scrape_type config) "static"); split.
  - apply preserves_bind_ret. apply preserves_bind.
    + apply preserves_retry_scrape; try reflexivity.
      apply (static_scrape_frame config).
    + intros data. apply preserves_bind;
        [apply export_preserves_running|intros u w; reflexivity].
  - apply advances_bind_ret. apply advances_bind.
    + apply retry_loop_advances, advances_preserves.
      apply (static_scrape_frame config).
    + intros data. apply advances_bind;
        [apply advances_preserves, export_preserves_clock
        |intros u w; cbn; lia].
  - apply preserves_bind_assoc. apply preserves_bind;
      [intros w; reflexivity|intros u].
    apply preserves_bind_ret. apply preserves_bind.
    + apply preserves_retry_scrape; try reflexivity.
      apply (dynamic_scrape_frame config).
    + intros data. apply preserves_bind;
        [apply export_preserves_running|intros u' w; reflexivity].
  - apply advances_bind_assoc. apply advances_bind;
      [intros w; cbn; lia|intros u].
    apply advances_bind_ret. apply advances_bind.
    + apply retry_loop_advances, dynamic_scrape_advances.
    + intros data. apply advances_bind;
        [apply advances_preserves, export_preserves_clock
        |intros u' w; cbn; lia].
Qed.

Lemma run_job_steady job_name :
  preserves running (WebScraperScheduler._run_job job_name)
  /\ advances (WebScraperScheduler._run_job job_name).
Proof.
  unfold WebScraperScheduler._run_job. split.
  - apply preserves_bind; [intros w; reflexivity|intros w0].
    destruct (dict_get (jobs w0) job_name) as [config|];
      [|intros w; reflexivity].
    apply preserves_bind; [intros w; reflexivity|intros u].
    apply preserves_try_except;
      [apply run_body_steady|intros e w; reflexivity].
  - apply advances_bind; [intros w; cbn; lia|intros w0].
    destruct (dict_get (jobs w0) job_name) as [config|];
      [|intros w; cbn; lia].
    apply advances_bind; [intros w; cbn; lia|intros u].
    apply advances_try_except;
      [apply run_body_steady|intros e w; cbn; lia].
Qed.

Lemma run_job_now_unfold job_name w :
  WebScraperScheduler.run_job_now job_name w
  = if dict_mem (jobs w) job_name
    then WebScraperScheduler._run_job job_name w
    else logger ERROR ("Job '" +:+ job_name +:+ "' not found") w.
Proof.
  unfold WebScraperScheduler.run_job_now, bind, get_world.
  now destruct (dict_mem (jobs w) job_name).
Qed.

End DispatchFrames.

(** X13.  Dispatching a job changes neither the registry, nor the
    installed triggers, nor the running flag of the scheduler, and never
    turns the clock back; this holds for [_run_job] and for
    [run_job_now], whatever the job does and whether or not the name is
    registered. *)
Theorem dispatch_footprint `{Env} (job_name : string) (w : World) :
  let w1 := snd (WebScraperScheduler._run_job job_name w) in
  let w2 := snd (WebScraperScheduler.run_job_now job_name w) in
  (jobs w1 = jobs w /\ triggers w1 = triggers w
   /\ running w1 = running w /\ clock w <= clock w1)
  /\ (jobs w2 = jobs w /\ triggers w2 = triggers w
      /\ running w2 = running w /\ clock w <= clock w2).
Proof.
  cbn zeta.
  assert (H1 : jobs (snd (WebScraperScheduler._run_job job_name w)) = jobs w
               /\ triggers (snd (WebScraperScheduler._run_job job_name w))
                  = triggers w
               /\ running (snd (WebScraperScheduler._run_job job_name w))
                  = running w
               /\ clock w <= clock (snd (WebScraperScheduler._run_job
                                           job_name w))).
  { destruct (keeps_run_job job_name w) as [Hj Ht].
    destruct (run_job_steady job_name) as [Hr Hc].
    repeat split; [exact Hj | exact Ht | apply Hr | apply Hc]. }
  split; [exact H1|].
  rewrite run_job_now_unfold.
  destruct (dict_mem (jobs w) job_name); [exact H1|].
  cbn. repeat split; lia.
Qed.

(** ** The scheduler loop *)

Section LoopFacts.
Context `{Env}.

Lemma run_all_steady positions : forall w,
  triggers_registered w ->
  exists w',
    Schedule.run_all WebScraperScheduler._run_job positions w = (Ret tt, w')
    /\ triggers_registered w'
    /\ running w' = running w
    /\ jobs w' = jobs w
    /\ map tr_job (triggers w') = map tr_job (triggers w)
    /\ clock w <= clock w'.
Proof.
  induction positions as [|i positions IH]; intros w Hreg;
    cbn [Schedule.run_all].
  - exists w. repeat split; [exact Hreg|lia].
  - unfold bind at 1, get_world.
    destruct (triggers w !! i) as [t|] eqn:Hi; [|now apply IH].
    apply list_elem_of_lookup_2, list_elem_of_In in Hi.
    destruct (registered_job w t Hreg Hi) as [config Hjob].
    pose proof (run_job_returns _ _ _ Hjob) as Hret.
    pose proof (keeps_run_job (tr_job t) w) as [Hj Ht].
    destruct (run_job_steady (tr_job t)) as [Hr Hc].
    specialize (Hr w). specialize (Hc w).
    destruct (WebScraperScheduler._run_job (tr_job t) w) as [r w1] eqn:Hrun.
    cbn [fst snd] in *. subst r.
    rewrite (bind_ret _ _ _ _ _ Hrun).
    unfold bind at 1.
    destruct (reschedule_names i w1) as [Hj2 Ht2].
    assert (Hr2 : running (snd (Schedule.reschedule i w1)) = running w1)
      by reflexivity.
    assert (Hc2 : clock (snd (Schedule.reschedule i w1)) = clock w1)
      by reflexivity.
    destruct (Schedule.reschedule i w1) as [[[]|e] w2] eqn:Hres;
      [|discriminate Hres].
    cbn [snd] in *.
    destruct (IH w2) as (w' & Hall & Hreg' & Hr' & Hj' & Ht' & Hc').
    { apply (triggers_registered_frame w); [congruence| |exact Hreg].
      rewrite Ht2. now rewrite Ht. }
    exists w'. split; [exact Hall|]. split; [exact Hreg'|].
    repeat split; [congruence | congruence | | lia].
    rewrite Ht', Ht2. now rewrite Ht.
Qed.

Lemma scheduler_loop_steady ticks : forall w,
  triggers_registered w ->
  running w = true ->
  exists w',
    WebScraperScheduler.scheduler_loop ticks w = (Ret tt, w')
    /\ triggers_registered w'
    /\ running w' = true
    /\ jobs w' = jobs w
    /\ map tr_job (triggers w') = map tr_job (triggers w)
    /\ clock w + Z.of_nat ticks <= clock w'.
Proof.
  induction ticks as [|n IH]; intros w Hreg Hrunning;
    cbn [WebScraperScheduler.scheduler_loop].
  - exists w. repeat split; [exact Hreg|exact Hrunning|lia].
  - unfold bind at 1, get_world. rewrite Hrunning.
    unfold Schedule.run_pending. unfold bind at 1. unfold bind at 1.
    cbn [get_world].
    destruct (run_all_steady (Schedule.due (clock w) (triggers w)) w Hreg)
      as (w1 & Hrun & Hreg1 & Hr1 & Hj1 & Ht1 & Hc1).
    rewrite Hrun. unfold sleep, bind, emit, modify.
    destruct (IH (set_clock (clock w1 + 1)
                    (set_trace (trace w1 ++ [(clock w1, EvSleep 1)]) w1)))
      as (w' & Hloop & Hreg' & Hr' & Hj' & Ht' & Hc').
    { exact Hreg1. }
    { cbn. congruence. }
    exists w'. split; [exact Hloop|]. split; [exact Hreg'|].
    cbn in Hj', Ht', Hc'.
    repeat split; [exact Hr' | congruence | congruence | lia].
Qed.

End LoopFacts.

(** X14.  The scheduler loop cannot stop by itself.  From every world the
    process can reach, [start_scheduler] runs each of its rounds, however
    many: no round raises, nothing a round runs clears the running flag
    or changes the stored jobs or the names of the installed triggers, and
    since every round sleeps, at least one time unit passes per round.  A
    loop that finds the flag cleared returns at once and does nothing. *)
Theorem scheduler_loop_never_stops_itself `{Env} (w : World) (ticks : nat) :
  reachable w ->
  (exists w',
      WebScraperScheduler.start_scheduler ticks w = (Ret tt, w')
      /\ running w' = true
      /\ jobs w' = jobs w
      /\ map tr_job (triggers w') = map tr_job (triggers w)
      /\ clock w + Z.of_nat ticks <= clock w')
  /\ (running w = false ->
      WebScraperScheduler.scheduler_loop ticks w = (Ret tt, w)).
Proof.
  intros Hreach. pose proof (reachable_registered w Hreach) as Hreg. split.
  - unfold WebScraperScheduler.start_scheduler.
    unfold bind at 1, modify at 1. unfold bind at 1, logger at 1, modify at 1.
    destruct (scheduler_loop_steady ticks
                (set_log (log (set_running true w)
                          ++ [{| lr_time := clock (set_running true w);
                                 lr_level := INFO;
                                 lr_msg := "Scheduler started" |}])
                         (set_running true w)))
      as (w' & Hloop & _ & Hr & Hj & Ht & Hc);
      [exact Hreg | reflexivity |].
    exists w'. split; [exact Hloop|]. repeat split; assumption.
  - intros Hstopped. destruct ticks as [|n]; [reflexivity|].
    cbn [WebScraperScheduler.scheduler_loop].
    unfold bind, get_world. now rewrite Hstopped.
Qed.

Lemma scheduler_loop_never_stops_itself_witness :
  let E := Toy.env Toy.offline Toy.no_fault in
  let w := snd (WebScraperScheduler.add_job news_config (init_world 0)) in
  exists w',
    WebScraperScheduler.start_scheduler 5 w = (Ret tt, w')
    /\ running w' = true
    /\ 5 <= clock w'.
Proof.
  intros E w.
  assert (Hreach : reachable w) by (apply reach_add_job, reach_init).
  destruct (scheduler_loop_never_stops_itself w 5 Hreach)
    as [(w' & Hrun & Hr & _ & _ & Hc) _].
  exists w'. split; [exact Hrun|]. split; [exact Hr|exact Hc].
Defined.

Lemma filter_none {A} (f : A -> bool) (l : list A) :
  (forall x, In x l -> f x = false) -> List.filter f l = [].
Proof.
  induction l as [|x l IH]; intros Hf; [reflexivity|]. cbn.
  rewrite (Hf x (or_introl eq_refl)). apply IH.
  intros y Hy. apply Hf. now right.
Qed.

(** While no trigger has reached its next run, nothing is due. *)
Lemma due_none (now : Z) (ts : list Trigger) :
  (forall t, In t ts -> now < tr_next_run t) -> Schedule.due now ts = [].
Proof.
  intros Hlater. unfold Schedule.due. rewrite filter_none; [reflexivity|].
  intros i _. destruct (ts !! i) as [t|] eqn:Hi; [|reflexivity].
  apply list_elem_of_lookup_2, list_elem_of_In in Hi.
  unfold Schedule.should_run. apply Z.leb_gt. now apply Hlater.
Qed.

Lemma scheduler_loop_idle `{Env} ticks : forall w,
  running w = true ->
  (forall t, In t (triggers w) -> clock w + Z.of_nat ticks <= tr_next_run t) ->
  exists w',
    WebScraperScheduler.scheduler_loop ticks w = (Ret tt, w')
    /\ clock w' = clock w + Z.of_nat ticks
    /\ trace w' = trace w
                  ++ map (fun i => (clock w + Z.of_nat i, EvSleep 1))
                         (seq 0 ticks)
    /\ log w' = log w
    /\ triggers w' = triggers w
    /\ fetches w' = fetches w
    /\ files w' = files w
    /\ tables w' = tables w.
Proof.
  induction ticks as [|n IH]; intros w Hrunning Hlater;
    cbn [WebScraperScheduler.scheduler_loop].
  - exists w. cbn. rewrite app_nil_r. repeat split; lia.
  - unfold bind at 1, get_world. rewrite Hrunning.
    unfold Schedule.run_pending. unfold bind at 1. unfold bind at 1.
    cbn [get_world].
    rewrite due_none by (intros t Ht; specialize (Hlater t Ht); lia).
    cbn [Schedule.run_all]. unfold ret at 1.
    unfold sleep, bind, emit, modify.
    destruct (IH (set_clock (clock w + 1)
                    (set_trace (trace w ++ [(clock w, EvSleep 1)]) w)))
      as (w' & Hloop & Hc & Htr & Hl & Hts & Hf & Hfi & Hta).
    { exact Hrunning. }
    { intros t Ht. specialize (Hlater t Ht). cbn. lia. }
    exists w'. split; [exact Hloop|]. cbn in Hc, Htr, Hl, Hts, Hf, Hfi, Hta.
    repeat split; try assumption; [lia|].
    rewrite Htr, <- app_assoc. f_equal. cbn [seq map app].
    rewrite Z.add_0_r. f_equal.
    rewrite <- seq_shift, map_map. apply map_ext.
    intros i. f_equal. lia.
Qed.

(** X15.  No job is dispatched before its time: when every installed
    trigger has its next run at least [ticks] time units ahead,
    [start_scheduler] spends its first [ticks] rounds sleeping one time
    unit each and doing nothing else; it logs that it started, and it
    requests no page, writes nothing and leaves the triggers as they
    are. *)
Theorem start_scheduler_idle_until_due `{Env} (w : World) (ticks : nat) :
  (forall t, In t (triggers w) -> clock w + Z.of_nat ticks <= tr_next_run t) ->
  exists w',
    WebScraperScheduler.start_scheduler ticks w = (Ret tt, w')
    /\ clock w' = clock w + Z.of_nat ticks
    /\ trace w' = trace w
                  ++ map (fun i => (clock w + Z.of_nat i, EvSleep 1))
                         (seq 0 ticks)
    /\ log w' = log w ++ [{| lr_time := clock w; lr_level := INFO;
                             lr_msg := "Scheduler started" |}]
    /\ triggers w' = triggers w
    /\ fetches w' = fetches w
    /\ files w' = files w
    /\ tables w' = tables w.
Proof.
  intros Hlater. unfold WebScraperScheduler.start_scheduler.
  unfold bind at 1, modify at 1. unfold bind at 1, logger at 1, modify at 1.
  destruct (scheduler_loop_idle ticks
              (set_log (log (set_running true w)
                        ++ [{| lr_time := clock (set_running true w);
                               lr_level := INFO;
                               lr_msg := "Scheduler started" |}])
                       (set_running true w)))
    as (w' & Hloop & Hrest); [reflexivity | exact Hlater |].
  exists w'. split; [exact Hloop | exact Hrest].
Qed.

Lemma start_scheduler_idle_until_due_witness :
  let E := Toy.env Toy.offline Toy.no_fault in
  let w := snd (WebScraperScheduler.add_job news_config (init_world 0)) in
  exists w',
    WebScraperScheduler.start_scheduler 60 w = (Ret tt, w')
    /\ clock w' = 60
    /\ fetches w' = 0%nat
    /\ length (log w') = 2%nat.
Proof.
  intros E w.
  destruct (start_scheduler_idle_until_due (H := E) w 60)
    as (w' & Hrun & Hc & _ & Hl & _ & Hf & _).
  - intros t [<-|[]]. vm_compute. discriminate.
  - exists w'. split; [exact Hrun|]. split; [exact Hc|]. split; [exact Hf|].
    rewrite Hl. reflexivity.
Defined.

(** ** The shape of the records *)

Section RecordKeys.
Context {V : Type}.
Implicit Types (d : list (string * V)).

Lemma dict_keys_set_fresh d k (v : V) :
  ~ In k (dict_keys d) -> dict_keys (dict_set d k v) = dict_keys d ++ [k].
Proof.
  induction d as [|[k' v'] d IH]; intros Hk; cbn; [reflexivity|].
  cbn in Hk. destruct (String.eqb_spec k' k) as [->|Hne]; [tauto|].
  cbn. f_equal. apply IH. tauto.
Qed.

Lemma dict_keys_set_same_keys d1 d2 k (v1 v2 : V) :
  dict_keys d1 = dict_keys d2 ->
  dict_keys (dict_set d1 k v1) = dict_keys (dict_set d2 k v2).
Proof.
  revert d2. induction d1 as [|[k1 x1] d1 IH]; intros [|[k2 x2] d2] Hkeys;
    try discriminate Hkeys; [reflexivity|].
  cbn in Hkeys. inversion Hkeys as [[Hk Hrest]]. subst k2. cbn.
  destruct (String.eqb k1 k); cbn; f_equal; [exact Hrest|].
  now apply IH.
Qed.

Lemma dict_set_keys_nodup d k (v : V) :
  List.NoDup (dict_keys d) -> List.NoDup (dict_keys (dict_set d k v)).
Proof.
  induction d as [|[k' v'] d IH]; intros Hnd; cbn.
  - constructor; [intros []|constructor].
  - cbn in Hnd. apply NoDup_cons_iff in Hnd as [Hk' Hnd].
    destruct (String.eqb_spec k' k) as [->|Hne]; cbn.
    + constructor; assumption.
    + constructor; [|now apply IH].
      intros Hin. apply dict_keys_set in Hin as [->|Hin]; tauto.
Qed.

End RecordKeys.

Section AssignKeys.
Variable cs : string.

(** The keys of a record do not depend on what the selectors resolve
    to. *)
Lemma assign_fields_same_keys r1 r2 entries : forall item1 item2 : Item,
  dict_keys item1 = dict_keys item2 ->
  dict_keys (assign_fields r1 cs entries item1)
  = dict_keys (assign_fields r2 cs entries item2).
Proof.
  induction entries as [|[f sel] entries IH]; intros item1 item2 Hkeys;
    cbn; [exact Hkeys|].
  destruct (String.eqb f cs); [now apply IH|].
  apply IH. now apply dict_keys_set_same_keys.
Qed.

Lemma assign_fields_fresh_keys r entries : forall item : Item,
  List.NoDup (dict_keys entries) ->
  ~ In cs (dict_keys entries) ->
  (forall f, In f (dict_keys entries) -> ~ In f (dict_keys item)) ->
  dict_keys (assign_fields r cs entries item)
  = dict_keys item ++ dict_keys entries.
Proof.
  induction entries as [|[f sel] entries IH]; intros item Hnd Hcs Hfresh;
    cbn [assign_fields].
  - cbn. now rewrite app_nil_r.
  - cbn in Hnd, Hcs. apply NoDup_cons_iff in Hnd as [Hf Hnd].
    destruct (String.eqb_spec f cs) as [->|Hne]; [tauto|].
    rewrite IH; [|exact Hnd|tauto|].
    + rewrite dict_keys_set_fresh by (apply Hfresh; now left).
      cbn [dict_keys map fst]. now rewrite <- app_assoc.
    + intros g Hg Hin. apply dict_keys_set in Hin as [->|Hin];
        [contradiction|].
      apply (Hfresh g); [now right|exact Hin].
Qed.

End AssignKeys.

Lemma static_scrape_returns `{Env} config w data :
  fst (StaticScraper.scrape config w) = Ret data ->
  exists k v rest (containers : list Tag),
    selectors config = (k, v) :: rest
    /\ data = map (fun c => assign_fields (static_resolve c) k
                              (selectors config)
                              (stamp_item (clock w) config)) containers.
Proof.
  unfold StaticScraper.scrape, StaticScraper.session_get,
    StaticScraper.raise_for_status, first_key, bind, logger, modify,
    get_world, ret, raise.
  world_simpl.
  destruct (http_get (url config) (StaticScraper.session_headers config)
                     (timeout config) (fetches w)) as [e|response];
    world_simpl; [discriminate|].
  destruct ((400 <=? fst response) && (fst response <? 600))%Z;
    world_simpl; [discriminate|].
  destruct (selectors config) as [|[k v] rest] eqn:Hsel;
    world_simpl; [discriminate|].
  rewrite static_each_container. world_simpl. cbn [app].
  intros [= <-]. exists k, v, rest, (select (snd response) k).
  split; [reflexivity|]. apply map_ext. intros c. rewrite <- Hsel.
  rewrite static_fill_fields_assign. now rewrite Hsel.
Qed.

Lemma dynamic_scrape_returns `{Env} config w data :
  fst (DynamicScraper.scrape config w) = Ret data ->
  exists k v rest (containers : list WebElement),
    selectors config = (k, v) :: rest
    /\ data = map (fun c => assign_fields (dynamic_resolve c) k
                              (selectors config)
                              (stamp_item (clock w + 2) config)) containers.
Proof.
  dynamic_unfold.
  destruct (chrome_start (fetches w)) as [e|]; world_simpl.
  { destruct (driver w); world_simpl; discriminate. }
  destruct (driver_get (url config) (fetches w)) as [e|page]; world_simpl;
    [discriminate|].
  rewrite wait_for_spec.
  destruct (wait_times_out config page); world_simpl; [discriminate|].
  destruct (selectors config) as [|[k v] rest] eqn:Hsel; world_simpl;
    [discriminate|].
  destruct (find_elements page k) as [e|containers]; world_simpl;
    [discriminate|].
  rewrite dynamic_each_container. world_simpl. cbn [app].
  intros [= <-]. exists k, v, rest, containers.
  split; [reflexivity|]. apply map_ext. intros c. rewrite <- Hsel.
  rewrite dynamic_fill_fields_assign. now rewrite Hsel.
Qed.

Lemma batch_keys `{Env} {C : Type} (resolve : C -> string -> Value)
    config now k v rest (containers : list C) :
  selectors config = (k, v) :: rest ->
  let data := map (fun c => assign_fields (resolve c) k (selectors config)
                              (stamp_item now config)) containers in
  (forall item1 item2, In item1 data -> In item2 data ->
                       dict_keys item1 = dict_keys item2)
  /\ (List.NoDup (dict_keys (selectors config)) ->
      ~ In "scraped_at"%string (dict_keys rest) ->
      ~ In "url"%string (dict_keys rest) ->
      forall item, In item data ->
                   dict_keys item
                   = "scraped_at"%string :: "url"%string :: dict_keys rest).
Proof.
  intros Hsel data. split.
  - intros item1 item2 H1 H2.
    apply in_map_iff in H1 as (c1 & <- & _).
    apply in_map_iff in H2 as (c2 & <- & _).
    now apply assign_fields_same_keys.
  - intros Hnd Hs Hu item Hin. apply in_map_iff in Hin as (c & <- & _).
    rewrite Hsel in *. cbn in Hnd. apply NoDup_cons_iff in Hnd as [Hk Hnd].
    cbn [assign_fields]. rewrite String.eqb_refl.
    rewrite assign_fields_fresh_keys; [reflexivity|exact Hnd|exact Hk|].
    intros f Hf [<-|[<-|[]]]; contradiction.
Qed.

(** X16.  All records of one batch have the same keys in the same order,
    in both scrapers, whatever the page holds: a field that matches
    nothing is present with [None], never absent.  When the selector keys
    are distinct and none of the remaining fields is named [scraped_at]
    or [url], the keys are [scraped_at], [url], and then the remaining
    fields in the order of the selector mapping. *)
Theorem records_share_keys `{Env} (config : ScrapeConfig) (w : World) data :
  fst (StaticScraper.scrape config w) = Ret data
  \/ fst (DynamicScraper.scrape config w) = Ret data ->
  (forall item1 item2, In item1 data -> In item2 data ->
                       dict_keys item1 = dict_keys item2)
  /\ (List.NoDup (dict_keys (selectors config)) ->
      ~ In "scraped_at"%string (dict_keys (tl (selectors config))) ->
      ~ In "url"%string (dict_keys (tl (selectors config))) ->
      forall item, In item data ->
                   dict_keys item
                   = "scraped_at"%string :: "url"%string
                     :: dict_keys (tl (selectors config))).
Proof.
  intros [Hrun|Hrun].
  - apply static_scrape_returns in Hrun
      as (k & v & rest & containers & Hsel & ->).
    pose proof (batch_keys static_resolve config (clock w) k v rest
                  containers Hsel) as Hb.
    cbn zeta in Hb. rewrite Hsel in *. exact Hb.
  - apply dynamic_scrape_returns in Hrun
      as (k & v & rest & containers & Hsel & ->).
    pose proof (batch_keys dynamic_resolve config (clock w + 2) k v rest
                  containers Hsel) as Hb.
    cbn zeta in Hb. rewrite Hsel in *. exact Hb.
Qed.

Lemma records_share_keys_witness :
  let E := Toy.env Toy.shop Toy.no_fault in
  let config := Toy.config "shop" "http://shop" "static" "1hour" "json"
                  [("div", "ignored"); ("title", "h2"); ("link", "a")] in
  exists data,
    fst (StaticScraper.scrape config (init_world 5)) = Ret data
    /\ length data = 2%nat
    /\ forall item, In item data ->
                    dict_keys item
                    = ["scraped_at"; "url"; "title"; "link"]%string.
Proof.
  intros E config.
  eexists. split; [vm_compute; reflexivity|]. split; [reflexivity|].
  apply (records_share_keys (H := E) config (init_world 5)).
  - left. vm_compute. reflexivity.
  - repeat constructor; cbn; intuition discriminate.
  - cbn; intuition discriminate.
  - cbn; intuition discriminate.
Defined.

(** ** Retrying the real scrapers *)

Section RetryAnyScraper.
Variable scrape : M (list Item).
Variable max : Z.

(** One round of the loop, for any scraper. *)
Lemma retry_loop_cons a rest w :
  retry_loop scrape max (a :: rest) w
  = match scrape (set_trace (trace w ++ [(clock w, EvScrape)]) w) with
    | (Ret data, w1) => (Ret (Some data), w1)
    | (Raise e, w1) =>
        let w2 := set_log (log w1 ++ [{| lr_time := clock w1;
                                         lr_level := WARNING;
                                         lr_msg := attempt_warning a e |}])
                          w1 in
        if (Z.of_nat a <? max - 1)%Z
        then retry_loop scrape max rest (after_sleep (2 ^ Z.of_nat a) w2)
        else (Raise e, w2)
    end.
Proof.
  cbn [retry_loop].
  unfold try_except, call_scrape, bind, emit, modify, logger, modify.
  destruct (scrape (set_trace (trace w ++ [(clock w, EvScrape)]) w))
    as [[data|e] w1]; [reflexivity|].
  cbn zeta. destruct (Z.of_nat a <? max - 1)%Z; reflexivity.
Qed.

(** A scraper that sends at most one request per call sends at most one
    per attempt under the loop, and none is uncounted. *)
Lemma retry_loop_requests attempts : forall w,
  (forall w0, fetches w0 <= fetches (snd (scrape w0)) <= S (fetches w0))%nat ->
  (fetches w <= fetches (snd (retry_loop scrape max attempts w))
   <= fetches w + length attempts)%nat.
Proof.
  induction attempts as [|a attempts IH]; intros w Hone.
  - cbn. lia.
  - rewrite retry_loop_cons.
    specialize (Hone (set_trace (trace w ++ [(clock w, EvScrape)]) w)) as H1.
    destruct (scrape (set_trace (trace w ++ [(clock w, EvScrape)]) w))
      as [[data|e] w1]; cbn [snd fetches set_trace] in H1.
    + cbn [snd length]. lia.
    + cbn zeta. destruct (Z.of_nat a <? max - 1)%Z.
      * specialize (IH (after_sleep (2 ^ Z.of_nat a)
                          (set_log (log w1 ++ [{| lr_time := clock w1;
                                                  lr_level := WARNING;
                                                  lr_msg := attempt_warning a e |}])
                                   w1)) Hone).
        unfold after_sleep in *.
        cbn [fetches set_clock set_trace set_log length] in *. lia.
      * cbn [snd fetches set_log length]. lia.
Qed.

(** A scraper that always raises, and sends exactly one request per call,
    exhausts the attempts. *)
Lemma retry_loop_always_raises n : forall a w,
  Z.of_nat (a + S n) = max ->
  (forall w0, exists e, fst (scrape w0) = Raise e) ->
  (forall w0, fetches (snd (scrape w0)) = S (fetches w0)) ->
  exists e w',
    retry_loop scrape max (seq a (S n)) w = (Raise e, w')
    /\ fetches w' = (fetches w + S n)%nat.
Proof.
  induction n as [|n IH]; intros a w Hmax Hraise Hone.
  - cbn [seq]. rewrite retry_loop_cons.
    destruct (Hraise (set_trace (trace w ++ [(clock w, EvScrape)]) w))
      as [e He].
    specialize (Hone (set_trace (trace w ++ [(clock w, EvScrape)]) w)) as H1.
    destruct (scrape (set_trace (trace w ++ [(clock w, EvScrape)]) w))
      as [[data|e'] w1] eqn:Hs; cbn [fst snd] in *; [discriminate|].
    replace (Z.of_nat a <? max - 1)%Z with false
      by (symmetry; apply Z.ltb_ge; lia).
    cbn zeta. eexists _, _. split; [reflexivity|].
    cbn [fetches set_log set_trace] in *. lia.
  - change (seq a (S (S n))) with (a :: seq (S a) (S n)).
    rewrite retry_loop_cons.
    destruct (Hraise (set_trace (trace w ++ [(clock w, EvScrape)]) w))
      as [e He].
    specialize (Hone (set_trace (trace w ++ [(clock w, EvScrape)]) w)) as H1.
    destruct (scrape (set_trace (trace w ++ [(clock w, EvScrape)]) w))
      as [[data|e'] w1] eqn:Hs; cbn [fst snd] in *; [discriminate|].
    replace (Z.of_nat a <? max - 1)%Z with true
      by (symmetry; apply Z.ltb_lt; lia).
    cbn zeta.
    destruct (IH (S a)
                (after_sleep (2 ^ Z.of_nat a)
                   (set_log (log w1 ++ [{| lr_time := clock w1;
                                           lr_level := WARNING;
                                           lr_msg := attempt_warning a e' |}])
                            w1)))
      as (e2 & w' & Hrun & Hf); [lia|exact Hraise|exact Hone|].
    exists e2, w'. split; [exact Hrun|].
    rewrite Hf. unfold after_sleep.
    cbn [fetches set_clock set_trace set_log] in *. lia.
Qed.

End RetryAnyScraper.

Section RealScraperRequests.
Context `{Env}.

Lemma static_scrape_one_request config w :
  fetches (snd (StaticScraper.scrape config w)) = S (fetches w).
Proof.
  unfold StaticScraper.scrape, StaticScraper.session_get,
    StaticScraper.raise_for_status, first_key, bind, logger, modify,
    get_world, ret, raise.
  world_simpl.
  destruct (http_get (url config) (StaticScraper.session_headers config)
                     (timeout config) (fetches w)) as [e|response];
    world_simpl; [reflexivity|].
  destruct ((400 <=? fst response) && (fst response <? 600))%Z;
    world_simpl; [reflexivity|].
  destruct (selectors config) as [|[k v] rest]; world_simpl; [reflexivity|].
  rewrite static_each_container. reflexivity.
Qed.

Lemma dynamic_scrape_at_most_one_request config w :
  (fetches w <= fetches (snd (DynamicScraper.scrape config w))
   <= S (fetches w))%nat.
Proof.
  dynamic_unfold.
  destruct (chrome_start (fetches w)) as [e|]; world_simpl.
  { destruct (driver w); world_simpl; lia. }
  destruct (driver_get (url config) (fetches w)) as [e|page]; world_simpl;
    [lia|].
  rewrite wait_for_spec.
  destruct (wait_times_out config page); world_simpl; [lia|].
  destruct (selectors config) as [|[k v] rest]; world_simpl; [lia|].
  destruct (find_elements page k) as [e|containers]; world_simpl; [lia|].
  rewrite dynamic_each_container. world_simpl. lia.
Qed.

Lemma static_scrape_empty_selectors_raises config w :
  selectors config = [] ->
  exists e, fst (StaticScraper.scrape config w) = Raise e.
Proof.
  intros Hsel.
  unfold StaticScraper.scrape, StaticScraper.session_get,
    StaticScraper.raise_for_status, first_key, bind, logger, modify,
    get_world, ret, raise.
  world_simpl. rewrite Hsel.
  destruct (http_get (url config) (StaticScraper.session_headers config)
                     (timeout config) (fetches w)) as [e|response];
    world_simpl; [eexists; reflexivity|].
  destruct ((400 <=? fst response) && (fst response <? 600))%Z;
    world_simpl; eexists; reflexivity.
Qed.

End RealScraperRequests.

(** X17.  A run sends at most [max_retries] requests.  Under
    [retry_scrape] the static scraper sends one request per attempt, so a
    job with [max_retries >= 1] sends at least 1 and at most [max_retries]
    of them; the rendered scraper requests a page only in the attempts in
    which Chrome starts, so it may send none, and never more than
    [max_retries]. *)
Theorem run_requests_bounded `{Env} (config : ScrapeConfig) (w : World) :
  1 <= max_retries config ->
  let ws := snd (retry_scrape (StaticScraper.scrape config) config w) in
  let wd := snd (retry_scrape (DynamicScraper.scrape config) config w) in
  (1 <= Z.of_nat (fetches ws) - Z.of_nat (fetches w) <= max_retries config)
  /\ (0 <= Z.of_nat (fetches wd) - Z.of_nat (fetches w)
      <= max_retries config).
Proof.
  intros Hmax. cbn zeta. unfold retry_scrape.
  destruct (Z.to_nat (max_retries config)) as [|n] eqn:Hn; [lia|].
  split.
  - pose proof (retry_loop_requests (StaticScraper.scrape config)
                  (max_retries config) (seq 0 (S n)) w) as Hupper.
    rewrite length_seq in Hupper.
    assert (Hone : forall w0,
               (fetches w0 <= fetches (snd (StaticScraper.scrape config w0))
                <= S (fetches w0))%nat)
      by (intros w0; rewrite static_scrape_one_request; lia).
    specialize (Hupper Hone).
    split; [|lia].
    cbn [seq]. rewrite retry_loop_cons.
    pose proof (static_scrape_one_request config
                  (set_trace (trace w ++ [(clock w, EvScrape)]) w)) as H1.
    destruct (StaticScraper.scrape config
                (set_trace (trace w ++ [(clock w, EvScrape)]) w))
      as [[data|e] w1]; cbn [snd fetches set_trace] in H1.
    + cbn [snd]. lia.
    + cbn zeta. destruct (Z.of_nat 0 <? max_retries config - 1)%Z.
      * pose proof (retry_loop_requests (StaticScraper.scrape config)
                      (max_retries config) (seq 1 n)
                      (after_sleep (2 ^ Z.of_nat 0)
                         (set_log (log w1 ++ [{| lr_time := clock w1;
                                                 lr_level := WARNING;
                                                 lr_msg := attempt_warning 0 e |}])
                                  w1)) Hone) as Hrest.
        unfold after_sleep in *.
        cbn [fetches set_clock set_trace set_log] in *. lia.
      * cbn [snd fetches set_log]. lia.
  - pose proof (retry_loop_requests (DynamicScraper.scrape config)
                  (max_retries config) (seq 0 (S n)) w
                  (dynamic_scrape_at_most_one_request config)) as Hb.
    rewrite length_seq in Hb. lia.
Qed.

Lemma run_requests_bounded_witness :
  let E := Toy.env Toy.offline Toy.no_fault in
  let ws := snd (retry_scrape (StaticScraper.scrape news_config)
                   news_config (init_world 0)) in
  1 <= Z.of_nat (fetches ws) - 0 <= 3.
Proof.
  intros E ws.
  destruct (run_requests_bounded (H := E) news_config (init_world 0))
    as [Hs _]; [cbn; lia|].
  exact Hs.
Defined.

(** X18.  The loop retries a misconfigured job like a failing site: a
    static job whose selector mapping is empty raises on every attempt,
    and only after its request has been sent, so with [max_retries >= 1]
    [retry_scrape] sends exactly [max_retries] requests before it
    raises. *)
Theorem empty_selectors_are_retried `{Env}
    (config : ScrapeConfig) (w : World) :
  selectors config = [] ->
  1 <= max_retries config ->
  exists e w',
    retry_scrape (StaticScraper.scrape config) config w = (Raise e, w')
    /\ Z.of_nat (fetches w') = Z.of_nat (fetches w) + max_retries config.
Proof.
  intros Hsel Hmax. unfold retry_scrape.
  destruct (Z.to_nat (max_retries config)) as [|n] eqn:Hn; [lia|].
  destruct (retry_loop_always_raises (StaticScraper.scrape config)
              (max_retries config) n 0 w) as (e & w' & Hrun & Hf).
  - lia.
  - intros w0. now apply static_scrape_empty_selectors_raises.
  - intros w0. apply static_scrape_one_request.
  - exists e, w'. split; [exact Hrun|]. lia.
Qed.

Lemma empty_selectors_are_retried_witness :
  let E := Toy.env Toy.shop Toy.no_fault in
  let config := Toy.config "shop" "http://shop" "static" "1hour" "csv" [] in
  exists w',
    retry_scrape (StaticScraper.scrape config) config (init_world 0)
    = (Raise (IndexError "list index out of range"), w')
    /\ fetches w' = 3%nat.
Proof.
  intros E config.
  destruct (empty_selectors_are_retried (H := E) config (init_world 0)
              eq_refl ltac:(cbn; lia)) as (e & w' & Hrun & Hf).
  exists w'. split.
  - rewrite Hrun. f_equal.
    assert (He : fst (retry_scrape (StaticScraper.scrape config) config
                        (init_world 0))
                 = Raise (IndexError "list index out of range"))
      by (vm_compute; reflexivity).
    rewrite Hrun in He. exact He.
  - cbn in Hf. lia.
Defined.

(** ** The registry as a dictionary *)

Section RegistryDict.
Context {V : Type}.
Implicit Types (d : list (string * V)).

Lemma dict_keys_set_present d k (v : V) :
  In k (dict_keys d) -> dict_keys (dict_set d k v) = dict_keys d.
Proof.
  induction d as [|[k' v'] d IH]; intros Hk; [destruct Hk|].
  cbn [dict_set]. destruct (String.eqb_spec k' k) as [->|Hne];
    [reflexivity|].
  cbn [dict_keys map fst] in *. f_equal. apply IH.
  destruct Hk as [Hk|Hk]; [contradiction|exact Hk].
Qed.

Lemma dict_get_In d k (v : V) : dict_get d k = Some v -> In (k, v) d.
Proof.
  induction d as [|[k' v'] d IH]; [discriminate|]. cbn [dict_get].
  destruct (String.eqb_spec k' k) as [->|Hne].
  - intros [= ->]. now left.
  - intros Hget. right. now apply IH.
Qed.

End RegistryDict.

Lemma list_jobs_length (w : World) :
  length (list_jobs w) = (6 * length (jobs w))%nat.
Proof.
  unfold list_jobs. induction (jobs w) as [|entry l IH]; [reflexivity|].
  cbn [flat_map]. rewrite length_app, IH. cbn [list_jobs_block length]. lia.
Qed.

Lemma reachable_jobs_nodup `{Env} w :
  reachable w -> List.NoDup (dict_keys (jobs w)).
Proof.
  induction 1 as [t|config w Hr IH|job_name w Hr IH|ticks w Hr IH|w Hr IH].
  - constructor.
  - rewrite add_job_stores. now apply dict_set_keys_nodup.
  - destruct (run_job_now_returns job_name w) as (w' & Hrun & Hj & _).
    rewrite Hrun. cbn [snd]. now rewrite Hj.
  - pose proof (reachable_registered w Hr) as Hreg.
    unfold WebScraperScheduler.start_scheduler.
    unfold bind at 1, modify at 1. unfold bind at 1, logger at 1, modify at 1.
    destruct (scheduler_loop_steady ticks
                (set_log (log (set_running true w)
                          ++ [{| lr_time := clock (set_running true w);
                                 lr_level := INFO;
                                 lr_msg := "Scheduler started" |}])
                         (set_running true w)))
      as (w' & Hloop & _ & _ & Hj & _); [exact Hreg|reflexivity|].
    rewrite Hloop. cbn [snd]. now rewrite Hj.
  - exact IH.
Qed.

(** X19.  The registry behaves as a dictionary keyed by job name.  In
    every world the process can reach the stored names are distinct, and
    [list_jobs] prints six lines for each, among them the name and the URL
    of every stored job.  Registering a job stores it under its name and
    leaves every other name with the configuration it had; a name that
    was already stored keeps its place in the listing, a new name goes to
    the end. *)
Theorem registry_is_a_dictionary `{Env} (w : World) :
  reachable w ->
  List.NoDup (dict_keys (jobs w))
  /\ length (list_jobs w) = (6 * length (jobs w))%nat
  /\ (forall job_name config,
        dict_get (jobs w) job_name = Some config ->
        In ("Job: " +:+ job_name) (list_jobs w)
        /\ In ("  URL: " +:+ url config) (list_jobs w))
  /\ (forall config,
        let w' := snd (WebScraperScheduler.add_job config w) in
        dict_get (jobs w') (name config) = Some config
        /\ (forall other, other <> name config ->
                          dict_get (jobs w') other = dict_get (jobs w) other)
        /\ dict_keys (jobs w')
           = if dict_mem (jobs w) (name config)
             then dict_keys (jobs w)
             else dict_keys (jobs w) ++ [name config]).
Proof.
  intros Hreach. split; [now apply reachable_jobs_nodup|].
  split; [apply list_jobs_length|]. split.
  - intros job_name config Hget. apply dict_get_In in Hget.
    unfold list_jobs. split; apply in_flat_map; exists (job_name, config);
      (split; [exact Hget|]); cbn; tauto.
  - intros config. cbn zeta. rewrite add_job_stores.
    split; [apply dict_get_set_eq|]. split.
    + intros other Hne. apply dict_get_set_ne. congruence.
    + destruct (dict_mem (jobs w) (name config)) eqn:Hmem.
      * apply dict_keys_set_present. now apply dict_mem_true.
      * apply dict_keys_set_fresh. intros Hin.
        apply dict_mem_true in Hin. congruence.
Qed.

Lemma registry_is_a_dictionary_witness :
  let E := Toy.env Toy.offline Toy.no_fault in
  let w := snd (add_jobs create_example_configs (init_world 0)) in
  let renewed := with_selectors [] news_config in
  reachable w
  /\ dict_keys (jobs w) = ["news_scraper"; "product_scraper"]%string
  /\ dict_keys (jobs (snd (WebScraperScheduler.add_job renewed w)))
     = ["news_scraper"; "product_scraper"]%string
  /\ dict_get (jobs (snd (WebScraperScheduler.add_job renewed w)))
              "news_scraper" = Some renewed
  /\ length (list_jobs w) = 12%nat.
Proof.
  intros E w renewed.
  assert (Hreach : reachable w).
  { apply (reach_add_job product_config
             (snd (WebScraperScheduler.add_job news_config (init_world 0)))).
    apply reach_add_job, reach_init. }
  destruct (registry_is_a_dictionary (H := E) w Hreach)
    as (_ & Hlen & _ & Hadd).
  destruct (Hadd renewed) as (Hget & _ & Hkeys).
  split; [exact Hreach|]. split; [reflexivity|].
  split; [exact Hkeys|]. split; [exact Hget|exact Hlen].
Defined.

(** ** StockMarketDash.py *)

Lemma of_Z_inj (a b : Z) : PyStr.of_Z a = PyStr.of_Z b -> a = b.
Proof.
  unfold PyStr.of_Z. intros Heq. apply DecimalZ.to_int_inj.
  assert (Hparse : forall z,
             NilZero.int_of_string (NilZero.string_of_int (Z.to_int z))
             = Some (Z.to_int z)).
  { intros z. apply NilZero.isi; destruct z as [|p|p]; cbn; try discriminate;
      intros [= Hnil]; now apply (DecimalPos.Unsigned.to_uint_nonnil p). }
  pose proof (Hparse a) as Ha. rewrite Heq, Hparse in Ha. now inversion Ha.
Qed.

Import StockMarketDash.

(** X20.  [load_data] never raises and answers in one of two shapes only:
    both results are [None], or both are present.  They are present
    exactly when the download succeeds with a frame that has at least one
    row and all of [Open], [High], [Low] and [Close]; the frame is then
    returned as downloaded, so the last row of [Close] that the page reads
    next exists.  A failure to fetch the company information never loses
    the data: it only leaves the information empty. *)
Theorem load_data_shapes `{Yahoo} (ticker period interval : string) :
  match load_data ticker period interval with
  | (Some data, Some info) =>
      download ticker period interval = inr data
      /\ (0 < n_rows data)%nat
      /\ (forall col, In col required_columns -> has_column data col = true)
      /\ info = company_info_of ticker
      /\ ((forall e, ticker_info ticker = inl e -> info = [])
          /\ (ticker_info ticker = inr None -> info = []))
  | (None, None) =>
      (exists e, download ticker period interval = inl e)
      \/ (exists data,
            download ticker period interval = inr data
            /\ (n_rows data = 0%nat \/ columns data = []
                \/ exists col, In col required_columns
                               /\ has_column data col = false))
  | _ => False
  end.
Proof.
  unfold load_data.
  destruct (download ticker period interval) as [e|data] eqn:Hd.
  { left. now exists e. }
  unfold empty.
  destruct (n_rows data) as [|n] eqn:Hn.
  { right. exists data. split; [reflexivity|]. now left. }
  destruct (columns data) as [|c cols] eqn:Hc.
  { right. exists data. split; [reflexivity|]. right. now left. }
  cbn [Nat.eqb length orb].
  destruct (forallb (has_column data) required_columns) eqn:Hall;
    cbn [negb].
  - split; [reflexivity|]. split; [lia|]. split.
    + intros col Hin. rewrite forallb_forall in Hall. now apply Hall.
    + split; [reflexivity|]. unfold company_info_of.
      split; [intros e ->|intros ->]; reflexivity.
  - right. exists data. split; [reflexivity|]. right. right.
    assert (Hex : exists col, In col required_columns
                              /\ has_column data col = false).
    { clear -Hall. induction required_columns as [|col l IH];
        [discriminate|].
      cbn in Hall. destruct (has_column data col) eqn:Hcol.
      - destruct (IH Hall) as (c' & Hin & Hc'). exists c'. split;
          [now right|exact Hc'].
      - exists col. split; [now left|exact Hcol]. }
    exact Hex.
Qed.

Lemma load_data_shapes_witness :
  let Y := toy_yahoo in
  exists data,
    load_data "AAPL" "1y" "1d" = (Some data, Some [])
    /\ n_rows data = 3%nat
    /\ load_data "MSFT" "1y" "1d" = (None, None).
Proof.
  intros Y.
  pose proof (load_data_shapes (H := Y) "AAPL" "1y" "1d") as Hshape.
  destruct (load_data "AAPL" "1y" "1d") as [[data|] [info|]] eqn:Hload;
    try contradiction; [|discriminate Hload].
  destruct Hshape as (Hd & _ & _ & _ & Hinfo & _).
  exists data. split.
  - f_equal. f_equal. apply (Hinfo (RequestException "rate limited")).
    reflexivity.
  - split; [|reflexivity]. cbn in Hd. now inversion Hd.
Defined.

Lemma clamp_window_min (data_length ma_days : Z) :
  fst (clamp_window data_length ma_days) = Z.min ma_days data_length
  /\ length (snd (clamp_window data_length ma_days))
     = if (data_length <? ma_days)%Z then 1%nat else 0%nat.
Proof.
  unfold clamp_window.
  destruct (Z.ltb_spec data_length ma_days); cbn [fst snd length];
    split; lia.
Qed.

(** X21.  With moving averages shown, a non-empty frame and two windows of
    at least 1, each window is cut down to the number of rows when the
    frame is shorter, with one warning for each window cut down; both
    rolling means are then added as columns named after their windows,
    and both traces are drawn from them, whatever the sizes.  The rows and
    the other columns of the frame are left as they were.  When two
    windows come out equal they share one column. *)
Theorem moving_averages_windows (data : DataFrame) (ma_days_1 ma_days_2 : Z) :
  (0 < n_rows data)%nat -> 1 <= ma_days_1 -> 1 <= ma_days_2 ->
  let len := Z.of_nat (n_rows data) in
  let w1 := Z.min ma_days_1 len in
  let w2 := Z.min ma_days_2 len in
  let chart := moving_averages data ma_days_1 ma_days_2 in
  (1 <= w1 <= len /\ 1 <= w2 <= len)
  /\ chart_ma_traces chart
     = [(PyStr.of_Z w1 +:+ "-Day MA", ma_column w1);
        (PyStr.of_Z w2 +:+ "-Day MA", ma_column w2)]
  /\ dict_get (columns (chart_data chart)) (ma_column w1)
     = Some (RollingMean w1)
  /\ dict_get (columns (chart_data chart)) (ma_column w2)
     = Some (RollingMean w2)
  /\ (forall col, col <> ma_column w1 -> col <> ma_column w2 ->
                  dict_get (columns (chart_data chart)) col
                  = dict_get (columns data) col)
  /\ n_rows (chart_data chart) = n_rows data
  /\ length (chart_warnings chart)
     = ((if (len <? ma_days_1)%Z then 1 else 0)
        + (if (len <? ma_days_2)%Z then 1 else 0))%nat.
Proof.
  intros Hrows H1 H2 len w1 w2 chart.
  destruct (clamp_window_min len ma_days_1) as [Hw1 Hl1].
  destruct (clamp_window_min len ma_days_2) as [Hw2 Hl2].
  assert (Hb1 : 1 <= w1 <= len) by (subst w1 len; lia).
  assert (Hb2 : 1 <= w2 <= len) by (subst w2 len; lia).
  split; [split; assumption|].
  subst chart. unfold moving_averages. fold len. rewrite Hw1, Hw2.
  fold w1 w2. unfold add_ma.
  replace (0 <? w1)%Z with true by (symmetry; apply Z.ltb_lt; lia).
  replace (0 <? w2)%Z with true by (symmetry; apply Z.ltb_lt; lia).
  cbn [chart_data chart_warnings chart_ma_traces columns n_rows].
  assert (Hget2 : forall d : list (string * Series),
             dict_get (dict_set d (ma_column w2) (RollingMean w2))
                      (ma_column w2) = Some (RollingMean w2))
    by (intros d; apply dict_get_set_eq).
  assert (Hget1 : dict_get (dict_set (dict_set (columns data) (ma_column w1)
                                        (RollingMean w1))
                              (ma_column w2) (RollingMean w2))
                           (ma_column w1) = Some (RollingMean w1)).
  { destruct (String.eqb_spec (ma_column w2) (ma_column w1)) as [Heq|Hne].
    - assert (w2 = w1) as ->.
      { apply of_Z_inj. unfold ma_column in Heq. now inversion Heq. }
      apply dict_get_set_eq.
    - rewrite dict_get_set_ne by exact Hne. apply dict_get_set_eq. }
  split; [|split; [exact Hget1|split; [apply Hget2|split; [|split]]]].
  - unfold ma_trace, has_column, dict_mem.
    cbn [columns]. rewrite Hget1, Hget2. reflexivity.
  - intros col Hc1 Hc2. rewrite !dict_get_set_ne by congruence. reflexivity.
  - reflexivity.
  - rewrite length_app, Hl1, Hl2. reflexivity.
Qed.

Lemma moving_averages_windows_witness :
  let data := {| columns := [("Close", Downloaded)]; n_rows := 3 |} in
  let chart := moving_averages data 20 50 in
  chart_ma_traces chart = [("3-Day MA", "MA3"); ("3-Day MA", "MA3")]%string
  /\ dict_keys (columns (chart_data chart)) = ["Close"; "MA3"]%string
  /\ length (chart_warnings chart) = 2%nat.
Proof.
  intros data chart.
  destruct (moving_averages_windows data 20 50)
    as (_ & Htraces & _ & _ & _ & _ & Hwarn); [cbn; lia | lia | lia |].
  split; [exact Htraces|]. split; [reflexivity|exact Hwarn].
Defined.

(** ** The JSON document *)

Lemma unescape_escape_char (c : ascii) (rest : string) :
  unescape (Json.escape_char c +:+ rest) = String c <$> unescape rest.
Proof.
  destruct c as [b0 b1 b2 b3 b4 b5 b6 b7].
  destruct b0, b1, b2, b3, b4, b5, b6, b7; reflexivity.
Qed.

Lemma unescape_escape (s : string) : unescape (Json.escape s) = Some s.
Proof.
  induction s as [|c s IH]; [reflexivity|].
  cbn [Json.escape]. rewrite unescape_escape_char, IH. reflexivity.
Qed.

Lemma reverse_involutive (s : string) : PyStr.reverse (PyStr.reverse s) = s.
Proof.
  induction s as [|c s IH]; [reflexivity|].
  change (String c s) with (String c "" +:+ s) at 1.
  rewrite reverse_app, reverse_app, IH. reflexivity.
Qed.

Lemma string_app_inv_r (a b c : string) : a +:+ c = b +:+ c -> a = b.
Proof.
  intros Heq. apply (f_equal PyStr.reverse) in Heq.
  rewrite !reverse_app in Heq. apply (inj (String.app _)) in Heq.
  rewrite <- (reverse_involutive a), <- (reverse_involutive b).
  now rewrite Heq.
Qed.

(** X22.  What [to_json] writes for a field loses nothing: the escapes of
    a string can be read back to the string, so two different strings are
    never written alike, two different field values are never written
    alike, and a field that is [None] is written [null], which no string
    is written as, not even the string ["null"]. *)
Theorem json_values_are_distinct :
  (forall s, unescape (Json.escape s) = Some s)
  /\ (forall s1 s2, Json.escape s1 = Json.escape s2 -> s1 = s2)
  /\ (forall v1 v2, Json.of_value v1 = Json.of_value v2 -> v1 = v2)
  /\ (forall s, Json.of_value VNone <> Json.of_value (VStr s)).
Proof.
  assert (Hinj : forall s1 s2, Json.escape s1 = Json.escape s2 -> s1 = s2).
  { intros s1 s2 Heq. apply (f_equal unescape) in Heq.
    rewrite !unescape_escape in Heq. now inversion Heq. }
  assert (Hnull : forall s, Json.of_value VNone <> Json.of_value (VStr s)).
  { intros s Heq. cbv [Json.of_value Json.of_str Json.quote] in Heq.
    rewrite string_app_cons in Heq. discriminate Heq. }
  split; [exact unescape_escape|]. split; [exact Hinj|].
  split; [|exact Hnull].
  intros [|s1] [|s2] Heq; [reflexivity| | |].
  - now apply Hnull in Heq.
  - symmetry in Heq. now apply Hnull in Heq.
  - f_equal. apply Hinj. cbv [Json.of_value Json.of_str] in Heq.
    apply (inj (String.app _)) in Heq. now apply string_app_inv_r in Heq.
Qed.

Lemma json_values_are_distinct_witness :
  Json.of_value VNone = "null"%string
  /\ Json.of_value (VStr "null") <> "null"%string
  /\ unescape (Json.escape (String "010"%char "tab")) 
     = Some (String "010"%char "tab").
Proof.
  destruct json_values_are_distinct as (Hround & _ & _ & Hnull).
  split; [reflexivity|]. split.
  - intros Heq. apply (Hnull "null"%string). now rewrite Heq.
  - apply Hround.
Defined.

(** ** Browser sessions over a whole run *)

Lemma session_state_app (open : bool) (a b : list Event) :
  session_state open (a ++ b)
  = match session_state open a with
    | Some open' => session_state open' b
    | None => None
    end.
Proof.
  revert open. induction a as [|ev a IH]; intros open; [reflexivity|].
  destruct ev; cbn [app session_state]; try apply IH.
  destruct open; [reflexivity|apply IH].
Qed.

Section SessionsUnderRetry.
Variable scrape : M (list Item).
Variable max : Z.
Hypothesis scrape_closes :
  forall w0, exists evs,
    trace (snd (scrape w0)) = trace w0 ++ evs
    /\ session_state false (map snd evs) = Some false.

Lemma retry_loop_closes_sessions attempts : forall w,
  exists evs,
    trace (snd (retry_loop scrape max attempts w)) = trace w ++ evs
    /\ session_state false (map snd evs) = Some false.
Proof.
  induction attempts as [|a attempts IH]; intros w.
  - exists []. cbn. now rewrite app_nil_r.
  - rewrite retry_loop_cons.
    destruct (scrape_closes (set_trace (trace w ++ [(clock w, EvScrape)]) w))
      as (evs & Htr & Hst).
    destruct (scrape (set_trace (trace w ++ [(clock w, EvScrape)]) w))
      as [[data|e] w1]; cbn [snd trace set_trace] in Htr.
    + exists ((clock w, EvScrape) :: evs). cbn [snd].
      split; [now rewrite Htr, <- app_assoc|]. exact Hst.
    + cbn zeta. destruct (Z.of_nat a <? max - 1)%Z.
      * match goal with
        | |- context [retry_loop scrape max attempts ?w2] =>
            destruct (IH w2) as (evs2 & Htr2 & Hst2)
        end.
        exists (((clock w, EvScrape) :: evs)
                ++ (clock w1, EvSleep (2 ^ Z.of_nat a)) :: evs2).
        split.
        -- rewrite Htr2. unfold after_sleep.
           cbn [trace set_clock set_trace set_log clock].
           rewrite Htr, <- !app_assoc. reflexivity.
        -- rewrite map_app, session_state_app.
           cbn [map snd session_state]. rewrite Hst.
           cbn [map snd session_state]. exact Hst2.
      * exists ((clock w, EvScrape) :: evs). cbn [snd trace set_log].
        split; [now rewrite Htr, <- app_assoc|]. exact Hst.
Qed.

End SessionsUnderRetry.

Section ClosesSessions.

Lemma closes_preserves {A} (m : M A) :
  preserves trace m -> closes_sessions m.
Proof.
  intros Hm w. exists []. rewrite (Hm w), app_nil_r. split; reflexivity.
Qed.

Lemma closes_bind {A B} (m : M A) (k : A -> M B) :
  closes_sessions m -> (forall a, closes_sessions (k a)) ->
  closes_sessions (bind m k).
Proof.
  intros Hm Hk w. unfold bind. destruct (Hm w) as (evs & Htr & Hst).
  destruct (m w) as [[a|e] w1]; cbn [snd] in *; [|now exists evs].
  destruct (Hk a w1) as (evs2 & Htr2 & Hst2).
  exists (evs ++ evs2). split.
  - now rewrite Htr2, Htr, <- app_assoc.
  - now rewrite map_app, session_state_app, Hst.
Qed.

Lemma closes_bind_ret {A B} (a : A) (k : A -> M B) :
  closes_sessions (k a) -> closes_sessions (bind (ret a) k).
Proof. intros Hk w. apply Hk. Qed.

Lemma closes_bind_assoc {A B C} (m : M A) (k1 : A -> M B) (k2 : B -> M C) :
  closes_sessions (bind m (fun x => bind (k1 x) k2)) ->
  closes_sessions (bind (bind m k1) k2).
Proof. intros Hk w. rewrite bind_assoc. apply Hk. Qed.

Lemma closes_try_except {A} (body : M A) (handler : Exn -> M A) :
  closes_sessions body -> (forall e, closes_sessions (handler e)) ->
  closes_sessions (try_except body handler).
Proof.
  intros Hb Hh w. unfold try_except. destruct (Hb w) as (evs & Htr & Hst).
  destruct (body w) as [[a|e] w1]; cbn [snd] in *; [now exists evs|].
  destruct (Hh e w1) as (evs2 & Htr2 & Hst2).
  exists (evs ++ evs2). split.
  - now rewrite Htr2, Htr, <- app_assoc.
  - now rewrite map_app, session_state_app, Hst.
Qed.

Lemma closes_retry_scrape (scrape : M (list Item)) config :
  closes_sessions scrape -> closes_sessions (retry_scrape scrape config).
Proof.
  intros Hs w. unfold retry_scrape. now apply retry_loop_closes_sessions.
Qed.

End ClosesSessions.

Section DynamicSessions.
Context `{Env}.

Lemma dynamic_scrape_closes config :
  closes_sessions (DynamicScraper.scrape config).
Proof.
  intros w. dynamic_unfold.
  destruct (chrome_start (fetches w)) as [e|]; world_simpl.
  { destruct (driver w); world_simpl.
    - eexists. split; reflexivity.
    - exists []. rewrite app_nil_r. split; reflexivity. }
  destruct (driver_get (url config) (fetches w)) as [e|page]; world_simpl.
  { eexists. rewrite <- !app_assoc. split; reflexivity. }
  rewrite wait_for_spec.
  destruct (wait_times_out config page); world_simpl.
  { eexists. rewrite <- !app_assoc. split; reflexivity. }
  destruct (selectors config) as [|[k v] rest]; world_simpl.
  { eexists. rewrite <- !app_assoc. split; reflexivity. }
  destruct (find_elements page k) as [e|containers]; world_simpl.
  { eexists. rewrite <- !app_assoc. split; reflexivity. }
  rewrite dynamic_each_container. world_simpl.
  eexists. rewrite <- !app_assoc. split; reflexivity.
Qed.

Lemma export_preserves_trace config job_name data :
  preserves trace (WebScraperScheduler.export config job_name data).
Proof.
  unfold WebScraperScheduler.export, DataExporter.to_csv,
    DataExporter.to_json, DataExporter.to_database,
    DataExporter.write_file, DataExporter.open_sink, DataExporter.to_sql.
  frame.
Qed.

Lemma run_job_closes job_name :
  closes_sessions (WebScraperScheduler._run_job job_name).
Proof.
  unfold WebScraperScheduler._run_job.
  apply closes_bind; [apply closes_preserves; intros w; reflexivity|].
  intros w0. destruct (dict_get (jobs w0) job_name) as [config|];
    [|apply closes_preserves; intros w; reflexivity].
  apply closes_bind; [apply closes_preserves; intros w; reflexivity|].
  intros u. apply closes_try_except;
    [|intros e; apply closes_preserves; intros w; reflexivity].
  unfold WebScraperScheduler.run_body, WebScraperScheduler.make_scraper.
  destruct (String.eqb (scrape_type config) "static").
  - apply closes_bind_ret. apply closes_bind.
    + apply closes_retry_scrape, closes_preserves.
      apply (static_scrape_frame config).
    + intros data. apply closes_bind;
        [apply closes_preserves, export_preserves_trace|].
      intros u'. apply closes_preserves. intros w. reflexivity.
  - apply closes_bind_assoc. apply closes_bind;
      [apply closes_preserves; intros w; reflexivity|intros u'].
    apply closes_bind_ret. apply closes_bind.
    + apply closes_retry_scrape, dynamic_scrape_closes.
    + intros data. apply closes_bind;
        [apply closes_preserves, export_preserves_trace|].
      intros u''. apply closes_preserves. intros w. reflexivity.
Qed.

End DynamicSessions.

(** X23.  No dispatch leaves a browser open.  Over a whole run of
    [_run_job], with all its retries, the trace is only extended, no
    session is started while another is open, and every session started
    has been quit when the run ends; this holds for every job, static or
    rendered, registered or not, and whatever the site and the browser
    do. *)
Theorem run_job_closes_every_session `{Env} (job_name : string) (w : World) :
  exists evs,
    trace (snd (WebScraperScheduler._run_job job_name w)) = trace w ++ evs
    /\ session_state false (map snd evs) = Some false.
Proof. apply run_job_closes. Qed.

(** With Chrome starting but the site offline, the three attempts of a
    rendered job open and close three sessions, one after the other. *)
Example rendered_job_sessions :
  let E := Toy.env Toy.offline Toy.no_fault in
  let w := snd (WebScraperScheduler.add_job product_config (init_world 0)) in
  let w' := snd (WebScraperScheduler._run_job "product_scraper" w) in
  driver_events (trace w')
  = [EvDriverStart; EvDriverQuit; EvDriverStart; EvDriverQuit;
     EvDriverStart; EvDriverQuit]
  /\ session_state false (map snd (trace w')) = Some false.
Proof. intros E w w'. vm_compute. split; reflexivity. Qed.

(** ** Registering a list of jobs *)




(** [main] on the example configurations: both jobs are listed, and the
    news job, whose site does not answer, is reported as failed. *)
Example main_runs :
  let E := Toy.env Toy.offline Toy.no_fault in
  let run := main (init_world 0) in
  fst run
  = Ret ["Configured Jobs:";
         "Job: news_scraper"; "  URL: https://example-news.com";
         "  Type: static"; "  Schedule: 1hour"; "  Output: csv"; "";
         "Job: product_scraper";
         "  URL: https://example-store.com/products";
         "  Type: dynamic"; "  Schedule: 30min"; "  Output: database"; "";
         "Running news_scraper job now..."]%string
  /\ last (messages ERROR (log (snd run)))
     = Some "Job 'news_scraper' failed: offline"%string.
Proof. intros E run. vm_compute. split; reflexivity. Qed.
